(** * Paint scheduling of [RenderWidget] (chrome/renderer/render_widget.cc)

    A shallow embedding of the renderer-side widget: how invalidations
    are gathered, flushed as one [ViewHostMsg_UpdateRect] at a time, and
    acknowledged; how input acknowledgements are rate limited; and how the
    widget resizes and closes.

    The members of the C++ class become the fields of the record
    [RenderWidget]; a method becomes a function on that record.  What the
    widget does to its collaborators (the render thread, the message
    loop, the render process, the WebKit widget) is appended, in program
    order, to the field [effects].  What the collaborators answer is an
    argument of the method that asks. *)

From Stdlib Require Import ZArith List Bool Lia.
Import ListNotations.
Local Open Scope Z_scope.

(** ** Results of code that can hit a debug assertion *)

(** [Fatal]: a [DCHECK] or [NOTREACHED] fired and the process stopped. *)
Inductive Result (A : Type) : Type :=
| Ok (a : A)
| Fatal.
Arguments Ok {A} a.
Arguments Fatal {A}.

Definition bind {A B : Type} (r : Result A) (k : A -> Result B) : Result B :=
  match r with
  | Ok a => k a
  | Fatal => Fatal
  end.

Notation "x <- r ;; k" := (bind r (fun x => k))
  (at level 61, r at next level, right associativity).
Notation "r ;;; k" := (bind r (fun _ => k))
  (at level 61, right associativity).

(** ** Geometry (gfx) *)

(** Modelled from the spec: gfx::Point, gfx::Size and gfx::Rect are
    declared in gfx/, which is not part of this tree.  The spec has a
    rectangle as an integer-origin axis-aligned rectangle and a size as a
    pair (w,h); the fields are the accessors render_widget.cc reads. *)
Record Point : Type := mkPoint { Point_x : Z; Point_y : Z }.

Record Size : Type := mkSize { Size_width : Z; Size_height : Z }.

Record Rect : Type := mkRect {
  Rect_x : Z;
  Rect_y : Z;
  Rect_width : Z;
  Rect_height : Z
}.

(** [gfx::Rect()] *)
Definition Rect_default : Rect := mkRect 0 0 0 0.

(** [gfx::Rect(width, height)] *)
Definition Rect_wh (width height : Z) : Rect := mkRect 0 0 width height.

(** [gfx::Rect(size)] *)
Definition Rect_of_Size (s : Size) : Rect :=
  mkRect 0 0 (Size_width s) (Size_height s).

Definition Rect_origin (r : Rect) : Point := mkPoint (Rect_x r) (Rect_y r).

Definition Rect_set_width (width : Z) (r : Rect) : Rect :=
  mkRect (Rect_x r) (Rect_y r) width (Rect_height r).

Definition Rect_set_height (height : Z) (r : Rect) : Rect :=
  mkRect (Rect_x r) (Rect_y r) (Rect_width r) height.

Definition Size_eqb (a b : Size) : bool :=
  (Size_width a =? Size_width b) && (Size_height a =? Size_height b).

Definition Rect_eqb (a b : Rect) : bool :=
  (Rect_x a =? Rect_x b) && (Rect_y a =? Rect_y b) &&
  (Rect_width a =? Rect_width b) && (Rect_height a =? Rect_height b).

(** The geometric predicates and combinators of gfx/ that the widget calls.
    Their bodies are outside this tree, so the widget is verified for every
    implementation of them. *)
Class GfxOps : Type := {
  Size_IsEmpty : Size -> bool;
  Rect_IsEmpty : Rect -> bool;
  Rect_Intersect : Rect -> Rect -> Rect;
  Rect_Union : Rect -> Rect -> Rect
}.

(** ** The paint aggregator *)

(** [PaintAggregator::PendingUpdate], with the fields DoDeferredUpdate
    reads. *)
Record PendingUpdate : Type := mkPendingUpdate {
  scroll_delta : Point;
  scroll_rect : Rect;
  paint_rects : list Rect
}.

(** chrome/renderer/paint_aggregator.{h,cc} are outside this tree: the
    aggregator is an interface here, and the widget is verified for every
    aggregator. *)
Class PaintAggregatorOps : Type := {
  PaintAggregator : Type;
  HasPendingUpdate : PaintAggregator -> bool;
  ClearPendingUpdate : PaintAggregator -> PaintAggregator;
  GetPendingUpdate : PaintAggregator -> PendingUpdate;
  InvalidateRect : Rect -> PaintAggregator -> PaintAggregator;
  ScrollRect : Z -> Z -> Rect -> PaintAggregator -> PaintAggregator;
  GetScrollDamage : PendingUpdate -> Rect;
  GetPaintBounds : PendingUpdate -> Rect
}.

(** What the spec promises of an aggregator: a cleared aggregator has
    nothing pending, and an aggregator with something pending still has
    something pending after one more invalidation or scroll. *)
Class PaintAggregatorLaws `{PaintAggregatorOps} : Prop := {
  HasPendingUpdate_Clear :
    forall a, HasPendingUpdate (ClearPendingUpdate a) = false;
  HasPendingUpdate_InvalidateRect :
    forall r a, HasPendingUpdate a = true ->
                HasPendingUpdate (InvalidateRect r a) = true;
  HasPendingUpdate_ScrollRect :
    forall dx dy r a, HasPendingUpdate a = true ->
                      HasPendingUpdate (ScrollRect dx dy r a) = true
}.

(** ** Messages *)

(** Modelled from the spec: [ViewHostMsg_UpdateRect_Flags] of
    chrome/common/render_messages_params.h, outside this tree.  The spec
    has a bitset over IsResizeAck, IsRestoreAck and IsRepaintAck, all
    three independent. *)
Module ViewHostMsg_UpdateRect_Flags.
Definition IS_RESIZE_ACK : Z := Z.shiftl 1 0.
Definition IS_RESTORE_ACK : Z := Z.shiftl 1 1.
Definition IS_REPAINT_ACK : Z := Z.shiftl 1 2.
Definition is_resize_ack (flags : Z) : bool :=
  negb (Z.land flags IS_RESIZE_ACK =? 0).
Definition is_restore_ack (flags : Z) : bool :=
  negb (Z.land flags IS_RESTORE_ACK =? 0).
Definition is_repaint_ack (flags : Z) : bool :=
  negb (Z.land flags IS_REPAINT_ACK =? 0).
End ViewHostMsg_UpdateRect_Flags.

(** [WebKit::WebInputEvent::Type]: the enumeration of WebInputEvent.h. *)
Inductive WebInputEventType : Type :=
| MouseDown | MouseUp | MouseMove | MouseEnter | MouseLeave | MouseWheel
| RawKeyDown | KeyDown | KeyUp | Char.

Definition isKeyboardEventType (t : WebInputEventType) : bool :=
  match t with
  | RawKeyDown | KeyDown | KeyUp | Char => true
  | _ => false
  end.

(** [WebKit::WebTextInputType], by its enumerator value. *)
Definition WebTextInputType : Type := Z.
Definition WebTextInputTypeNone : WebTextInputType := 0.

(** [TransportDIB], by its id. *)
Record TransportDIB : Type := mkTransportDIB { TransportDIB_id : Z }.

(** [webkit_glue::WebPluginGeometry], with the fields SchedulePluginMove
    reads; [geometry] stands for the rectangles it carries. *)
Record WebPluginGeometry : Type := mkWebPluginGeometry {
  window : Z;
  rects_valid : bool;
  visible : bool;
  geometry : Rect
}.

Record ViewHostMsg_UpdateRect_Params : Type := mkUpdateRect_Params {
  bitmap : Z;
  bitmap_rect : Rect;
  dx : Z;
  dy : Z;
  params_scroll_rect : Rect;
  copy_rects : list Rect;
  view_size : Size;
  plugin_window_moves : list WebPluginGeometry;
  flags : Z
}.

(** The messages the widget builds, by class; [ViewHostMsg_Other] is any
    other message a caller hands to [Send]. *)
Inductive MessageBody : Type :=
| ViewHostMsg_UpdateRect (params : ViewHostMsg_UpdateRect_Params)
| ViewHostMsg_HandleInputEvent_ACK (type : WebInputEventType)
                                   (processed : bool)
| ViewHostMsg_GpuRenderingActivated (active : bool)
| ViewHostMsg_ImeUpdateTextInputState (type : WebTextInputType)
                                      (caret : Rect)
| ViewHostMsg_Blur
| ViewHostMsg_Close
| ViewHostMsg_Other (tag : Z).

(** [IPC::Message] *)
Record Message : Type := mkMessage {
  routing_id : Z;
  body : MessageBody
}.

Definition set_routing_id (id : Z) (m : Message) : Message :=
  mkMessage id (body m).

(** ** Effects on the collaborators *)

Inductive Task : Type :=
| Task_CallDoDeferredUpdate
| Task_Close
| Task_DoDeferredClose.

Inductive Effect : Type :=
| render_thread_Send (m : Message)
| delete_message (m : Message)
| render_thread_RemoveRoute (id : Z)
| render_thread_WidgetHidden
| render_thread_WidgetRestored
| PostTask (t : Task)
| PostNonNestableTask (t : Task)
| Release
| ReleaseTransportDIB (dib : TransportDIB)
| GetDrawingCanvas (bounds : Rect)
| webwidget_layout
| webwidget_paint (rect : Rect) (canvas_origin : Point)
| webwidget_resize (new_size : Size)
| webwidget_handleInputEvent (type : WebInputEventType)
| webwidget_close.

(** What is not fixed by this file: whether debug assertions are compiled
    in (base/logging.h), the routing id that stands for no route
    (ipc/ipc_message.h), and what the render thread returns from its own
    Send. *)
Class Platform : Type := {
  DCHECK_IS_ON : bool;
  MSG_ROUTING_NONE : Z;
  render_thread_Send_result : Message -> bool
}.

Section Widget.

Context {platform : Platform} {gfx : GfxOps} {aggregator : PaintAggregatorOps}.

Definition DCHECK (condition : bool) : Result unit :=
  if DCHECK_IS_ON && negb condition then Fatal else Ok tt.

Definition NOTREACHED : Result unit := DCHECK false.

(** ** The widget *)

Record RenderWidget : Type := mkRenderWidget {
  routing_id_ : Z;
  webwidget_ : bool;  (* webwidget_ != NULL *)
  current_paint_buf_ : option TransportDIB;
  next_paint_flags_ : Z;
  update_reply_pending_ : bool;
  is_hidden_ : bool;
  needs_repainting_on_restore_ : bool;
  handling_input_event_ : bool;
  closing_ : bool;
  input_method_is_active_ : bool;
  text_input_type_ : WebTextInputType;
  caret_bounds_ : Rect;
  suppress_next_char_events_ : bool;
  is_gpu_rendering_active_ : bool;
  size_ : Size;
  resizer_rect_ : Rect;
  paint_aggregator_ : PaintAggregator;
  pending_input_event_ack_ : option Message;
  plugin_window_moves_ : list WebPluginGeometry;
  effects : list Effect
}.

Definition set_webwidget_ (v : bool) (w : RenderWidget) : RenderWidget :=
  mkRenderWidget (routing_id_ w) v (current_paint_buf_ w) (next_paint_flags_
    w) (update_reply_pending_ w) (is_hidden_ w)
    (needs_repainting_on_restore_ w) (handling_input_event_ w) (closing_ w)
    (input_method_is_active_ w) (text_input_type_ w) (caret_bounds_ w)
    (suppress_next_char_events_ w) (is_gpu_rendering_active_ w) (size_ w)
    (resizer_rect_ w) (paint_aggregator_ w) (pending_input_event_ack_ w)
    (plugin_window_moves_ w) (effects w).

Definition set_current_paint_buf_ (v : option TransportDIB) (w : RenderWidget) : RenderWidget :=
  mkRenderWidget (routing_id_ w) (webwidget_ w) v (next_paint_flags_ w)
    (update_reply_pending_ w) (is_hidden_ w) (needs_repainting_on_restore_
    w) (handling_input_event_ w) (closing_ w) (input_method_is_active_ w)
    (text_input_type_ w) (caret_bounds_ w) (suppress_next_char_events_ w)
    (is_gpu_rendering_active_ w) (size_ w) (resizer_rect_ w)
    (paint_aggregator_ w) (pending_input_event_ack_ w) (plugin_window_moves_
    w) (effects w).

Definition set_next_paint_flags_ (v : Z) (w : RenderWidget) : RenderWidget :=
  mkRenderWidget (routing_id_ w) (webwidget_ w) (current_paint_buf_ w) v
    (update_reply_pending_ w) (is_hidden_ w) (needs_repainting_on_restore_
    w) (handling_input_event_ w) (closing_ w) (input_method_is_active_ w)
    (text_input_type_ w) (caret_bounds_ w) (suppress_next_char_events_ w)
    (is_gpu_rendering_active_ w) (size_ w) (resizer_rect_ w)
    (paint_aggregator_ w) (pending_input_event_ack_ w) (plugin_window_moves_
    w) (effects w).

Definition set_update_reply_pending_ (v : bool) (w : RenderWidget) : RenderWidget :=
  mkRenderWidget (routing_id_ w) (webwidget_ w) (current_paint_buf_ w)
    (next_paint_flags_ w) v (is_hidden_ w) (needs_repainting_on_restore_ w)
    (handling_input_event_ w) (closing_ w) (input_method_is_active_ w)
    (text_input_type_ w) (caret_bounds_ w) (suppress_next_char_events_ w)
    (is_gpu_rendering_active_ w) (size_ w) (resizer_rect_ w)
    (paint_aggregator_ w) (pending_input_event_ack_ w) (plugin_window_moves_
    w) (effects w).

Definition set_is_hidden_ (v : bool) (w : RenderWidget) : RenderWidget :=
  mkRenderWidget (routing_id_ w) (webwidget_ w) (current_paint_buf_ w)
    (next_paint_flags_ w) (update_reply_pending_ w) v
    (needs_repainting_on_restore_ w) (handling_input_event_ w) (closing_ w)
    (input_method_is_active_ w) (text_input_type_ w) (caret_bounds_ w)
    (suppress_next_char_events_ w) (is_gpu_rendering_active_ w) (size_ w)
    (resizer_rect_ w) (paint_aggregator_ w) (pending_input_event_ack_ w)
    (plugin_window_moves_ w) (effects w).

Definition set_needs_repainting_on_restore_ (v : bool) (w : RenderWidget) : RenderWidget :=
  mkRenderWidget (routing_id_ w) (webwidget_ w) (current_paint_buf_ w)
    (next_paint_flags_ w) (update_reply_pending_ w) (is_hidden_ w) v
    (handling_input_event_ w) (closing_ w) (input_method_is_active_ w)
    (text_input_type_ w) (caret_bounds_ w) (suppress_next_char_events_ w)
    (is_gpu_rendering_active_ w) (size_ w) (resizer_rect_ w)
    (paint_aggregator_ w) (pending_input_event_ack_ w) (plugin_window_moves_
    w) (effects w).

Definition set_handling_input_event_ (v : bool) (w : RenderWidget) : RenderWidget :=
  mkRenderWidget (routing_id_ w) (webwidget_ w) (current_paint_buf_ w)
    (next_paint_flags_ w) (update_reply_pending_ w) (is_hidden_ w)
    (needs_repainting_on_restore_ w) v (closing_ w) (input_method_is_active_
    w) (text_input_type_ w) (caret_bounds_ w) (suppress_next_char_events_ w)
    (is_gpu_rendering_active_ w) (size_ w) (resizer_rect_ w)
    (paint_aggregator_ w) (pending_input_event_ack_ w) (plugin_window_moves_
    w) (effects w).

Definition set_closing_ (v : bool) (w : RenderWidget) : RenderWidget :=
  mkRenderWidget (routing_id_ w) (webwidget_ w) (current_paint_buf_ w)
    (next_paint_flags_ w) (update_reply_pending_ w) (is_hidden_ w)
    (needs_repainting_on_restore_ w) (handling_input_event_ w) v
    (input_method_is_active_ w) (text_input_type_ w) (caret_bounds_ w)
    (suppress_next_char_events_ w) (is_gpu_rendering_active_ w) (size_ w)
    (resizer_rect_ w) (paint_aggregator_ w) (pending_input_event_ack_ w)
    (plugin_window_moves_ w) (effects w).

Definition set_input_method_is_active_ (v : bool) (w : RenderWidget) : RenderWidget :=
  mkRenderWidget (routing_id_ w) (webwidget_ w) (current_paint_buf_ w)
    (next_paint_flags_ w) (update_reply_pending_ w) (is_hidden_ w)
    (needs_repainting_on_restore_ w) (handling_input_event_ w) (closing_ w)
    v (text_input_type_ w) (caret_bounds_ w) (suppress_next_char_events_ w)
    (is_gpu_rendering_active_ w) (size_ w) (resizer_rect_ w)
    (paint_aggregator_ w) (pending_input_event_ack_ w) (plugin_window_moves_
    w) (effects w).

Definition set_text_input_type_ (v : WebTextInputType) (w : RenderWidget) : RenderWidget :=
  mkRenderWidget (routing_id_ w) (webwidget_ w) (current_paint_buf_ w)
    (next_paint_flags_ w) (update_reply_pending_ w) (is_hidden_ w)
    (needs_repainting_on_restore_ w) (handling_input_event_ w) (closing_ w)
    (input_method_is_active_ w) v (caret_bounds_ w)
    (suppress_next_char_events_ w) (is_gpu_rendering_active_ w) (size_ w)
    (resizer_rect_ w) (paint_aggregator_ w) (pending_input_event_ack_ w)
    (plugin_window_moves_ w) (effects w).

Definition set_caret_bounds_ (v : Rect) (w : RenderWidget) : RenderWidget :=
  mkRenderWidget (routing_id_ w) (webwidget_ w) (current_paint_buf_ w)
    (next_paint_flags_ w) (update_reply_pending_ w) (is_hidden_ w)
    (needs_repainting_on_restore_ w) (handling_input_event_ w) (closing_ w)
    (input_method_is_active_ w) (text_input_type_ w) v
    (suppress_next_char_events_ w) (is_gpu_rendering_active_ w) (size_ w)
    (resizer_rect_ w) (paint_aggregator_ w) (pending_input_event_ack_ w)
    (plugin_window_moves_ w) (effects w).

Definition set_suppress_next_char_events_ (v : bool) (w : RenderWidget) : RenderWidget :=
  mkRenderWidget (routing_id_ w) (webwidget_ w) (current_paint_buf_ w)
    (next_paint_flags_ w) (update_reply_pending_ w) (is_hidden_ w)
    (needs_repainting_on_restore_ w) (handling_input_event_ w) (closing_ w)
    (input_method_is_active_ w) (text_input_type_ w) (caret_bounds_ w) v
    (is_gpu_rendering_active_ w) (size_ w) (resizer_rect_ w)
    (paint_aggregator_ w) (pending_input_event_ack_ w) (plugin_window_moves_
    w) (effects w).

Definition set_is_gpu_rendering_active_ (v : bool) (w : RenderWidget) : RenderWidget :=
  mkRenderWidget (routing_id_ w) (webwidget_ w) (current_paint_buf_ w)
    (next_paint_flags_ w) (update_reply_pending_ w) (is_hidden_ w)
    (needs_repainting_on_restore_ w) (handling_input_event_ w) (closing_ w)
    (input_method_is_active_ w) (text_input_type_ w) (caret_bounds_ w)
    (suppress_next_char_events_ w) v (size_ w) (resizer_rect_ w)
    (paint_aggregator_ w) (pending_input_event_ack_ w) (plugin_window_moves_
    w) (effects w).

Definition set_size_ (v : Size) (w : RenderWidget) : RenderWidget :=
  mkRenderWidget (routing_id_ w) (webwidget_ w) (current_paint_buf_ w)
    (next_paint_flags_ w) (update_reply_pending_ w) (is_hidden_ w)
    (needs_repainting_on_restore_ w) (handling_input_event_ w) (closing_ w)
    (input_method_is_active_ w) (text_input_type_ w) (caret_bounds_ w)
    (suppress_next_char_events_ w) (is_gpu_rendering_active_ w) v
    (resizer_rect_ w) (paint_aggregator_ w) (pending_input_event_ack_ w)
    (plugin_window_moves_ w) (effects w).

Definition set_resizer_rect_ (v : Rect) (w : RenderWidget) : RenderWidget :=
  mkRenderWidget (routing_id_ w) (webwidget_ w) (current_paint_buf_ w)
    (next_paint_flags_ w) (update_reply_pending_ w) (is_hidden_ w)
    (needs_repainting_on_restore_ w) (handling_input_event_ w) (closing_ w)
    (input_method_is_active_ w) (text_input_type_ w) (caret_bounds_ w)
    (suppress_next_char_events_ w) (is_gpu_rendering_active_ w) (size_ w) v
    (paint_aggregator_ w) (pending_input_event_ack_ w) (plugin_window_moves_
    w) (effects w).

Definition set_paint_aggregator_ (v : PaintAggregator) (w : RenderWidget) : RenderWidget :=
  mkRenderWidget (routing_id_ w) (webwidget_ w) (current_paint_buf_ w)
    (next_paint_flags_ w) (update_reply_pending_ w) (is_hidden_ w)
    (needs_repainting_on_restore_ w) (handling_input_event_ w) (closing_ w)
    (input_method_is_active_ w) (text_input_type_ w) (caret_bounds_ w)
    (suppress_next_char_events_ w) (is_gpu_rendering_active_ w) (size_ w)
    (resizer_rect_ w) v (pending_input_event_ack_ w) (plugin_window_moves_
    w) (effects w).

Definition set_pending_input_event_ack_ (v : option Message) (w : RenderWidget) : RenderWidget :=
  mkRenderWidget (routing_id_ w) (webwidget_ w) (current_paint_buf_ w)
    (next_paint_flags_ w) (update_reply_pending_ w) (is_hidden_ w)
    (needs_repainting_on_restore_ w) (handling_input_event_ w) (closing_ w)
    (input_method_is_active_ w) (text_input_type_ w) (caret_bounds_ w)
    (suppress_next_char_events_ w) (is_gpu_rendering_active_ w) (size_ w)
    (resizer_rect_ w) (paint_aggregator_ w) v (plugin_window_moves_ w)
    (effects w).

Definition set_plugin_window_moves_ (v : list WebPluginGeometry) (w : RenderWidget) : RenderWidget :=
  mkRenderWidget (routing_id_ w) (webwidget_ w) (current_paint_buf_ w)
    (next_paint_flags_ w) (update_reply_pending_ w) (is_hidden_ w)
    (needs_repainting_on_restore_ w) (handling_input_event_ w) (closing_ w)
    (input_method_is_active_ w) (text_input_type_ w) (caret_bounds_ w)
    (suppress_next_char_events_ w) (is_gpu_rendering_active_ w) (size_ w)
    (resizer_rect_ w) (paint_aggregator_ w) (pending_input_event_ack_ w) v
    (effects w).

Definition set_effects (v : list Effect) (w : RenderWidget) : RenderWidget :=
  mkRenderWidget (routing_id_ w) (webwidget_ w) (current_paint_buf_ w)
    (next_paint_flags_ w) (update_reply_pending_ w) (is_hidden_ w)
    (needs_repainting_on_restore_ w) (handling_input_event_ w) (closing_ w)
    (input_method_is_active_ w) (text_input_type_ w) (caret_bounds_ w)
    (suppress_next_char_events_ w) (is_gpu_rendering_active_ w) (size_ w)
    (resizer_rect_ w) (paint_aggregator_ w) (pending_input_event_ack_ w)
    (plugin_window_moves_ w) v.


(** ** Helpers of the class *)

Definition emit (e : Effect) (w : RenderWidget) : RenderWidget :=
  set_effects (effects w ++ [e]) w.

Definition update_reply_pending (w : RenderWidget) : bool :=
  update_reply_pending_ w.

Definition next_paint_is_resize_ack (w : RenderWidget) : bool :=
  ViewHostMsg_UpdateRect_Flags.is_resize_ack (next_paint_flags_ w).

Definition next_paint_is_restore_ack (w : RenderWidget) : bool :=
  ViewHostMsg_UpdateRect_Flags.is_restore_ack (next_paint_flags_ w).

Definition set_next_paint_is_resize_ack (w : RenderWidget) : RenderWidget :=
  set_next_paint_flags_
    (Z.lor (next_paint_flags_ w) ViewHostMsg_UpdateRect_Flags.IS_RESIZE_ACK) w.

Definition set_next_paint_is_restore_ack (w : RenderWidget) : RenderWidget :=
  set_next_paint_flags_
    (Z.lor (next_paint_flags_ w) ViewHostMsg_UpdateRect_Flags.IS_RESTORE_ACK) w.

Definition set_next_paint_is_repaint_ack (w : RenderWidget) : RenderWidget :=
  set_next_paint_flags_
    (Z.lor (next_paint_flags_ w) ViewHostMsg_UpdateRect_Flags.IS_REPAINT_ACK) w.

(** [RenderWidget::Send] *)
Definition Send (message : Message) (w : RenderWidget)
  : bool * RenderWidget :=
  if closing_ w then (false, emit (delete_message message) w)
  else
    let message :=
      if routing_id message =? MSG_ROUTING_NONE
      then set_routing_id (routing_id_ w) message
      else message in
    (render_thread_Send_result message, emit (render_thread_Send message) w).

(** [Send] where the caller drops the result, as every caller here does. *)
Definition Send_ (message : Message) (w : RenderWidget) : RenderWidget :=
  snd (Send message w).

(** [RenderWidget::SetHidden] *)
Definition SetHidden (hidden : bool) (w : RenderWidget) : RenderWidget :=
  if Bool.eqb (is_hidden_ w) hidden then w
  else
    let w := set_is_hidden_ hidden w in
    if is_hidden_ w then emit render_thread_WidgetHidden w
    else emit render_thread_WidgetRestored w.

(** ** WebWidgetDelegate: notifications from WebKit *)

(** [RenderWidget::didInvalidateRect] *)
Definition didInvalidateRect (rect : Rect) (w : RenderWidget)
  : RenderWidget :=
  let update_pending := HasPendingUpdate (paint_aggregator_ w) in
  let view_rect := Rect_of_Size (size_ w) in
  let damaged_rect := Rect_Intersect view_rect rect in
  if Rect_IsEmpty damaged_rect then w
  else
    let w :=
      set_paint_aggregator_
        (InvalidateRect damaged_rect (paint_aggregator_ w)) w in
    if update_pending then w
    else if negb (HasPendingUpdate (paint_aggregator_ w)) then w
    else if update_reply_pending w then w
    else emit (PostTask Task_CallDoDeferredUpdate) w.

(** [RenderWidget::didScrollRect] *)
Definition didScrollRect (dx dy : Z) (clip_rect : Rect) (w : RenderWidget)
  : RenderWidget :=
  let update_pending := HasPendingUpdate (paint_aggregator_ w) in
  let view_rect := Rect_of_Size (size_ w) in
  let damaged_rect := Rect_Intersect view_rect clip_rect in
  if Rect_IsEmpty damaged_rect then w
  else
    let w :=
      set_paint_aggregator_
        (ScrollRect dx dy damaged_rect (paint_aggregator_ w)) w in
    if update_pending then w
    else if negb (HasPendingUpdate (paint_aggregator_ w)) then w
    else if update_reply_pending w then w
    else emit (PostTask Task_CallDoDeferredUpdate) w.

(** [RenderWidget::didBlur] *)
Definition didBlur (w : RenderWidget) : RenderWidget :=
  Send_ (mkMessage (routing_id_ w) ViewHostMsg_Blur) w.

(** [RenderWidget::DoDeferredClose] *)
Definition DoDeferredClose (w : RenderWidget) : RenderWidget :=
  Send_ (mkMessage (routing_id_ w) ViewHostMsg_Close) w.

(** [RenderWidget::closeWidgetSoon] *)
Definition closeWidgetSoon (w : RenderWidget) : RenderWidget :=
  emit (PostTask Task_DoDeferredClose) w.

(** [RenderWidget::GenerateFullRepaint] *)
Definition GenerateFullRepaint (w : RenderWidget) : RenderWidget :=
  didInvalidateRect
    (Rect_wh (Size_width (size_ w)) (Size_height (size_ w))) w.

(** [RenderWidget::SchedulePluginMove] *)
Fixpoint SchedulePluginMove_loop (move : WebPluginGeometry)
  (moves : list WebPluginGeometry) : list WebPluginGeometry :=
  match moves with
  | [] => [move]
  | m :: rest =>
      if window m =? window move then
        (if rects_valid move then move
         else mkWebPluginGeometry (window m) (rects_valid m) (visible move)
                                  (geometry m)) :: rest
      else m :: SchedulePluginMove_loop move rest
  end.

Definition SchedulePluginMove (move : WebPluginGeometry) (w : RenderWidget)
  : RenderWidget :=
  set_plugin_window_moves_
    (SchedulePluginMove_loop move (plugin_window_moves_ w)) w.

(** [RenderWidget::CleanupWindowInPluginMoves] *)
Fixpoint CleanupWindowInPluginMoves_loop (window' : Z)
  (moves : list WebPluginGeometry) : list WebPluginGeometry :=
  match moves with
  | [] => []
  | m :: rest =>
      if window m =? window' then rest
      else m :: CleanupWindowInPluginMoves_loop window' rest
  end.

Definition CleanupWindowInPluginMoves (window' : Z) (w : RenderWidget)
  : RenderWidget :=
  set_plugin_window_moves_
    (CleanupWindowInPluginMoves_loop window' (plugin_window_moves_ w)) w.

(** A notification WebKit raises on the delegate while the widget is inside
    one of its calls (layout, paint, resize, handleInputEvent). *)
Inductive DelegateCall : Type :=
| call_didInvalidateRect (rect : Rect)
| call_didScrollRect (dx dy : Z) (clip_rect : Rect)
| call_didBlur
| call_closeWidgetSoon
| call_SchedulePluginMove (move : WebPluginGeometry).

Definition delegate (c : DelegateCall) (w : RenderWidget) : RenderWidget :=
  match c with
  | call_didInvalidateRect rect => didInvalidateRect rect w
  | call_didScrollRect dx dy clip_rect => didScrollRect dx dy clip_rect w
  | call_didBlur => didBlur w
  | call_closeWidgetSoon => closeWidgetSoon w
  | call_SchedulePluginMove move => SchedulePluginMove move w
  end.

Definition delegate_all (calls : list DelegateCall) (w : RenderWidget)
  : RenderWidget :=
  fold_left (fun w c => delegate c w) calls w.


(** ** Painting *)

(** [RenderWidget::PaintRect]: the canvas work leaves the widget alone;
    [webwidget_->paint] may raise notifications ([calls]). *)
Definition PaintRect (rect : Rect) (canvas_origin : Point)
  (calls : list DelegateCall) (w : RenderWidget) : RenderWidget :=
  delegate_all calls (emit (webwidget_paint rect canvas_origin) w).

(** The loop [for (i = 0; i < copy_rects.size(); ++i) PaintRect(...)]. *)
Fixpoint paint_copy_rects (i : nat) (copy_rects : list Rect)
  (canvas_origin : Point) (paint_calls : nat -> list DelegateCall)
  (w : RenderWidget) : RenderWidget :=
  match copy_rects with
  | [] => w
  | rect :: rest =>
      paint_copy_rects (S i) rest canvas_origin paint_calls
        (PaintRect rect canvas_origin (paint_calls i) w)
  end.

(** What [RenderProcess::GetDrawingCanvas(&current_paint_buf_, bounds)]
    hands back: no canvas (and whatever it left in the buffer pointer), or
    a buffer and a canvas of some device size. *)
Inductive DrawingCanvas : Type :=
| no_canvas (memory : option TransportDIB)
| canvas_of (memory : TransportDIB) (device_width device_height : Z).

(** The answers of the collaborators during one DoDeferredUpdate. *)
Record DeferredUpdateAnswers : Type := mkDeferredUpdateAnswers {
  isAcceleratedCompositingActive : bool;
  layout_calls : list DelegateCall;
  drawing_canvas : DrawingCanvas;
  paint_calls : nat -> list DelegateCall;
  textInputType : WebTextInputType;
  caretOrSelectionBounds : Rect
}.

(** [RenderWidget::UpdateInputMethod] *)
Definition UpdateInputMethod (new_type_answer : WebTextInputType)
  (new_caret_bounds_answer : Rect) (w : RenderWidget) : RenderWidget :=
  if negb (input_method_is_active_ w) then w
  else
    let new_type :=
      if webwidget_ w then new_type_answer else WebTextInputTypeNone in
    let new_caret_bounds :=
      if webwidget_ w then new_caret_bounds_answer else Rect_default in
    if negb (text_input_type_ w =? new_type) ||
       negb (Rect_eqb (caret_bounds_ w) new_caret_bounds)
    then
      let w := set_text_input_type_ new_type w in
      let w := set_caret_bounds_ new_caret_bounds w in
      Send_ (mkMessage (routing_id_ w)
               (ViewHostMsg_ImeUpdateTextInputState new_type
                  new_caret_bounds)) w
    else w.

(** [RenderWidget::DoDeferredUpdate].  The histogram sample and the
    subclass hook DidInitiatePaint (empty in this class) are left out. *)
Definition DoDeferredUpdate (env : DeferredUpdateAnswers) (w : RenderWidget)
  : Result RenderWidget :=
  if negb (webwidget_ w) || negb (HasPendingUpdate (paint_aggregator_ w)) ||
     update_reply_pending w
  then Ok w
  else if is_hidden_ w || Size_IsEmpty (size_ w) then
    let w :=
      set_paint_aggregator_ (ClearPendingUpdate (paint_aggregator_ w)) w in
    Ok (set_needs_repainting_on_restore_ true w)
  else
    let w :=
      if negb (Bool.eqb (isAcceleratedCompositingActive env)
                        (is_gpu_rendering_active_ w))
      then
        let w :=
          set_is_gpu_rendering_active_
            (isAcceleratedCompositingActive env) w in
        Send_ (mkMessage (routing_id_ w)
                 (ViewHostMsg_GpuRenderingActivated
                    (is_gpu_rendering_active_ w))) w
      else w in
    let w := delegate_all (layout_calls env) (emit webwidget_layout w) in
    let update := GetPendingUpdate (paint_aggregator_ w) in
    let w :=
      set_paint_aggregator_ (ClearPendingUpdate (paint_aggregator_ w)) w in
    let scroll_damage := GetScrollDamage update in
    let bounds := Rect_Union (GetPaintBounds update) scroll_damage in
    let w := emit (GetDrawingCanvas bounds) w in
    match drawing_canvas env with
    | no_canvas memory =>
        let w := set_current_paint_buf_ memory w in
        NOTREACHED ;;;
        Ok w
    | canvas_of memory device_width device_height =>
        let w := set_current_paint_buf_ (Some memory) w in
        DCHECK (Rect_width bounds =? device_width) ;;;
        DCHECK (Rect_height bounds =? device_height) ;;;
        let bounds :=
          Rect_set_height device_height
            (Rect_set_width device_width bounds) in
        let update_paint_rects :=
          if Rect_IsEmpty (scroll_rect update) then [bounds]
          else paint_rects update in
        let copy_rects :=
          if negb (Rect_IsEmpty scroll_damage)
          then update_paint_rects ++ [scroll_damage]
          else update_paint_rects in
        let w :=
          paint_copy_rects 0 copy_rects (Rect_origin bounds)
            (paint_calls env) w in
        let params :=
          mkUpdateRect_Params
            (TransportDIB_id memory)
            bounds
            (Point_x (scroll_delta update))
            (Point_y (scroll_delta update))
            (if is_gpu_rendering_active_ w then Rect_default
             else scroll_rect update)
            (if is_gpu_rendering_active_ w then [] else copy_rects)
            (size_ w)
            (plugin_window_moves_ w)
            (next_paint_flags_ w) in
        let w := set_plugin_window_moves_ [] w in
        let w := set_update_reply_pending_ true w in
        let w :=
          Send_ (mkMessage (routing_id_ w) (ViewHostMsg_UpdateRect params))
            w in
        let w := set_next_paint_flags_ 0 w in
        Ok (UpdateInputMethod (textInputType env)
              (caretOrSelectionBounds env) w)
    end.

(** [RenderWidget::CallDoDeferredUpdate] *)
Definition CallDoDeferredUpdate (env : DeferredUpdateAnswers)
  (w : RenderWidget) : Result RenderWidget :=
  w <- DoDeferredUpdate env w ;;
  match pending_input_event_ack_ w with
  | Some ack => Ok (Send_ ack (set_pending_input_event_ack_ None w))
  | None => Ok w
  end.


(** ** Messages from the browser *)

(** [RenderWidget::OnUpdateRectAck]; the subclass hook DidFlushPaint is
    empty in this class. *)
Definition OnUpdateRectAck (env : DeferredUpdateAnswers) (w : RenderWidget)
  : Result RenderWidget :=
  DCHECK (update_reply_pending w) ;;;
  let w := set_update_reply_pending_ false w in
  let w :=
    match current_paint_buf_ w with
    | Some dib => set_current_paint_buf_ None (emit (ReleaseTransportDIB dib) w)
    | None => w
    end in
  CallDoDeferredUpdate env w.

(** [RenderWidget::OnClose] *)
Definition OnClose (w : RenderWidget) : RenderWidget :=
  if closing_ w then w
  else
    let w := set_closing_ true w in
    let w :=
      if negb (routing_id_ w =? MSG_ROUTING_NONE) then
        SetHidden false (emit (render_thread_RemoveRoute (routing_id_ w)) w)
      else w in
    let w := emit (PostNonNestableTask Task_Close) w in
    emit Release w.

(** [RenderWidget::Close], the task OnClose posts. *)
Definition Close (w : RenderWidget) : RenderWidget :=
  if webwidget_ w then set_webwidget_ false (emit webwidget_close w)
  else w.

(** [RenderWidget::OnResize]; [resize_calls] are the notifications raised
    by [webwidget_->resize(new_size)]. *)
Definition OnResize (new_size : Size) (resizer_rect : Rect)
  (resize_calls : list DelegateCall) (w : RenderWidget)
  : Result RenderWidget :=
  if negb (webwidget_ w) then Ok w
  else
    let w := set_resizer_rect_ resizer_rect w in
    let w := SetHidden false w in
    let w := set_needs_repainting_on_restore_ false w in
    DCHECK (negb (Size_eqb (size_ w) new_size)) ;;;
    let w := set_size_ new_size w in
    DCHECK (negb (next_paint_is_resize_ack w)) ;;;
    let w :=
      set_paint_aggregator_ (ClearPendingUpdate (paint_aggregator_ w)) w in
    let w := delegate_all resize_calls (emit (webwidget_resize new_size) w) in
    if negb (Size_IsEmpty new_size) then
      DCHECK (HasPendingUpdate (paint_aggregator_ w)) ;;;
      Ok (set_next_paint_is_resize_ack w)
    else Ok w.

(** [RenderWidget::OnWasHidden] *)
Definition OnWasHidden (w : RenderWidget) : RenderWidget :=
  SetHidden true w.

(** [RenderWidget::OnWasRestored] *)
Definition OnWasRestored (needs_repainting : bool) (w : RenderWidget)
  : RenderWidget :=
  if negb (webwidget_ w) then w
  else
    let w := SetHidden false w in
    if negb needs_repainting && negb (needs_repainting_on_restore_ w) then w
    else
      let w := set_needs_repainting_on_restore_ false w in
      let w := set_next_paint_is_restore_ack w in
      didInvalidateRect
        (Rect_wh (Size_width (size_ w)) (Size_height (size_ w))) w.

(** [RenderWidget::OnMsgRepaint] *)
Definition OnMsgRepaint (size_to_paint : Size) (w : RenderWidget)
  : RenderWidget :=
  if negb (webwidget_ w) then w
  else
    let w := set_next_paint_is_repaint_ack w in
    let repaint_rect :=
      Rect_wh (Size_width size_to_paint) (Size_height size_to_paint) in
    didInvalidateRect repaint_rect w.

(** [RenderWidget::OnSetInputMethodActive] *)
Definition OnSetInputMethodActive (is_active : bool) (w : RenderWidget)
  : RenderWidget :=
  set_input_method_is_active_ is_active w.

(** The payload of a ViewMsg_HandleInputEvent: the event, when ReadData
    succeeds, and the flag that follows a RawKeyDown. *)
Record InputEventMessage : Type := mkInputEventMessage {
  input_event : option WebInputEventType;
  is_keyboard_shortcut_flag : bool
}.

(** What [webwidget_->handleInputEvent] answers and raises. *)
Record InputEventAnswers : Type := mkInputEventAnswers {
  handleInputEvent_processed : bool;
  handleInputEvent_calls : list DelegateCall
}.

Definition WebInputEventType_eqb (a b : WebInputEventType) : bool :=
  match a, b with
  | MouseDown, MouseDown | MouseUp, MouseUp | MouseMove, MouseMove
  | MouseEnter, MouseEnter | MouseLeave, MouseLeave
  | MouseWheel, MouseWheel | RawKeyDown, RawKeyDown | KeyDown, KeyDown
  | KeyUp, KeyUp | Char, Char => true
  | _, _ => false
  end.

(** [RenderWidget::OnHandleInputEvent]; the subclass hook DidHandleKeyEvent
    is empty in this class. *)
Definition OnHandleInputEvent (message : InputEventMessage)
  (env : InputEventAnswers) (w : RenderWidget) : RenderWidget :=
  let w := set_handling_input_event_ true w in
  match input_event message with
  | None => set_handling_input_event_ false w
  | Some type =>
      let is_keyboard_shortcut :=
        if WebInputEventType_eqb type RawKeyDown
        then is_keyboard_shortcut_flag message
        else false in
      let '(processed, w) :=
        if negb (WebInputEventType_eqb type Char) ||
           negb (suppress_next_char_events_ w)
        then
          let w := set_suppress_next_char_events_ false w in
          if webwidget_ w then
            (handleInputEvent_processed env,
             delegate_all (handleInputEvent_calls env)
               (emit (webwidget_handleInputEvent type) w))
          else (false, w)
        else (false, w) in
      let w :=
        if negb processed && is_keyboard_shortcut
        then set_suppress_next_char_events_ true w
        else w in
      let response :=
        mkMessage (routing_id_ w)
          (ViewHostMsg_HandleInputEvent_ACK type processed) in
      let w :=
        if (WebInputEventType_eqb type MouseMove ||
            WebInputEventType_eqb type MouseWheel) &&
           HasPendingUpdate (paint_aggregator_ w)
        then
          let w :=
            match pending_input_event_ack_ w with
            | Some ack => Send_ ack (set_pending_input_event_ack_ None w)
            | None => w
            end in
          set_pending_input_event_ack_ (Some response) w
        else Send_ response w in
      set_handling_input_event_ false w
  end.

(** ** Runs of the widget *)

(** One turn of the message loop as far as this class sees it: a message
    of the browser, a notification of WebKit, a posted task that runs, a
    public method a subclass calls, or any other caller that hands a
    message of its own to [Send].  The methods of the class that are not
    modelled (cursor, focus, window rectangle, input method composition,
    PaintAtSize) touch the members modelled here only through [Send],
    [PaintRect] and the notifications WebKit raises, so a run of them is a
    run of [op_Send], [op_PaintRect] and [op_delegate]. *)
Inductive Op : Type :=
| op_OnClose
| op_OnResize (new_size : Size) (resizer_rect : Rect)
              (resize_calls : list DelegateCall)
| op_OnWasHidden
| op_OnWasRestored (needs_repainting : bool)
| op_OnUpdateRectAck (env : DeferredUpdateAnswers)
| op_OnHandleInputEvent (message : InputEventMessage)
                        (env : InputEventAnswers)
| op_OnSetInputMethodActive (is_active : bool)
| op_OnMsgRepaint (size_to_paint : Size)
| op_delegate (c : DelegateCall)
| op_CallDoDeferredUpdate (env : DeferredUpdateAnswers)
| op_Close
| op_DoDeferredClose
| op_CleanupWindowInPluginMoves (window' : Z)
| op_GenerateFullRepaint
| op_UpdateInputMethod (new_type : WebTextInputType) (new_caret_bounds : Rect)
| op_PaintRect (rect : Rect) (canvas_origin : Point)
               (calls : list DelegateCall)
| op_Send (routing : Z) (tag : Z).

Definition step (op : Op) (w : RenderWidget) : Result RenderWidget :=
  match op with
  | op_OnClose => Ok (OnClose w)
  | op_OnResize new_size resizer_rect resize_calls =>
      OnResize new_size resizer_rect resize_calls w
  | op_OnWasHidden => Ok (OnWasHidden w)
  | op_OnWasRestored needs_repainting => Ok (OnWasRestored needs_repainting w)
  | op_OnUpdateRectAck env => OnUpdateRectAck env w
  | op_OnHandleInputEvent message env => Ok (OnHandleInputEvent message env w)
  | op_OnSetInputMethodActive is_active =>
      Ok (OnSetInputMethodActive is_active w)
  | op_OnMsgRepaint size_to_paint => Ok (OnMsgRepaint size_to_paint w)
  | op_delegate c => Ok (delegate c w)
  | op_CallDoDeferredUpdate env => CallDoDeferredUpdate env w
  | op_Close => Ok (Close w)
  | op_DoDeferredClose => Ok (DoDeferredClose w)
  | op_CleanupWindowInPluginMoves window' =>
      Ok (CleanupWindowInPluginMoves window' w)
  | op_GenerateFullRepaint => Ok (GenerateFullRepaint w)
  | op_UpdateInputMethod new_type new_caret_bounds =>
      Ok (UpdateInputMethod new_type new_caret_bounds w)
  | op_PaintRect rect canvas_origin calls =>
      Ok (PaintRect rect canvas_origin calls w)
  | op_Send routing tag =>
      Ok (Send_ (mkMessage routing (ViewHostMsg_Other tag)) w)
  end.

Fixpoint run (ops : list Op) (w : RenderWidget) : Result RenderWidget :=
  match ops with
  | [] => Ok w
  | op :: rest => w <- step op w ;; run rest w
  end.

Definition is_ack (op : Op) : bool :=
  match op with
  | op_OnUpdateRectAck _ => true
  | _ => false
  end.

Definition is_close (op : Op) : bool :=
  match op with
  | op_OnClose => true
  | _ => false
  end.

(** ** What a run showed the rest of the process *)

(** The frame updates handed to the render thread, oldest first. *)
Fixpoint sent_updates (es : list Effect)
  : list ViewHostMsg_UpdateRect_Params :=
  match es with
  | [] => []
  | render_thread_Send (mkMessage _ (ViewHostMsg_UpdateRect params)) :: rest =>
      params :: sent_updates rest
  | _ :: rest => sent_updates rest
  end.

(** All messages handed to the render thread, oldest first. *)
Fixpoint forwarded (es : list Effect) : list Message :=
  match es with
  | [] => []
  | render_thread_Send m :: rest => m :: forwarded rest
  | _ :: rest => forwarded rest
  end.

Definition count_effects (which : Effect -> bool) (es : list Effect) : nat :=
  length (filter which es).

Definition is_RemoveRoute (e : Effect) : bool :=
  match e with render_thread_RemoveRoute _ => true | _ => false end.

Definition is_PostNonNestable_Close (e : Effect) : bool :=
  match e with PostNonNestableTask Task_Close => true | _ => false end.

Definition is_Release (e : Effect) : bool :=
  match e with Release => true | _ => false end.

Definition is_PostTask_CallDoDeferredUpdate (e : Effect) : bool :=
  match e with PostTask Task_CallDoDeferredUpdate => true | _ => false end.


(** ** Vocabulary of the properties *)

Definition is_input_ack (m : Message) : bool :=
  match body m with
  | ViewHostMsg_HandleInputEvent_ACK _ _ => true
  | _ => false
  end.

(** The acknowledgement slot is empty or holds an input acknowledgement:
    so it is after construction, and no method stores anything else. *)
Definition ack_slot_ok (w : RenderWidget) : bool :=
  match pending_input_event_ack_ w with
  | Some m => is_input_ack m
  | None => true
  end.

Definition is_update (m : Message) : bool :=
  match body m with
  | ViewHostMsg_UpdateRect _ => true
  | _ => false
  end.

Definition is_close_effect (e : Effect) : bool :=
  is_RemoveRoute e || is_PostNonNestable_Close e || is_Release e.

(** What a stretch of effects may hold when no flush and no close happens
    in it: no frame update, nothing of OnClose, and nothing forwarded at
    all when the widget was closing. *)
Definition harmless (closing : bool) (d : list Effect) : Prop :=
  sent_updates d = [] /\
  filter is_close_effect d = [] /\
  (closing = true -> forwarded d = []).

(** [quiet w w']: the members that order flushes and closes are untouched
    and the effects grew by a harmless stretch. *)
Record quiet (w w' : RenderWidget) : Prop := mkQuiet {
  quiet_routing_id : routing_id_ w' = routing_id_ w;
  quiet_closing : closing_ w' = closing_ w;
  quiet_pending : update_reply_pending_ w' = update_reply_pending_ w;
  quiet_flags : next_paint_flags_ w' = next_paint_flags_ w;
  quiet_slot : pending_input_event_ack_ w' = pending_input_event_ack_ w;
  quiet_effects :
    exists d, effects w' = effects w ++ d /\ harmless (closing_ w) d
}.

(** [calm w w']: as [quiet], but paint flags may gain bits and the slot may
    change as long as it stays an input acknowledgement. *)
Record calm (w w' : RenderWidget) : Prop := mkCalm {
  calm_routing_id : routing_id_ w' = routing_id_ w;
  calm_closing : closing_ w' = closing_ w;
  calm_pending : update_reply_pending_ w' = update_reply_pending_ w;
  calm_flags :
    next_paint_is_resize_ack w = true -> next_paint_is_resize_ack w' = true;
  calm_slot : ack_slot_ok w = true -> ack_slot_ok w' = true;
  calm_effects :
    exists d,
      effects w' = effects w ++ d /\
      filter is_close_effect d = [] /\
      (closing_ w = true -> forwarded d = []) /\
      (ack_slot_ok w = true -> sent_updates d = [])
}.

(** The rectangles handed to [webwidget_->paint], oldest first. *)
Fixpoint paints (es : list Effect) : list Rect :=
  match es with
  | [] => []
  | webwidget_paint rect _ :: rest => rect :: paints rest
  | _ :: rest => paints rest
  end.

(** The members and the paint log that no notification touches. *)
Definition kept (w w' : RenderWidget) : Prop :=
  size_ w' = size_ w /\
  webwidget_ w' = webwidget_ w /\
  is_hidden_ w' = is_hidden_ w /\
  is_gpu_rendering_active_ w' = is_gpu_rendering_active_ w /\
  resizer_rect_ w' = resizer_rect_ w /\
  needs_repainting_on_restore_ w' = needs_repainting_on_restore_ w /\
  current_paint_buf_ w' = current_paint_buf_ w /\
  paints (effects w') = paints (effects w).

(** The widget in OnUpdateRectAck when it calls CallDoDeferredUpdate. *)
Definition after_ack (w : RenderWidget) : RenderWidget :=
  let w := set_update_reply_pending_ false w in
  match current_paint_buf_ w with
  | Some dib => set_current_paint_buf_ None (emit (ReleaseTransportDIB dib) w)
  | None => w
  end.

(** How a step that may flush leaves the widget; [r0] is the reply-pending
    flag with which its DoDeferredUpdate starts. *)
Definition flush_outcome (r0 : bool) (w w' : RenderWidget) : Prop :=
  routing_id_ w' = routing_id_ w /\
  closing_ w' = closing_ w /\
  (ack_slot_ok w = true -> ack_slot_ok w' = true) /\
  exists d,
    effects w' = effects w ++ d /\
    filter is_close_effect d = [] /\
    (closing_ w = true -> forwarded d = []) /\
    (ack_slot_ok w = true ->
     (update_reply_pending_ w' = r0 /\
      next_paint_flags_ w' = next_paint_flags_ w /\
      sent_updates d = [])
     \/
     (r0 = false /\
      update_reply_pending_ w' = true /\
      next_paint_flags_ w' = 0 /\
      if closing_ w then sent_updates d = []
      else exists p,
          sent_updates d = [p] /\ flags p = next_paint_flags_ w)).

(** How OnClose leaves the widget. *)
Definition close_outcome (w w' : RenderWidget) : Prop :=
  routing_id_ w' = routing_id_ w /\
  closing_ w' = true /\
  update_reply_pending_ w' = update_reply_pending_ w /\
  next_paint_flags_ w' = next_paint_flags_ w /\
  pending_input_event_ack_ w' = pending_input_event_ack_ w /\
  exists d,
    effects w' = effects w ++ d /\
    forwarded d = [] /\
    sent_updates d = [] /\
    (closing_ w = true -> d = []) /\
    (closing_ w = false ->
     count_effects is_RemoveRoute d =
       (if (routing_id_ w =? MSG_ROUTING_NONE)%Z then 0%nat else 1%nat) /\
     count_effects is_PostNonNestable_Close d = 1%nat /\
     count_effects is_Release d = 1%nat).

Definition step_outcome (op : Op) (w w' : RenderWidget) : Prop :=
  match op with
  | op_OnClose => close_outcome w w'
  | op_CallDoDeferredUpdate _ => flush_outcome (update_reply_pending_ w) w w'
  | op_OnUpdateRectAck _ => flush_outcome false w w'
  | _ => calm w w'
  end.


(** Frame updates not yet ruled out: those sent, plus one while no reply
    is pending. *)
Definition updates_budget (w : RenderWidget) : nat :=
  length (sent_updates (effects w)) +
  (if update_reply_pending_ w then 0 else 1)%nat.

Definition count_acks (ops : list Op) : nat := length (filter is_ack ops).


(** *** The stages of one flush, by name

    DoDeferredUpdate is one function in the source; the properties speak
    of its intermediate states, which are named here and shown below to be
    what [DoDeferredUpdate] computes. *)

(** The state in which DoDeferredUpdate goes on to paint. *)
Definition flushable (w : RenderWidget) : bool :=
  webwidget_ w && HasPendingUpdate (paint_aggregator_ w) &&
  negb (update_reply_pending_ w) &&
  negb (is_hidden_ w) && negb (Size_IsEmpty (size_ w)).

(** After the accelerated-compositing notice and [webwidget_->layout()]. *)
Definition after_layout (env : DeferredUpdateAnswers) (w : RenderWidget)
  : RenderWidget :=
  let w :=
    if negb (Bool.eqb (isAcceleratedCompositingActive env)
                      (is_gpu_rendering_active_ w))
    then
      let w :=
        set_is_gpu_rendering_active_ (isAcceleratedCompositingActive env) w in
      Send_ (mkMessage (routing_id_ w)
               (ViewHostMsg_GpuRenderingActivated
                  (is_gpu_rendering_active_ w))) w
    else w in
  delegate_all (layout_calls env) (emit webwidget_layout w).

(** The local [update]. *)
Definition snapshot (env : DeferredUpdateAnswers) (w : RenderWidget)
  : PendingUpdate :=
  GetPendingUpdate (paint_aggregator_ (after_layout env w)).

(** The local [bounds] as asked of GetDrawingCanvas. *)
Definition requested_bounds (env : DeferredUpdateAnswers) (w : RenderWidget)
  : Rect :=
  Rect_Union (GetPaintBounds (snapshot env w))
             (GetScrollDamage (snapshot env w)).

(** Right after the call of GetDrawingCanvas, the aggregator cleared. *)
Definition at_canvas (env : DeferredUpdateAnswers) (w : RenderWidget)
  : RenderWidget :=
  emit (GetDrawingCanvas (requested_bounds env w))
    (set_paint_aggregator_
       (ClearPendingUpdate (paint_aggregator_ (after_layout env w)))
       (after_layout env w)).

(** The local [bounds] once set to the device size of the canvas. *)
Definition canvas_bounds (env : DeferredUpdateAnswers) (w : RenderWidget)
  (device_width device_height : Z) : Rect :=
  Rect_set_height device_height
    (Rect_set_width device_width (requested_bounds env w)).

(** The local [copy_rects] that is painted. *)
Definition painted_rects (env : DeferredUpdateAnswers) (w : RenderWidget)
  (device_width device_height : Z) : list Rect :=
  let update_paint_rects :=
    if Rect_IsEmpty (scroll_rect (snapshot env w))
    then [canvas_bounds env w device_width device_height]
    else paint_rects (snapshot env w) in
  if negb (Rect_IsEmpty (GetScrollDamage (snapshot env w)))
  then update_paint_rects ++ [GetScrollDamage (snapshot env w)]
  else update_paint_rects.

(** After the paint loop. *)
Definition painted (env : DeferredUpdateAnswers) (w : RenderWidget)
  (memory : TransportDIB) (device_width device_height : Z)
  : RenderWidget :=
  paint_copy_rects 0 (painted_rects env w device_width device_height)
    (Rect_origin (canvas_bounds env w device_width device_height))
    (paint_calls env)
    (set_current_paint_buf_ (Some memory) (at_canvas env w)).

(** The local [params]. *)
Definition update_params (env : DeferredUpdateAnswers) (w : RenderWidget)
  (memory : TransportDIB) (device_width device_height : Z)
  : ViewHostMsg_UpdateRect_Params :=
  let wp := painted env w memory device_width device_height in
  mkUpdateRect_Params
    (TransportDIB_id memory)
    (canvas_bounds env w device_width device_height)
    (Point_x (scroll_delta (snapshot env w)))
    (Point_y (scroll_delta (snapshot env w)))
    (if is_gpu_rendering_active_ wp then Rect_default
     else scroll_rect (snapshot env w))
    (if is_gpu_rendering_active_ wp then []
     else painted_rects env w device_width device_height)
    (size_ wp)
    (plugin_window_moves_ wp)
    (next_paint_flags_ wp).

(** The widget as DoDeferredUpdate leaves it after sending. *)
Definition flushed (env : DeferredUpdateAnswers) (w : RenderWidget)
  (memory : TransportDIB) (device_width device_height : Z)
  : RenderWidget :=
  let wp := painted env w memory device_width device_height in
  UpdateInputMethod (textInputType env) (caretOrSelectionBounds env)
    (set_next_paint_flags_ 0
       (Send_ (mkMessage (routing_id_ wp)
                 (ViewHostMsg_UpdateRect
                    (update_params env w memory device_width device_height)))
          (set_update_reply_pending_ true
             (set_plugin_window_moves_ [] wp)))).


(** The message as Send forwards it. *)
Definition stamped (m : Message) (w : RenderWidget) : Message :=
  if routing_id m =? MSG_ROUTING_NONE
  then set_routing_id (routing_id_ w) m
  else m.

(** The one effect of a call of Send. *)
Definition Send_effect (m : Message) (w : RenderWidget) : Effect :=
  if closing_ w then delete_message m
  else render_thread_Send (stamped m w).

(** OnHandleInputEvent up to where the acknowledgement is built: whether
    WebKit processed the event, and the widget. *)
Definition handled (type : WebInputEventType) (message : InputEventMessage)
  (env : InputEventAnswers) (w : RenderWidget) : bool * RenderWidget :=
  let w := set_handling_input_event_ true w in
  let is_keyboard_shortcut :=
    if WebInputEventType_eqb type RawKeyDown
    then is_keyboard_shortcut_flag message
    else false in
  let '(processed, w) :=
    if negb (WebInputEventType_eqb type Char) ||
       negb (suppress_next_char_events_ w)
    then
      let w := set_suppress_next_char_events_ false w in
      if webwidget_ w then
        (handleInputEvent_processed env,
         delegate_all (handleInputEvent_calls env)
           (emit (webwidget_handleInputEvent type) w))
      else (false, w)
    else (false, w) in
  (processed,
   if negb processed && is_keyboard_shortcut
   then set_suppress_next_char_events_ true w
   else w).

(** The local [response]. *)
Definition input_response (type : WebInputEventType)
  (hw : bool * RenderWidget) : Message :=
  mkMessage (routing_id_ (snd hw))
    (ViewHostMsg_HandleInputEvent_ACK type (fst hw)).

(** The test that postpones the acknowledgement. *)
Definition rate_limited (type : WebInputEventType)
  (hw : bool * RenderWidget) : bool :=
  (WebInputEventType_eqb type MouseMove ||
   WebInputEventType_eqb type MouseWheel) &&
  HasPendingUpdate (paint_aggregator_ (snd hw)).


(** OnResize as it calls [webwidget_->resize]: the new geometry stored, the
    aggregator cleared. *)
Definition resizing (new_size : Size) (resizer_rect : Rect)
  (w : RenderWidget) : RenderWidget :=
  let w := set_resizer_rect_ resizer_rect w in
  let w := SetHidden false w in
  let w := set_needs_repainting_on_restore_ false w in
  let w := set_size_ new_size w in
  let w :=
    set_paint_aggregator_ (ClearPendingUpdate (paint_aggregator_ w)) w in
  emit (webwidget_resize new_size) w.

(** The next frame update will acknowledge a resize, or none will ever be
    forwarded. *)
Definition resize_ack_due (w : RenderWidget) : Prop :=
  closing_ w = true \/ next_paint_is_resize_ack w = true.

(** The first frame update in a stretch of effects, if any, carries the
    resize acknowledgement. *)
Definition first_update_acks_resize (d : list Effect) : Prop :=
  match sent_updates d with
  | [] => True
  | p :: _ => ViewHostMsg_UpdateRect_Flags.is_resize_ack (flags p) = true
  end.

(** A deferred update is scheduled or need not be: something is pending
    in the aggregator, or a reply is. *)
Definition update_underway (w : RenderWidget) : bool :=
  HasPendingUpdate (paint_aggregator_ w) || update_reply_pending_ w.


(** The end of CallDoDeferredUpdate: the stored acknowledgement, if any,
    goes to Send. *)
Definition release_input_ack (w : RenderWidget) : RenderWidget :=
  match pending_input_event_ack_ w with
  | Some ack => Send_ ack (set_pending_input_event_ack_ None w)
  | None => w
  end.


End Widget.

(** ** Reference collaborators *)

(** Modelled from the spec: the rectangle operations of gfx/rect.cc, which
    is outside this tree.  A rectangle or size is empty when it has no
    area; the intersection and the bounding union are the usual ones of
    axis-aligned rectangles. *)
Module ReferenceGfx.
Definition Size_IsEmpty (s : Size) : bool :=
  (Size_width s <=? 0) || (Size_height s <=? 0).

Definition Rect_IsEmpty (r : Rect) : bool :=
  (Rect_width r <=? 0) || (Rect_height r <=? 0).

Definition Rect_right (r : Rect) : Z := Rect_x r + Rect_width r.
Definition Rect_bottom (r : Rect) : Z := Rect_y r + Rect_height r.

Definition Rect_Intersect (a b : Rect) : Rect :=
  let rx := Z.max (Rect_x a) (Rect_x b) in
  let ry := Z.max (Rect_y a) (Rect_y b) in
  let rr := Z.min (Rect_right a) (Rect_right b) in
  let rb := Z.min (Rect_bottom a) (Rect_bottom b) in
  if (rr <=? rx) || (rb <=? ry) then Rect_default
  else mkRect rx ry (rr - rx) (rb - ry).

Definition Rect_Union (a b : Rect) : Rect :=
  if Rect_IsEmpty a then b
  else if Rect_IsEmpty b then a
  else
    let rx := Z.min (Rect_x a) (Rect_x b) in
    let ry := Z.min (Rect_y a) (Rect_y b) in
    let rr := Z.max (Rect_right a) (Rect_right b) in
    let rb := Z.max (Rect_bottom a) (Rect_bottom b) in
    mkRect rx ry (rr - rx) (rb - ry).

Definition ops : GfxOps :=
  Build_GfxOps Size_IsEmpty Rect_IsEmpty Rect_Intersect Rect_Union.
End ReferenceGfx.

(** Modelled from the spec: the DamageAggregator of the spec's section 4.1,
    standing for chrome/renderer/paint_aggregator.cc, which is outside this
    tree.  InvalidateRect adds the rectangle to the pending paint set; the
    last ScrollRect wins and keeps the newest clip rectangle; something is
    pending iff a scroll or a paint entry is queued; the scroll damage is
    the scroll clip rectangle, or empty if there is none; the paint bounds
    are the bounding box of all paint rectangles united with the scroll
    damage. *)
Module ReferenceAggregator.
Record State : Type := mkState {
  scroll : option (Point * Rect);
  paints : list Rect
}.

Definition empty : State := mkState None [].

Definition HasPendingUpdate (a : State) : bool :=
  match scroll a, paints a with
  | None, [] => false
  | _, _ => true
  end.

Definition ClearPendingUpdate (a : State) : State := empty.

Definition GetPendingUpdate (a : State) : PendingUpdate :=
  match scroll a with
  | Some (delta, clip) => mkPendingUpdate delta clip (paints a)
  | None => mkPendingUpdate (mkPoint 0 0) Rect_default (paints a)
  end.

Definition InvalidateRect (rect : Rect) (a : State) : State :=
  mkState (scroll a) (paints a ++ [rect]).

Definition ScrollRect (dx dy : Z) (clip_rect : Rect) (a : State) : State :=
  mkState (Some (mkPoint dx dy, clip_rect)) (paints a).

Definition GetScrollDamage (u : PendingUpdate) : Rect := scroll_rect u.

Definition GetPaintBounds (u : PendingUpdate) : Rect :=
  fold_left ReferenceGfx.Rect_Union (paint_rects u) (GetScrollDamage u).

Definition ops : PaintAggregatorOps :=
  Build_PaintAggregatorOps State HasPendingUpdate ClearPendingUpdate
    GetPendingUpdate InvalidateRect ScrollRect GetScrollDamage
    GetPaintBounds.
End ReferenceAggregator.

(** A release build and a debug build over the reference collaborators;
    the routing id for no route is -2 and the render thread takes every
    message. *)
Definition release_build : Platform := Build_Platform false (-2) (fun _ => true).
Definition debug_build : Platform := Build_Platform true (-2) (fun _ => true).

(** A live, visible 100x100 widget with routing id 7 and nothing pending. *)
Definition idle_widget : @RenderWidget ReferenceAggregator.ops :=
  @mkRenderWidget ReferenceAggregator.ops 7 true None 0 false false false false false false
    WebTextInputTypeNone Rect_default false false (mkSize 100 100)
    Rect_default ReferenceAggregator.empty None [] [].

(** Collaborators that raise nothing and hand out buffer 1 with a canvas
    of the size asked for. *)
Definition quiet_answers (device_width device_height : Z)
  : DeferredUpdateAnswers :=
  mkDeferredUpdateAnswers false [] (canvas_of (mkTransportDIB 1)
    device_width device_height) (fun _ => []) WebTextInputTypeNone
    Rect_default.

(** ** Scenarios

    Concrete widgets and runs over the reference collaborators, in a
    release build unless said otherwise. *)
Module Scenario.

#[local] Existing Instance release_build.
#[local] Existing Instance ReferenceGfx.ops.
#[local] Existing Instance ReferenceAggregator.ops.

Definition widget_of (r : Result RenderWidget) : RenderWidget :=
  match r with
  | Ok w => w
  | Fatal => idle_widget
  end.

(** One invalidation is pending and its flush is scheduled. *)
Definition damaged : RenderWidget :=
  didInvalidateRect (mkRect 0 0 10 10) idle_widget.

(** That invalidation was flushed and awaits its acknowledgement. *)
Definition in_flight : RenderWidget :=
  widget_of (CallDoDeferredUpdate (quiet_answers 10 10) damaged).


(** The widget was hidden with an invalidation pending. *)
Definition hidden_damaged : RenderWidget := OnWasHidden damaged.


(** GetDrawingCanvas hands back nothing. *)
Definition no_canvas_answers : DeferredUpdateAnswers :=
  mkDeferredUpdateAnswers false [] (no_canvas None) (fun _ => [])
    WebTextInputTypeNone Rect_default.

Definition mouse_move : InputEventMessage :=
  mkInputEventMessage (Some MouseMove) false.

Definition processed_quietly : InputEventAnswers :=
  mkInputEventAnswers true [].

(** What may arrive between a flush and its acknowledgement. *)
Definition busy_ops : list Op :=
  [op_delegate (call_didInvalidateRect (mkRect 10 10 5 5));
   op_delegate (call_didScrollRect 0 3 (mkRect 0 0 50 50));
   op_CallDoDeferredUpdate (quiet_answers 50 50);
   op_OnHandleInputEvent mouse_move processed_quietly;
   op_OnMsgRepaint (mkSize 100 100);
   op_CallDoDeferredUpdate (quiet_answers 100 100);
   op_OnWasHidden;
   op_OnWasRestored true].

(** The browser closes the widget twice; the posted Close runs. *)
Definition closing_ops : list Op := [op_OnClose; op_OnClose; op_Close].

(** The full-view invalidation WebKit raises on a resize to 800x600. *)
Definition resize_calls : list DelegateCall :=
  [call_didInvalidateRect (mkRect 0 0 800 600)].

Definition three_notifications : list DelegateCall :=
  [call_didInvalidateRect (mkRect 0 0 10 10);
   call_didScrollRect 0 5 (mkRect 0 0 50 50);
   call_didInvalidateRect (mkRect 60 60 10 10)].

End Scenario.

(** ** Vocabulary of the further properties *)

Section Ledger.

Context {platform : Platform} {gfx : GfxOps} {aggregator : PaintAggregatorOps}.

(** WidgetHidden notices less WidgetRestored notices. *)
Fixpoint hidden_count (es : list Effect) : Z :=
  match es with
  | [] => 0
  | render_thread_WidgetHidden :: rest => hidden_count rest + 1
  | render_thread_WidgetRestored :: rest => hidden_count rest - 1
  | _ :: rest => hidden_count rest
  end.

(** An input acknowledgement leaves the widget through Send: forwarded, or
    deleted when the widget is closing. *)
Definition is_input_ack_effect (e : Effect) : bool :=
  match e with
  | render_thread_Send m | delete_message m => is_input_ack m
  | _ => false
  end.

Definition is_delete (e : Effect) : bool :=
  match e with delete_message _ => true | _ => false end.

Definition is_webwidget_close (e : Effect) : bool :=
  match e with webwidget_close => true | _ => false end.

Definition is_notice (e : Effect) : bool :=
  match e with
  | render_thread_WidgetHidden | render_thread_WidgetRestored
  | webwidget_close => true
  | _ => is_input_ack_effect e
  end.

Definition acks_handed (es : list Effect) : nat :=
  count_effects is_input_ack_effect es.

(** Acknowledgements waiting in the slot: one or none. *)
Definition ack_stored (w : RenderWidget) : nat :=
  match pending_input_event_ack_ w with
  | Some _ => 1
  | None => 0
  end.

Definition alive (w : RenderWidget) : nat :=
  if webwidget_ w then 1 else 0.

(** [inert w w']: visibility, the WebKit widget, [closing_] and the
    acknowledgement slot are untouched, and the effects grew by no hide or
    restore notice, no close of the WebKit widget and no input
    acknowledgement; nothing was deleted unless the widget is closing. *)
Record inert (w w' : RenderWidget) : Prop := mkInert {
  inert_hidden : is_hidden_ w' = is_hidden_ w;
  inert_webwidget : webwidget_ w' = webwidget_ w;
  inert_closing : closing_ w' = closing_ w;
  inert_slot : pending_input_event_ack_ w' = pending_input_event_ack_ w;
  inert_effects :
    exists d,
      effects w' = effects w ++ d /\
      filter is_notice d = [] /\
      (closing_ w = false -> filter is_delete d = [])
}.

(** [ledger n w w']: the books of a stretch of the widget's life in which
    [n] well-formed input events arrived.  Hide and restore notices follow
    [is_hidden_]; every acknowledgement built is in the slot or went to
    Send; the WebKit widget is closed when, and only when, [webwidget_]
    goes from set to clear; a message is deleted only by a closing
    widget. *)
Record ledger (n : nat) (w w' : RenderWidget) : Prop := mkLedger {
  ledger_closing : closing_ w = true -> closing_ w' = true;
  ledger_slot : ack_slot_ok w = true -> ack_slot_ok w' = true;
  ledger_webwidget : webwidget_ w = false -> webwidget_ w' = false;
  ledger_effects :
    exists d,
      effects w' = effects w ++ d /\
      hidden_count d = Z.b2z (is_hidden_ w') - Z.b2z (is_hidden_ w) /\
      (ack_slot_ok w = true ->
       (acks_handed d + ack_stored w' = ack_stored w + n)%nat) /\
      (count_effects is_webwidget_close d + alive w' = alive w)%nat /\
      (closing_ w' = false -> filter is_delete d = [])
}.

(** A ViewMsg_HandleInputEvent whose payload can be read. *)
Definition is_input_event (op : Op) : bool :=
  match op with
  | op_OnHandleInputEvent message _ =>
      match input_event message with
      | Some _ => true
      | None => false
      end
  | _ => false
  end.

Definition count_input_events (ops : list Op) : nat :=
  length (filter is_input_event ops).


(** [keeps I bad w w']: a widget that satisfies [I] still does afterwards,
    and the effects grew by nothing that [bad] picks out. *)
Definition keeps (I : RenderWidget -> Prop) (bad : Effect -> bool)
  (w w' : RenderWidget) : Prop :=
  I w ->
  I w' /\ exists d, effects w' = effects w ++ d /\ filter bad d = [].

(** The steps of producing a frame: layout, the canvas, painting, and the
    frame update itself. *)
Definition is_painting (e : Effect) : bool :=
  match e with
  | webwidget_layout | webwidget_paint _ _ | GetDrawingCanvas _ => true
  | render_thread_Send m => is_update m
  | _ => false
  end.

(** Any use of the WebKit widget, and any step of producing a frame. *)
Definition is_webkit_call (e : Effect) : bool :=
  match e with
  | webwidget_resize _ | webwidget_handleInputEvent _ | webwidget_close =>
      true
  | _ => is_painting e
  end.

(** The WebKit widget is gone. *)
Definition asleep (w : RenderWidget) : Prop :=
  webwidget_ w = false /\ ack_slot_ok w = true.


Definition is_PaintRect (op : Op) : bool :=
  match op with
  | op_PaintRect _ _ _ => true
  | _ => false
  end.



(** The widget has a route. *)
Definition routed (w : RenderWidget) : Prop :=
  routing_id_ w <> MSG_ROUTING_NONE.

(** A message given to the render thread without a route. *)
Definition unrouted (e : Effect) : bool :=
  match e with
  | render_thread_Send m => routing_id m =? MSG_ROUTING_NONE
  | _ => false
  end.

(** The plugin windows of a list of moves, in order. *)
Definition windows (moves : list WebPluginGeometry) : list Z :=
  map window moves.

(** No window twice. *)
Fixpoint distinct (l : list Z) : bool :=
  match l with
  | [] => true
  | x :: rest => negb (existsb (Z.eqb x) rest) && distinct rest
  end.

(** The move scheduled for a plugin window, if any: the first one, as the
    loops of SchedulePluginMove and CleanupWindowInPluginMoves find it. *)
Definition find_move (window' : Z) (moves : list WebPluginGeometry)
  : option WebPluginGeometry :=
  find (fun m => window m =? window') moves.

(** No plugin window has two scheduled moves. *)
Definition tidy (w : RenderWidget) : Prop :=
  distinct (windows (plugin_window_moves_ w)) = true /\
  ack_slot_ok w = true.

(** A frame update given to the render thread with two moves for one
    plugin window. *)
Definition crowded (e : Effect) : bool :=
  match e with
  | render_thread_Send m =>
      match body m with
      | ViewHostMsg_UpdateRect params =>
          negb (distinct (windows (plugin_window_moves params)))
      | _ => false
      end
  | _ => false
  end.


(** Char events are being withheld from WebKit. *)
Definition suppressing (w : RenderWidget) : Prop :=
  suppress_next_char_events_ w = true.

Definition is_char_to_webkit (e : Effect) : bool :=
  match e with
  | webwidget_handleInputEvent Char => true
  | _ => false
  end.

(** The operation is no input event other than a Char. *)
Definition only_chars (op : Op) : bool :=
  match op with
  | op_OnHandleInputEvent message _ =>
      match input_event message with
      | Some Char | None => true
      | Some _ => false
      end
  | _ => true
  end.

(** Damage was dropped while the widget could not paint. *)
Definition owing (w : RenderWidget) : Prop :=
  needs_repainting_on_restore_ w = true.

Definition no_effect (e : Effect) : bool := false.

(** The operations that clear [needs_repainting_on_restore_]. *)
Definition settles (op : Op) : bool :=
  match op with
  | op_OnResize _ _ _ | op_OnWasRestored _ => true
  | _ => false
  end.

(** The input method of the browser is not attached. *)
Definition ime_off (w : RenderWidget) : Prop :=
  input_method_is_active_ w = false /\ ack_slot_ok w = true.

Definition is_ime_state (m : Message) : bool :=
  match body m with
  | ViewHostMsg_ImeUpdateTextInputState _ _ => true
  | _ => false
  end.

(** An input method state report handed to Send. *)
Definition is_ime_update (e : Effect) : bool :=
  match e with
  | render_thread_Send m | delete_message m => is_ime_state m
  | _ => false
  end.

Definition is_OnSetInputMethodActive (op : Op) : bool :=
  match op with
  | op_OnSetInputMethodActive _ => true
  | _ => false
  end.


(** The test behind [is_resize_ack], [is_restore_ack] and
    [is_repaint_ack], for any flag. *)
Definition has_flag (flag flags' : Z) : bool :=
  negb (Z.land flags' flag =? 0).

(** The flag an operation may set in [next_paint_flags_]. *)
Definition raises (op : Op) : Z :=
  match op with
  | op_OnResize _ _ _ => ViewHostMsg_UpdateRect_Flags.IS_RESIZE_ACK
  | op_OnWasRestored _ => ViewHostMsg_UpdateRect_Flags.IS_RESTORE_ACK
  | op_OnMsgRepaint _ => ViewHostMsg_UpdateRect_Flags.IS_REPAINT_ACK
  | _ => 0
  end.

(** The first frame update in a stretch of effects, if any, carries the
    flag. *)
Definition first_update_has (flag : Z) (d : list Effect) : Prop :=
  match sent_updates d with
  | [] => True
  | p :: _ => has_flag flag (flags p) = true
  end.

(** The next frame update will carry the flag, or none will ever be
    forwarded. *)
Definition flag_due (flag : Z) (w : RenderWidget) : Prop :=
  closing_ w = true \/ has_flag flag (next_paint_flags_ w) = true.

Definition is_flush (op : Op) : bool :=
  match op with
  | op_OnUpdateRectAck _ | op_CallDoDeferredUpdate _ => true
  | _ => false
  end.

End Ledger.

(** ** The window rectangle

    [show], [setWindowRect], [SetPendingWindowRect], [OnRequestMoveAck],
    [windowRect] and [rootWindowRect] keep members of their own and share
    with the rest of the class only [routing_id_] and [closing_], which
    they read through Send.  They are embedded on a record of their own,
    with the log of the messages they hand to Send. *)
Module WindowRect.

(** [ViewHostMsg_ShowPopup_Params]: the bounds, which [show] sets, and
    the menu ConfigureAsExternalPopupMenu copied in. *)
Record ViewHostMsg_ShowPopup_Params : Type := mkShowPopup_Params {
  bounds : Rect;
  popup_menu : Z
}.

Inductive WindowMessageBody : Type :=
| ViewHostMsg_ShowPopup (params : ViewHostMsg_ShowPopup_Params)
| ViewHostMsg_ShowWidget (route_id : Z) (initial_pos : Rect)
| ViewHostMsg_RequestMove (position : Rect)
| ViewHostMsg_GetWindowRect (window_id : Z)
| ViewHostMsg_GetRootWindowRect (window_id : Z).

Record WindowMessage : Type := mkWindowMessage {
  message_routing_id : Z;
  message_body : WindowMessageBody
}.

(** What Send did with a message. *)
Inductive Handed : Type :=
| render_thread_Send (m : WindowMessage)
| delete_message (m : WindowMessage).

Section Model.

Context {platform : Platform}.

(** Modelled from the spec: [pending_window_rect_count_] is declared in
    render_widget.h, outside this tree; the spec has a reference count of
    outstanding move requests, which is an unbounded integer here. *)
Record Window : Type := mkWindow {
  routing_id_ : Z;
  opener_id_ : Z;
  host_window_ : Z;
  closing_ : bool;
  did_show_ : bool;
  initial_pos_ : Rect;
  popup_params_ : option ViewHostMsg_ShowPopup_Params;
  pending_window_rect_ : Rect;
  pending_window_rect_count_ : Z;
  handed : list Handed
}.

Definition set_did_show_ (v : bool) (w : Window) : Window :=
  mkWindow (routing_id_ w) (opener_id_ w) (host_window_ w) (closing_ w) v
    (initial_pos_ w) (popup_params_ w) (pending_window_rect_ w)
    (pending_window_rect_count_ w) (handed w).

Definition set_initial_pos_ (v : Rect) (w : Window) : Window :=
  mkWindow (routing_id_ w) (opener_id_ w) (host_window_ w) (closing_ w)
    (did_show_ w) v (popup_params_ w) (pending_window_rect_ w)
    (pending_window_rect_count_ w) (handed w).

Definition set_popup_params_ (v : option ViewHostMsg_ShowPopup_Params)
  (w : Window) : Window :=
  mkWindow (routing_id_ w) (opener_id_ w) (host_window_ w) (closing_ w)
    (did_show_ w) (initial_pos_ w) v (pending_window_rect_ w)
    (pending_window_rect_count_ w) (handed w).

Definition set_pending_window_rect_ (v : Rect) (w : Window) : Window :=
  mkWindow (routing_id_ w) (opener_id_ w) (host_window_ w) (closing_ w)
    (did_show_ w) (initial_pos_ w) (popup_params_ w) v
    (pending_window_rect_count_ w) (handed w).

Definition set_pending_window_rect_count_ (v : Z) (w : Window) : Window :=
  mkWindow (routing_id_ w) (opener_id_ w) (host_window_ w) (closing_ w)
    (did_show_ w) (initial_pos_ w) (popup_params_ w)
    (pending_window_rect_ w) v (handed w).

Definition hand (h : Handed) (w : Window) : Window :=
  mkWindow (routing_id_ w) (opener_id_ w) (host_window_ w) (closing_ w)
    (did_show_ w) (initial_pos_ w) (popup_params_ w)
    (pending_window_rect_ w) (pending_window_rect_count_ w)
    (handed w ++ [h]).

(** [RenderWidget::Send], for the messages of this part; no caller here
    looks at what it returns. *)
Definition Send (message : WindowMessage) (w : Window) : Window :=
  if closing_ w then hand (delete_message message) w
  else
    let message :=
      if message_routing_id message =? MSG_ROUTING_NONE
      then mkWindowMessage (routing_id_ w) (message_body message)
      else message in
    hand (render_thread_Send message) w.

(** What one call of Send adds to the log. *)
Definition handed_by_Send (m : WindowMessage) (w : Window) : Handed :=
  if closing_ w then delete_message m
  else render_thread_Send
         (if message_routing_id m =? MSG_ROUTING_NONE
          then mkWindowMessage (routing_id_ w) (message_body m)
          else m).

(** [RenderWidget::SetPendingWindowRect] *)
Definition SetPendingWindowRect (rect : Rect) (w : Window) : Window :=
  let w := set_pending_window_rect_ rect w in
  set_pending_window_rect_count_ (pending_window_rect_count_ w + 1) w.

(** [RenderWidget::show] *)
Definition show (w : Window) : Result Window :=
  DCHECK (negb (did_show_ w)) ;;;
  DCHECK (negb (routing_id_ w =? MSG_ROUTING_NONE)) ;;;
  DCHECK (negb (opener_id_ w =? MSG_ROUTING_NONE)) ;;;
  if negb (did_show_ w) then
    let w := set_did_show_ true w in
    let w :=
      match popup_params_ w with
      | Some params =>
          let params := mkShowPopup_Params (initial_pos_ w)
                                           (popup_menu params) in
          let w := set_popup_params_ (Some params) w in
          let w :=
            Send (mkWindowMessage (routing_id_ w)
                    (ViewHostMsg_ShowPopup params)) w in
          set_popup_params_ None w
      | None =>
          Send (mkWindowMessage (opener_id_ w)
                  (ViewHostMsg_ShowWidget (routing_id_ w) (initial_pos_ w)))
               w
      end in
    Ok (SetPendingWindowRect (initial_pos_ w) w)
  else Ok w.

(** [RenderWidget::windowRect]; [answer] is the local [rect] once the
    render thread's Send has returned: the reply of the browser, or still
    [gfx::Rect()] when none came. *)
Definition windowRect (answer : Rect) (w : Window) : Rect * Window :=
  if negb (pending_window_rect_count_ w =? 0) then (pending_window_rect_ w, w)
  else
    (if closing_ w then Rect_default else answer,
     Send (mkWindowMessage (routing_id_ w)
             (ViewHostMsg_GetWindowRect (host_window_ w))) w).

(** [RenderWidget::setWindowRect] *)
Definition setWindowRect (pos : Rect) (w : Window) : Window :=
  if did_show_ w then
    let w :=
      Send (mkWindowMessage (routing_id_ w) (ViewHostMsg_RequestMove pos))
           w in
    SetPendingWindowRect pos w
  else set_initial_pos_ pos w.

(** [RenderWidget::rootWindowRect] *)
Definition rootWindowRect (answer : Rect) (w : Window) : Rect * Window :=
  if negb (pending_window_rect_count_ w =? 0) then (pending_window_rect_ w, w)
  else
    (if closing_ w then Rect_default else answer,
     Send (mkWindowMessage (routing_id_ w)
             (ViewHostMsg_GetRootWindowRect (host_window_ w))) w).

(** [RenderWidget::OnRequestMoveAck] *)
Definition OnRequestMoveAck (w : Window) : Result Window :=
  DCHECK (negb (pending_window_rect_count_ w =? 0)) ;;;
  Ok (set_pending_window_rect_count_ (pending_window_rect_count_ w - 1) w).

(** One call from WebKit or one message of the browser. *)
Inductive WindowOp : Type :=
| op_show
| op_setWindowRect (pos : Rect)
| op_windowRect (answer : Rect)
| op_rootWindowRect (answer : Rect)
| op_OnRequestMoveAck.

Definition window_step (op : WindowOp) (w : Window) : Result Window :=
  match op with
  | op_show => show w
  | op_setWindowRect pos => Ok (setWindowRect pos w)
  | op_windowRect answer => Ok (snd (windowRect answer w))
  | op_rootWindowRect answer => Ok (snd (rootWindowRect answer w))
  | op_OnRequestMoveAck => OnRequestMoveAck w
  end.

Fixpoint window_run (ops : list WindowOp) (w : Window) : Result Window :=
  match ops with
  | [] => Ok w
  | op :: rest => w <- window_step op w ;; window_run rest w
  end.

(** The message Send was given. *)
Definition message_of (h : Handed) : WindowMessage :=
  match h with
  | render_thread_Send m | delete_message m => m
  end.

(** The rectangle a message asks the browser to give the window. *)
Definition requested_rect (h : Handed) : option Rect :=
  match message_body (message_of h) with
  | ViewHostMsg_ShowPopup params => Some (bounds params)
  | ViewHostMsg_ShowWidget _ initial_pos => Some initial_pos
  | ViewHostMsg_RequestMove position => Some position
  | _ => None
  end.

Definition is_request (h : Handed) : bool :=
  match requested_rect h with
  | Some _ => true
  | None => false
  end.

Definition is_show (h : Handed) : bool :=
  match message_body (message_of h) with
  | ViewHostMsg_ShowPopup _ | ViewHostMsg_ShowWidget _ _ => true
  | _ => false
  end.

Definition is_query (h : Handed) : bool :=
  match message_body (message_of h) with
  | ViewHostMsg_GetWindowRect _ | ViewHostMsg_GetRootWindowRect _ => true
  | _ => false
  end.

(** The rectangle last requested in a stretch of the log, or [r]. *)
Definition last_requested (r : Rect) (d : list Handed) : Rect :=
  fold_left (fun r h => match requested_rect h with
                        | Some r' => r'
                        | None => r
                        end) d r.

Definition requests (d : list Handed) : Z :=
  Z.of_nat (length (filter is_request d)).

Definition is_move_ack (op : WindowOp) : bool :=
  match op with
  | op_OnRequestMoveAck => true
  | _ => false
  end.

Definition move_acks (ops : list WindowOp) : Z :=
  Z.of_nat (length (filter is_move_ack ops)).

(** The books of the window rectangle: the log grew by [d], the count by
    the requests in [d] less [acks], the pending rectangle is the last
    one requested, and a show message went out exactly if [did_show_]
    was set. *)
Definition accounted (acks : Z) (w w' : Window) : Prop :=
  closing_ w' = closing_ w /\
  (did_show_ w = true -> did_show_ w' = true) /\
  exists d,
    handed w' = handed w ++ d /\
    pending_window_rect_count_ w' =
      pending_window_rect_count_ w + requests d - acks /\
    pending_window_rect_ w' = last_requested (pending_window_rect_ w) d /\
    Z.of_nat (length (filter is_show d)) =
      Z.b2z (did_show_ w') - Z.b2z (did_show_ w).

End Model.

End WindowRect.

(** ** More scenarios

    Further concrete widgets and runs over the reference collaborators,
    in a release build unless said otherwise. *)
Module Episodes.

Import Scenario.

#[local] Existing Instance release_build.
#[local] Existing Instance ReferenceGfx.ops.
#[local] Existing Instance ReferenceAggregator.ops.

Definition key_down : InputEventMessage :=
  mkInputEventMessage (Some KeyDown) false.

(** A RawKeyDown that is a browser keyboard shortcut. *)
Definition shortcut : InputEventMessage :=
  mkInputEventMessage (Some RawKeyDown) true.

Definition char_event : InputEventMessage :=
  mkInputEventMessage (Some Char) false.

(** A message ReadData cannot read. *)
Definition malformed : InputEventMessage :=
  mkInputEventMessage None false.

Definition not_processed : InputEventAnswers :=
  mkInputEventAnswers false [].

Definition plugin_a : WebPluginGeometry :=
  mkWebPluginGeometry 11 true true (mkRect 0 0 20 20).

Definition plugin_b : WebPluginGeometry :=
  mkWebPluginGeometry 12 true false (mkRect 30 30 20 20).

(** Plugin 11 again, with rectangles that are not valid. *)
Definition plugin_a_hidden : WebPluginGeometry :=
  mkWebPluginGeometry 11 false false (mkRect 5 5 5 5).

(** A life of the widget: hidden with damage, input while hidden,
    restored, plugin moves, a flush and its acknowledgement, a malformed
    input message, and the close. *)
Definition life_ops : list Op :=
  [op_delegate (call_didInvalidateRect (mkRect 0 0 10 10));
   op_OnWasHidden;
   op_CallDoDeferredUpdate (quiet_answers 10 10);
   op_OnHandleInputEvent mouse_move processed_quietly;
   op_OnHandleInputEvent key_down not_processed;
   op_OnWasRestored false;
   op_delegate (call_SchedulePluginMove plugin_a);
   op_delegate (call_SchedulePluginMove plugin_b);
   op_delegate (call_SchedulePluginMove plugin_a_hidden);
   op_OnHandleInputEvent mouse_move processed_quietly;
   op_OnHandleInputEvent mouse_move processed_quietly;
   op_CallDoDeferredUpdate (quiet_answers 100 100);
   op_OnHandleInputEvent malformed processed_quietly;
   op_OnUpdateRectAck (quiet_answers 100 100);
   op_delegate call_didBlur;
   op_OnClose;
   op_Send (-2) 5;
   op_Close].

(** The widget after the browser closed it and the Close task ran. *)
Definition closed : RenderWidget := widget_of (run closing_ops idle_widget).

(** What may still arrive for a closed widget. *)
Definition late_ops : list Op :=
  [op_OnResize (mkSize 800 600) Rect_default resize_calls;
   op_OnWasRestored true;
   op_OnMsgRepaint (mkSize 100 100);
   op_delegate (call_didInvalidateRect (mkRect 0 0 10 10));
   op_CallDoDeferredUpdate (quiet_answers 10 10);
   op_OnHandleInputEvent key_down processed_quietly;
   op_OnUpdateRectAck (quiet_answers 10 10);
   op_UpdateInputMethod 2 (mkRect 1 1 1 1);
   op_Close].

(** What a hidden widget may see before it is shown again. *)
Definition hidden_ops : list Op :=
  [op_delegate (call_didInvalidateRect (mkRect 10 10 5 5));
   op_CallDoDeferredUpdate (quiet_answers 10 10);
   op_OnHandleInputEvent mouse_move processed_quietly;
   op_OnMsgRepaint (mkSize 100 100);
   op_GenerateFullRepaint;
   op_CallDoDeferredUpdate (quiet_answers 100 100);
   op_OnUpdateRectAck (quiet_answers 100 100);
   op_OnWasHidden].

(** Char events and a flush after a shortcut. *)
Definition typing_ops : list Op :=
  [op_OnHandleInputEvent char_event processed_quietly;
   op_delegate (call_didInvalidateRect (mkRect 0 0 10 10));
   op_CallDoDeferredUpdate (quiet_answers 10 10);
   op_OnHandleInputEvent char_event processed_quietly;
   op_OnHandleInputEvent malformed processed_quietly].

(** A flush that picks up what the repaint or restore invalidated, after
    a notification and an input event. *)
Definition flush_ops : list Op :=
  [op_delegate (call_didScrollRect 0 3 (mkRect 0 0 50 50));
   op_OnHandleInputEvent key_down processed_quietly;
   op_CallDoDeferredUpdate (quiet_answers 100 100);
   op_OnUpdateRectAck (quiet_answers 100 100)].

(** A resize and the flush that acknowledges it. *)
Definition resize_ops : list Op :=
  [op_OnResize (mkSize 800 600) Rect_default resize_calls;
   op_CallDoDeferredUpdate (quiet_answers 800 600);
   op_OnUpdateRectAck (quiet_answers 800 600);
   op_delegate (call_didInvalidateRect (mkRect 0 0 10 10));
   op_CallDoDeferredUpdate (quiet_answers 10 10)].

(** Moves for plugins 11 and 12 are scheduled. *)
Definition with_plugins : RenderWidget :=
  SchedulePluginMove plugin_b (SchedulePluginMove plugin_a idle_widget).

(** A new popup widget with routing id 7, opened by 3. *)
Definition new_window : WindowRect.Window :=
  WindowRect.mkWindow 7 3 0 false false Rect_default None Rect_default 0 [].

(** WebKit asks where the window is, positions it, shows it, asks again
    and moves it; the browser acknowledges once. *)
Definition window_ops : list WindowRect.WindowOp :=
  [WindowRect.op_windowRect (mkRect 0 0 1 1);
   WindowRect.op_setWindowRect (mkRect 10 10 200 100);
   WindowRect.op_show;
   WindowRect.op_windowRect (mkRect 0 0 1 1);
   WindowRect.op_setWindowRect (mkRect 20 20 200 100);
   WindowRect.op_OnRequestMoveAck;
   WindowRect.op_rootWindowRect (mkRect 0 0 1 1)].

End Episodes.

(** * Properties *)

Section Properties.

Context {platform : Platform} {gfx : GfxOps} {aggregator : PaintAggregatorOps}.

Implicit Types (w : RenderWidget) (d : list Effect).

(** ** Effects are a log *)

Lemma sent_updates_app (a b : list Effect) :
  sent_updates (a ++ b) = sent_updates a ++ sent_updates b.
Proof.
  induction a as [|e a IH]; simpl; [reflexivity|].
  destruct e as [[? []]| | | | | | | | | | | | | |]; simpl; rewrite ?IH;
    reflexivity.
Qed.

Lemma forwarded_app (a b : list Effect) :
  forwarded (a ++ b) = forwarded a ++ forwarded b.
Proof.
  induction a as [|e a IH]; simpl; [reflexivity|].
  destruct e; simpl; rewrite ?IH; reflexivity.
Qed.

Lemma harmless_nil (c : bool) : harmless c [].
Proof. repeat split. Qed.

Lemma harmless_app (c : bool) (a b : list Effect) :
  harmless c a -> harmless c b -> harmless c (a ++ b).
Proof.
  intros (Ha1 & Ha2 & Ha3) (Hb1 & Hb2 & Hb3).
  unfold harmless.
  rewrite sent_updates_app, filter_app, forwarded_app, Ha1, Ha2, Hb1, Hb2.
  repeat split; intros Hc.
  rewrite (Ha3 Hc), (Hb3 Hc); reflexivity.
Qed.

Lemma quiet_refl w : quiet w w.
Proof.
  constructor; try reflexivity.
  exists []. rewrite app_nil_r. split; [reflexivity | apply harmless_nil].
Qed.

Lemma quiet_trans w1 w2 w3 : quiet w1 w2 -> quiet w2 w3 -> quiet w1 w3.
Proof.
  intros [a1 a2 a3 a4 a5 (d1 & E1 & H1)] [b1 b2 b3 b4 b5 (d2 & E2 & H2)].
  constructor; try congruence.
  exists (d1 ++ d2). split.
  - rewrite E2, E1, app_assoc. reflexivity.
  - rewrite a2 in H2. apply harmless_app; assumption.
Qed.


(** ** Quiet building blocks *)

Lemma quiet_set w w' :
  routing_id_ w' = routing_id_ w ->
  closing_ w' = closing_ w ->
  update_reply_pending_ w' = update_reply_pending_ w ->
  next_paint_flags_ w' = next_paint_flags_ w ->
  pending_input_event_ack_ w' = pending_input_event_ack_ w ->
  effects w' = effects w ->
  quiet w w'.
Proof.
  intros. constructor; try assumption.
  exists []. rewrite app_nil_r. split; [assumption | apply harmless_nil].
Qed.

Lemma quiet_emit w (e : Effect) :
  sent_updates [e] = [] ->
  is_close_effect e = false ->
  (closing_ w = true -> forwarded [e] = []) ->
  quiet w (emit e w).
Proof.
  intros Hs Hc Hf. constructor; try reflexivity.
  exists [e]. split; [reflexivity|].
  repeat split; try assumption.
  simpl. rewrite Hc. reflexivity.
Qed.

Lemma sent_updates_Send (m : Message) :
  is_update m = false -> sent_updates [render_thread_Send m] = [].
Proof.
  destruct m as [id []]; unfold is_update; simpl; intros H;
    (discriminate H || reflexivity).
Qed.

Lemma routing_id_Send_ (m : Message) w :
  routing_id_ (Send_ m w) = routing_id_ w.
Proof. unfold Send_, Send. destruct (closing_ w); reflexivity. Qed.

Lemma closing_Send_ (m : Message) w : closing_ (Send_ m w) = closing_ w.
Proof. unfold Send_, Send. destruct (closing_ w) eqn:E; simpl; congruence. Qed.

Lemma pending_Send_ (m : Message) w :
  update_reply_pending_ (Send_ m w) = update_reply_pending_ w.
Proof. unfold Send_, Send. destruct (closing_ w); reflexivity. Qed.

Lemma flags_Send_ (m : Message) w :
  next_paint_flags_ (Send_ m w) = next_paint_flags_ w.
Proof. unfold Send_, Send. destruct (closing_ w); reflexivity. Qed.

Lemma slot_Send_ (m : Message) w :
  pending_input_event_ack_ (Send_ m w) = pending_input_event_ack_ w.
Proof. unfold Send_, Send. destruct (closing_ w); reflexivity. Qed.

Lemma effects_Send_ (m : Message) w :
  exists d,
    effects (Send_ m w) = effects w ++ d /\
    filter is_close_effect d = [] /\
    (closing_ w = true -> forwarded d = []) /\
    (is_update m = false -> sent_updates d = []).
Proof.
  unfold Send_, Send. destruct (closing_ w); simpl.
  - exists [delete_message m]. repeat split.
  - eexists. split; [reflexivity|]. repeat split; [discriminate|].
    intros Hm. apply sent_updates_Send.
    destruct (routing_id m =? MSG_ROUTING_NONE); exact Hm.
Qed.

Lemma quiet_Send_ w (m : Message) :
  is_update m = false -> quiet w (Send_ m w).
Proof.
  intros Hm. unfold Send_, Send.
  destruct (closing_ w) eqn:Hc; simpl.
  - apply quiet_emit; auto.
  - apply quiet_emit; auto.
    + apply sent_updates_Send.
      destruct (routing_id m =? MSG_ROUTING_NONE); auto.
    + congruence.
Qed.

(** Peels a composition of setters, emits and quiet calls off a [quiet]
    goal, one layer at a time. *)
Ltac quiet_layer :=
  lazymatch goal with
  | |- quiet ?w ?w => apply quiet_refl
  | |- quiet ?w (emit ?e ?w1) =>
      apply (quiet_trans w w1 _); [| apply quiet_emit; (reflexivity || (intros; reflexivity))]
  | |- quiet ?w (Send_ ?m ?w1) =>
      apply (quiet_trans w w1 _); [| apply quiet_Send_; reflexivity]
  | |- quiet ?w (if ?c then _ else _) => destruct c eqn:?
  | |- quiet ?w (?f ?v ?w1) =>
      apply (quiet_trans w w1 _); [| apply quiet_set; reflexivity]
  end.

Ltac quiet_layers := cbv zeta; repeat quiet_layer.

Lemma quiet_SetHidden (hidden : bool) w : quiet w (SetHidden hidden w).
Proof. unfold SetHidden. quiet_layers. Qed.

Lemma quiet_didInvalidateRect (rect : Rect) w :
  quiet w (didInvalidateRect rect w).
Proof. unfold didInvalidateRect. quiet_layers. Qed.

Lemma quiet_didScrollRect (dx dy : Z) (clip_rect : Rect) w :
  quiet w (didScrollRect dx dy clip_rect w).
Proof. unfold didScrollRect. quiet_layers. Qed.

Lemma quiet_delegate (c : DelegateCall) w : quiet w (delegate c w).
Proof.
  destruct c; simpl.
  - apply quiet_didInvalidateRect.
  - apply quiet_didScrollRect.
  - unfold didBlur. quiet_layers.
  - unfold closeWidgetSoon. quiet_layers.
  - unfold SchedulePluginMove. quiet_layers.
Qed.

Lemma quiet_delegate_all (calls : list DelegateCall) w :
  quiet w (delegate_all calls w).
Proof.
  revert w. induction calls as [|c calls IH]; intros w; simpl.
  - apply quiet_refl.
  - eapply quiet_trans; [apply quiet_delegate | apply IH].
Qed.

Lemma quiet_PaintRect (rect : Rect) (o : Point) (calls : list DelegateCall) w :
  quiet w (PaintRect rect o calls w).
Proof.
  unfold PaintRect.
  eapply quiet_trans; [| apply quiet_delegate_all].
  quiet_layers.
Qed.

Lemma quiet_paint_copy_rects (rects : list Rect) (i : nat) (o : Point)
  (calls : nat -> list DelegateCall) w :
  quiet w (paint_copy_rects i rects o calls w).
Proof.
  revert i w. induction rects as [|r rects IH]; intros i w; simpl.
  - apply quiet_refl.
  - eapply quiet_trans; [apply quiet_PaintRect | apply IH].
Qed.

Lemma quiet_UpdateInputMethod (t : WebTextInputType) (r : Rect) w :
  quiet w (UpdateInputMethod t r w).
Proof. unfold UpdateInputMethod. quiet_layers. Qed.


Ltac quiet_call :=
  lazymatch goal with
  | |- quiet ?w ?w => apply quiet_refl
  | |- quiet ?w (SetHidden ?h ?w1) =>
      apply (quiet_trans w w1 _); [| apply quiet_SetHidden]
  | |- quiet ?w (didInvalidateRect ?r ?w1) =>
      apply (quiet_trans w w1 _); [| apply quiet_didInvalidateRect]
  | |- quiet ?w (delegate ?c ?w1) =>
      apply (quiet_trans w w1 _); [| apply quiet_delegate]
  | |- quiet ?w (delegate_all ?cs ?w1) =>
      apply (quiet_trans w w1 _); [| apply quiet_delegate_all]
  | |- quiet ?w (paint_copy_rects ?i ?rs ?o ?cs ?w1) =>
      apply (quiet_trans w w1 _); [| apply quiet_paint_copy_rects]
  | |- quiet ?w (UpdateInputMethod ?t ?r ?w1) =>
      apply (quiet_trans w w1 _); [| apply quiet_UpdateInputMethod]
  | |- _ => quiet_layer
  end.

Ltac quiet_calls := cbv zeta; repeat quiet_call.

(** ** Results *)

Lemma bind_Ok {A B : Type} (r : Result A) (k : A -> Result B) (b : B) :
  bind r k = Ok b -> exists a, r = Ok a /\ k a = Ok b.
Proof. destruct r as [a|]; simpl; [eauto | discriminate]. Qed.

Lemma DCHECK_Ok (c : bool) (u : unit) :
  DCHECK c = Ok u -> DCHECK_IS_ON = true -> c = true.
Proof.
  unfold DCHECK. intros H Hon. rewrite Hon in H.
  destruct c; [reflexivity | discriminate].
Qed.


Lemma DCHECK_off (c : bool) : DCHECK_IS_ON = false -> DCHECK c = Ok tt.
Proof. intros H. unfold DCHECK. rewrite H. reflexivity. Qed.

(** Splits a hypothesis [bind r k = Ok w] into its two halves. *)
Ltac bind_inv H :=
  let a := fresh "u" in
  let Hr := fresh "Hcheck" in
  apply bind_Ok in H; destruct H as (a & Hr & H).

(** ** One flush, stage by stage *)

Lemma DoDeferredUpdate_skip (env : DeferredUpdateAnswers) w :
  webwidget_ w && HasPendingUpdate (paint_aggregator_ w) &&
  negb (update_reply_pending_ w) = false ->
  DoDeferredUpdate env w = Ok w.
Proof.
  unfold DoDeferredUpdate, update_reply_pending. intros H.
  destruct (webwidget_ w), (HasPendingUpdate (paint_aggregator_ w)),
    (update_reply_pending_ w); try reflexivity; discriminate H.
Qed.

Lemma DoDeferredUpdate_suppressed (env : DeferredUpdateAnswers) w :
  webwidget_ w = true ->
  HasPendingUpdate (paint_aggregator_ w) = true ->
  update_reply_pending_ w = false ->
  is_hidden_ w || Size_IsEmpty (size_ w) = true ->
  DoDeferredUpdate env w =
  Ok (set_needs_repainting_on_restore_ true
        (set_paint_aggregator_ (ClearPendingUpdate (paint_aggregator_ w)) w)).
Proof.
  unfold DoDeferredUpdate, update_reply_pending. intros -> -> -> ->.
  reflexivity.
Qed.

Lemma DoDeferredUpdate_flushable (env : DeferredUpdateAnswers) w :
  flushable w = true ->
  DoDeferredUpdate env w =
  match drawing_canvas env with
  | no_canvas memory =>
      NOTREACHED ;;; Ok (set_current_paint_buf_ memory (at_canvas env w))
  | canvas_of memory device_width device_height =>
      DCHECK (Rect_width (requested_bounds env w) =? device_width) ;;;
      DCHECK (Rect_height (requested_bounds env w) =? device_height) ;;;
      Ok (flushed env w memory device_width device_height)
  end.
Proof.
  unfold flushable, DoDeferredUpdate, update_reply_pending. intros H.
  destruct (webwidget_ w); [|discriminate H].
  destruct (HasPendingUpdate (paint_aggregator_ w)); [|discriminate H].
  destruct (update_reply_pending_ w); [discriminate H|].
  destruct (is_hidden_ w); [discriminate H|].
  destruct (Size_IsEmpty (size_ w)); [discriminate H|].
  unfold orb, negb at 1 2.
  unfold flushed, update_params, painted, painted_rects, canvas_bounds,
    at_canvas, requested_bounds, snapshot, after_layout.
  cbv zeta.
  destruct (drawing_canvas env); reflexivity.
Qed.

Lemma flushable_cases w :
  flushable w = true \/
  webwidget_ w && HasPendingUpdate (paint_aggregator_ w) &&
    negb (update_reply_pending_ w) = false \/
  (webwidget_ w = true /\ HasPendingUpdate (paint_aggregator_ w) = true /\
   update_reply_pending_ w = false /\
   is_hidden_ w || Size_IsEmpty (size_ w) = true).
Proof.
  unfold flushable.
  destruct (webwidget_ w), (HasPendingUpdate (paint_aggregator_ w)),
    (update_reply_pending_ w), (is_hidden_ w), (Size_IsEmpty (size_ w));
    simpl; auto 10.
Qed.

Lemma quiet_after_layout (env : DeferredUpdateAnswers) w :
  quiet w (after_layout env w).
Proof. unfold after_layout. quiet_calls. Qed.

Lemma quiet_at_canvas (env : DeferredUpdateAnswers) w :
  quiet w (at_canvas env w).
Proof.
  unfold at_canvas. quiet_calls. apply quiet_after_layout.
Qed.

Lemma quiet_painted (env : DeferredUpdateAnswers) w (memory : TransportDIB)
  (dw dh : Z) : quiet w (painted env w memory dw dh).
Proof.
  unfold painted. quiet_calls. apply quiet_at_canvas.
Qed.


Lemma update_params_flags (env : DeferredUpdateAnswers) w
  (memory : TransportDIB) (dw dh : Z) :
  flags (update_params env w memory dw dh) = next_paint_flags_ w.
Proof.
  unfold update_params. cbv zeta. simpl.
  apply (quiet_flags _ _ (quiet_painted env w memory dw dh)).
Qed.

Lemma flushed_summary (env : DeferredUpdateAnswers) w
  (memory : TransportDIB) (dw dh : Z) :
  let w' := flushed env w memory dw dh in
  routing_id_ w' = routing_id_ w /\
  closing_ w' = closing_ w /\
  pending_input_event_ack_ w' = pending_input_event_ack_ w /\
  update_reply_pending_ w' = true /\
  next_paint_flags_ w' = 0 /\
  exists d,
    effects w' = effects w ++ d /\
    filter is_close_effect d = [] /\
    (closing_ w = true -> forwarded d = []) /\
    sent_updates d =
      if closing_ w then [] else [update_params env w memory dw dh].
Proof.
  intros w'. subst w'. unfold flushed. cbv zeta.
  set (p := update_params env w memory dw dh).
  pose proof (quiet_painted env w memory dw dh) as Hq.
  set (wp := painted env w memory dw dh) in *.
  set (ws := set_next_paint_flags_ 0 _).
  pose proof (quiet_UpdateInputMethod (textInputType env)
                (caretOrSelectionBounds env) ws) as Hu.
  set (wu := UpdateInputMethod _ _ ws) in *.
  destruct Hq as [q1 q2 q3 q4 q5 (d & Hd & Hs & Hc & Hf)].
  destruct Hu as [u1 u2 u3 u4 u5 (d' & Hd' & Hs' & Hc' & Hf')].
  assert (Es : routing_id_ ws = routing_id_ w /\ closing_ ws = closing_ w /\
               pending_input_event_ack_ ws = pending_input_event_ack_ w /\
               update_reply_pending_ ws = true /\ next_paint_flags_ ws = 0).
  { subst ws. unfold Send_, Send. simpl.
    destruct (closing_ wp) eqn:E; simpl; repeat split; congruence. }
  destruct Es as (e1 & e2 & e3 & e4 & e5).
  rewrite u1, u2, u3, u4, u5. repeat split; try assumption.
  rewrite e2 in Hf'.
  assert (Ee : effects ws = effects wp ++
                 [if closing_ w then
                    delete_message
                      (mkMessage (routing_id_ wp) (ViewHostMsg_UpdateRect p))
                  else
                    render_thread_Send
                      (mkMessage (routing_id_ wp) (ViewHostMsg_UpdateRect p))]).
  { subst ws. unfold Send_, Send. simpl. rewrite q2.
    destruct (closing_ w); simpl; [reflexivity|].
    destruct (routing_id_ wp =? MSG_ROUTING_NONE); reflexivity. }
  eexists. split.
  { rewrite Hd', Ee, Hd, <- !app_assoc. reflexivity. }
  rewrite !filter_app, !forwarded_app, !sent_updates_app, Hc, Hc', Hs, Hs'.
  destruct (closing_ w) eqn:Hcl; simpl.
  - rewrite (Hf eq_refl), (Hf' eq_refl). repeat split.
  - repeat split. discriminate.
Qed.

Lemma DoDeferredUpdate_summary (env : DeferredUpdateAnswers) w w' :
  DoDeferredUpdate env w = Ok w' ->
  routing_id_ w' = routing_id_ w /\
  closing_ w' = closing_ w /\
  pending_input_event_ack_ w' = pending_input_event_ack_ w /\
  exists d,
    effects w' = effects w ++ d /\
    filter is_close_effect d = [] /\
    (closing_ w = true -> forwarded d = []) /\
    ((update_reply_pending_ w' = update_reply_pending_ w /\
      next_paint_flags_ w' = next_paint_flags_ w /\
      sent_updates d = [])
     \/
     (update_reply_pending_ w = false /\
      update_reply_pending_ w' = true /\
      next_paint_flags_ w' = 0 /\
      if closing_ w then sent_updates d = []
      else exists p, sent_updates d = [p] /\ flags p = next_paint_flags_ w)).
Proof.
  intros H.
  destruct (flushable_cases w) as [Hf | [Hs | (Hw & Hp & Hr & Hh)]].
  - rewrite (DoDeferredUpdate_flushable env w Hf) in H.
    assert (Hr : update_reply_pending_ w = false).
    { unfold flushable in Hf.
      destruct (update_reply_pending_ w); [|reflexivity].
      rewrite !andb_false_r in Hf. discriminate Hf. }
    destruct (drawing_canvas env) as [memory | memory dw dh].
    + bind_inv H. injection H as <-.
      destruct (quiet_at_canvas env w)
        as [q1 q2 q3 q4 q5 (d & Hd & Hs & Hc & Hfw)].
      simpl. repeat split; try assumption.
      exists d. repeat split; try assumption.
      left. repeat split; assumption.
    + bind_inv H. bind_inv H. injection H as <-.
      destruct (flushed_summary env w memory dw dh)
        as (f1 & f2 & f3 & f4 & f5 & d & Hd & Hc & Hfw & Hs).
      repeat split; try assumption.
      exists d. repeat split; try assumption.
      right. repeat split; try assumption.
      destruct (closing_ w); [assumption|].
      eexists. split; [eassumption | apply update_params_flags].
  - rewrite (DoDeferredUpdate_skip env w Hs) in H. injection H as <-.
    repeat split.
    exists []. rewrite app_nil_r. repeat split. left. repeat split.
  - rewrite (DoDeferredUpdate_suppressed env w Hw Hp Hr Hh) in H.
    injection H as <-. simpl. repeat split.
    exists []. rewrite app_nil_r. repeat split. left. repeat split.
Qed.


(** ** Calm steps *)

Lemma quiet_calm w w' : quiet w w' -> calm w w'.
Proof.
  intros [q1 q2 q3 q4 q5 (d & Hd & Hs & Hc & Hf)].
  constructor; auto; unfold next_paint_is_resize_ack, ack_slot_ok;
    rewrite ?q4, ?q5; auto.
  exists d. auto.
Qed.

Lemma calm_trans w1 w2 w3 : calm w1 w2 -> calm w2 w3 -> calm w1 w3.
Proof.
  intros [a1 a2 a3 a4 a5 (d1 & E1 & C1 & F1 & S1)]
         [b1 b2 b3 b4 b5 (d2 & E2 & C2 & F2 & S2)].
  constructor; try congruence; auto.
  exists (d1 ++ d2).
  rewrite filter_app, forwarded_app, sent_updates_app, C1, C2.
  rewrite a2 in F2.
  repeat split.
  - rewrite E2, E1, app_assoc. reflexivity.
  - intros E. rewrite (F1 E), (F2 E). reflexivity.
  - intros Hs. rewrite (S1 Hs), (S2 (a5 Hs)). reflexivity.
Qed.

Lemma is_resize_ack_lor (f c : Z) :
  ViewHostMsg_UpdateRect_Flags.is_resize_ack f = true ->
  ViewHostMsg_UpdateRect_Flags.is_resize_ack (Z.lor f c) = true.
Proof.
  unfold ViewHostMsg_UpdateRect_Flags.is_resize_ack.
  rewrite Z.land_lor_distr_l, !negb_true_iff, !Z.eqb_neq, Z.lor_eq_0_iff.
  tauto.
Qed.

Lemma is_resize_ack_set (f : Z) :
  ViewHostMsg_UpdateRect_Flags.is_resize_ack
    (Z.lor f ViewHostMsg_UpdateRect_Flags.IS_RESIZE_ACK) = true.
Proof.
  unfold ViewHostMsg_UpdateRect_Flags.is_resize_ack.
  rewrite Z.land_lor_distr_l, negb_true_iff, Z.eqb_neq, Z.lor_eq_0_iff.
  intros [_ H]. discriminate H.
Qed.

Lemma calm_flags_lor w (c : Z) :
  calm w (set_next_paint_flags_ (Z.lor (next_paint_flags_ w) c) w).
Proof.
  constructor; try reflexivity; auto.
  - unfold next_paint_is_resize_ack. simpl. apply is_resize_ack_lor.
  - exists []. rewrite app_nil_r. repeat split.
Qed.

Lemma calm_OnWasRestored (needs_repainting : bool) w :
  calm w (OnWasRestored needs_repainting w).
Proof.
  unfold OnWasRestored. cbv zeta.
  destruct (negb (webwidget_ w)); [apply quiet_calm, quiet_refl|].
  destruct (_ && _); [apply quiet_calm, quiet_SetHidden|].
  eapply calm_trans; [| apply quiet_calm, quiet_didInvalidateRect].
  unfold set_next_paint_is_restore_ack.
  eapply calm_trans; [| apply calm_flags_lor].
  apply quiet_calm. quiet_calls.
Qed.

Lemma calm_OnMsgRepaint (size_to_paint : Size) w :
  calm w (OnMsgRepaint size_to_paint w).
Proof.
  unfold OnMsgRepaint. cbv zeta.
  destruct (negb (webwidget_ w)); [apply quiet_calm, quiet_refl|].
  eapply calm_trans; [| apply quiet_calm, quiet_didInvalidateRect].
  apply calm_flags_lor.
Qed.

Lemma calm_OnResize (new_size : Size) (resizer_rect : Rect)
  (resize_calls : list DelegateCall) w w' :
  OnResize new_size resizer_rect resize_calls w = Ok w' -> calm w w'.
Proof.
  unfold OnResize. cbv zeta.
  destruct (negb (webwidget_ w)).
  { intros [= <-]. apply quiet_calm, quiet_refl. }
  intros H. bind_inv H. bind_inv H.
  match type of H with
  | context [delegate_all ?cs ?w0] =>
      assert (Hq : quiet w (delegate_all cs w0)) by quiet_calls;
      set (wr := delegate_all cs w0) in *
  end.
  destruct (negb (Size_IsEmpty new_size)).
  - bind_inv H. injection H as <-.
    eapply calm_trans; [apply quiet_calm, Hq|].
    apply calm_flags_lor.
  - injection H as <-. apply quiet_calm, Hq.
Qed.


Lemma is_input_ack_not_update (m : Message) :
  is_input_ack m = true -> is_update m = false.
Proof.
  unfold is_input_ack, is_update. destruct (body m); congruence.
Qed.

(** The end of OnHandleInputEvent: the acknowledgement is buffered or
    sent. *)
Lemma calm_input_ack (buffer : bool) (response : Message) w :
  is_input_ack response = true ->
  calm w
    (set_handling_input_event_ false
       (if buffer then
          set_pending_input_event_ack_ (Some response)
            match pending_input_event_ack_ w with
            | Some ack => Send_ ack (set_pending_input_event_ack_ None w)
            | None => w
            end
        else Send_ response w)).
Proof.
  intros Hr. destruct buffer.
  - destruct (pending_input_event_ack_ w) as [ack|] eqn:Hslot.
    + constructor.
      * simpl. unfold Send_, Send. simpl.
        destruct (closing_ w) eqn:E; simpl; congruence.
      * simpl. unfold Send_, Send. simpl.
        destruct (closing_ w) eqn:E; simpl; congruence.
      * simpl. unfold Send_, Send. simpl.
        destruct (closing_ w) eqn:E; simpl; congruence.
      * unfold next_paint_is_resize_ack. simpl. unfold Send_, Send. simpl.
        destruct (closing_ w) eqn:E; simpl; auto.
      * intros _. unfold ack_slot_ok. simpl. exact Hr.
      * destruct (effects_Send_ ack (set_pending_input_event_ack_ None w))
          as (d & Hd & Hc & Hf & Hs).
        exists d. repeat split; try assumption.
        unfold ack_slot_ok. rewrite Hslot. intros Hack.
        apply Hs, is_input_ack_not_update, Hack.
    + constructor; try reflexivity; auto.
      exists []. rewrite app_nil_r. repeat split.
  - apply quiet_calm.
    apply (quiet_trans w (Send_ response w) _).
    + apply quiet_Send_, is_input_ack_not_update, Hr.
    + apply quiet_set; reflexivity.
Qed.

Lemma calm_OnHandleInputEvent (message : InputEventMessage)
  (env : InputEventAnswers) w :
  calm w (OnHandleInputEvent message env w).
Proof.
  unfold OnHandleInputEvent. cbv zeta.
  destruct (input_event message) as [type|].
  2:{ apply quiet_calm. quiet_calls. }
  match goal with
  | |- context [if negb (WebInputEventType_eqb type Char) || ?x
                then ?a else ?b] =>
      destruct (if negb (WebInputEventType_eqb type Char) || x
                then a else b) as [processed w1] eqn:E;
      assert (Hq : quiet w w1)
  end.
  { destruct (_ || _) in E.
    - destruct (webwidget_ _) in E; injection E as _ <-; quiet_calls.
    - injection E as _ <-. quiet_calls. }
  match goal with
  | |- calm _ (set_handling_input_event_ false
                 (if ?c then _ (match pending_input_event_ack_ ?w2 with
                                | _ => _ end) else _)) =>
      apply (calm_trans w w2 _);
      [apply quiet_calm | apply calm_input_ack; reflexivity]
  end.
  destruct (_ && _); quiet_calls; exact Hq.
Qed.

(** ** Closing *)

Lemma OnClose_outcome w : close_outcome w (OnClose w).
Proof.
  unfold close_outcome, OnClose. cbv zeta.
  destruct (closing_ w) eqn:Hc.
  { repeat split; try assumption.
    exists []. rewrite app_nil_r. repeat split; discriminate. }
  simpl.
  destruct (routing_id_ w =? MSG_ROUTING_NONE) eqn:Hid; simpl.
  - repeat split.
    eexists. split; [rewrite <- app_assoc; reflexivity|].
    repeat split. discriminate.
  - unfold SetHidden. simpl.
    destruct (Bool.eqb (is_hidden_ w) false); simpl.
    + repeat split.
      eexists. split; [rewrite <- !app_assoc; reflexivity|].
      repeat split. discriminate.
    + repeat split.
      eexists. split; [rewrite <- !app_assoc; reflexivity|].
      repeat split. discriminate.
Qed.


(** ** Steps that may flush *)

Lemma DoDeferredUpdate_outcome (env : DeferredUpdateAnswers) w w' :
  DoDeferredUpdate env w = Ok w' ->
  pending_input_event_ack_ w' = pending_input_event_ack_ w /\
  flush_outcome (update_reply_pending_ w) w w'.
Proof.
  intros H.
  destruct (DoDeferredUpdate_summary env w w' H)
    as (s1 & s2 & s3 & d & Hd & Hc & Hf & Hcases).
  split; [exact s3|].
  unfold flush_outcome, ack_slot_ok. rewrite s3.
  repeat split; auto.
  exists d. repeat split; auto.
Qed.

(** A harmless stretch before a flush. *)
Lemma flush_outcome_after (r0 : bool) w w0 w' :
  routing_id_ w0 = routing_id_ w ->
  closing_ w0 = closing_ w ->
  next_paint_flags_ w0 = next_paint_flags_ w ->
  pending_input_event_ack_ w0 = pending_input_event_ack_ w ->
  (exists d0, effects w0 = effects w ++ d0 /\ harmless (closing_ w) d0) ->
  flush_outcome r0 w0 w' ->
  flush_outcome r0 w w'.
Proof.
  intros e1 e2 e3 e4 (d0 & Hd0 & Hs0 & Hc0 & Hf0)
         (f1 & f2 & f3 & d & Hd & Hc & Hf & Hcases).
  unfold flush_outcome, ack_slot_ok in *. rewrite e4, e2, e3 in *.
  repeat split; try congruence; auto.
  exists (d0 ++ d).
  rewrite filter_app, forwarded_app, sent_updates_app, Hs0, Hc0, Hc.
  repeat split.
  - rewrite Hd, Hd0, app_assoc. reflexivity.
  - intros E. rewrite (Hf0 E), (Hf E). reflexivity.
  - exact Hcases.
Qed.

(** A quiet stretch after a flush that may empty the slot. *)
Lemma flush_outcome_before (r0 : bool) w w1 w' :
  flush_outcome r0 w w1 ->
  routing_id_ w' = routing_id_ w1 ->
  closing_ w' = closing_ w1 ->
  update_reply_pending_ w' = update_reply_pending_ w1 ->
  next_paint_flags_ w' = next_paint_flags_ w1 ->
  ack_slot_ok w' = true ->
  (exists d1,
     effects w' = effects w1 ++ d1 /\
     filter is_close_effect d1 = [] /\
     (closing_ w1 = true -> forwarded d1 = []) /\
     (ack_slot_ok w1 = true -> sent_updates d1 = [])) ->
  flush_outcome r0 w w'.
Proof.
  intros (f1 & f2 & f3 & d & Hd & Hc & Hf & Hcases) e1 e2 e3 e4 e5
         (d1 & Hd1 & Hc1 & Hf1 & Hs1).
  unfold flush_outcome. rewrite e1, e2, e3, e4.
  repeat split; auto.
  rewrite f2 in Hf1.
  exists (d ++ d1).
  rewrite filter_app, forwarded_app, Hc1, Hc.
  repeat split.
  - rewrite Hd1, Hd, app_assoc. reflexivity.
  - intros E. rewrite (Hf1 E), (Hf E). reflexivity.
  - intros Hs.
    assert (Es : sent_updates (d ++ d1) = sent_updates d)
      by (rewrite sent_updates_app, (Hs1 (f3 Hs)), app_nil_r; reflexivity).
    rewrite Es. exact (Hcases Hs).
Qed.

Lemma CallDoDeferredUpdate_outcome (env : DeferredUpdateAnswers) w w' :
  CallDoDeferredUpdate env w = Ok w' ->
  flush_outcome (update_reply_pending_ w) w w'.
Proof.
  unfold CallDoDeferredUpdate. intros H.
  apply bind_Ok in H. destruct H as (w1 & H1 & H).
  destruct (DoDeferredUpdate_outcome env w w1 H1) as (Hslot & Hout).
  destruct (pending_input_event_ack_ w1) as [ack|] eqn:E;
    injection H as <-; [|exact Hout].
  apply (flush_outcome_before _ w w1 _ Hout).
  - rewrite routing_id_Send_. reflexivity.
  - rewrite closing_Send_. reflexivity.
  - rewrite pending_Send_. reflexivity.
  - rewrite flags_Send_. reflexivity.
  - unfold ack_slot_ok. rewrite slot_Send_. reflexivity.
  - destruct (effects_Send_ ack (set_pending_input_event_ack_ None w1))
      as (d & Hd & Hc & Hf & Hs).
    exists d. repeat split; try assumption.
    unfold ack_slot_ok. rewrite E. intros Hack.
    apply Hs, is_input_ack_not_update, Hack.
Qed.

Lemma OnUpdateRectAck_outcome (env : DeferredUpdateAnswers) w w' :
  OnUpdateRectAck env w = Ok w' -> flush_outcome false w w'.
Proof.
  unfold OnUpdateRectAck. cbv zeta. intros H. bind_inv H.
  apply CallDoDeferredUpdate_outcome in H.
  match type of H with
  | flush_outcome ?r ?w0 _ =>
      replace r with false in H
        by (simpl; destruct (current_paint_buf_ w); reflexivity);
      apply (flush_outcome_after false w w0 w'); [| | | | |exact H]
  end.
  - destruct (current_paint_buf_ _); reflexivity.
  - destruct (current_paint_buf_ _); reflexivity.
  - destruct (current_paint_buf_ _); reflexivity.
  - destruct (current_paint_buf_ _); reflexivity.
  - destruct (current_paint_buf_ _); simpl.
    + exists [ReleaseTransportDIB t]. repeat split.
    + exists []. rewrite app_nil_r. repeat split.
Qed.

(** ** Every step has one of three outcomes *)

Lemma step_has_outcome (op : Op) w w' :
  step op w = Ok w' -> step_outcome op w w'.
Proof.
  destruct op; simpl; intros H;
    try (injection H as <-).
  - apply OnClose_outcome.
  - apply (calm_OnResize _ _ _ _ _ H).
  - apply quiet_calm, quiet_SetHidden.
  - apply calm_OnWasRestored.
  - apply (OnUpdateRectAck_outcome _ _ _ H).
  - apply calm_OnHandleInputEvent.
  - apply quiet_calm. unfold OnSetInputMethodActive. quiet_calls.
  - apply calm_OnMsgRepaint.
  - apply quiet_calm, quiet_delegate.
  - apply (CallDoDeferredUpdate_outcome _ _ _ H).
  - apply quiet_calm. unfold Close. quiet_calls.
  - apply quiet_calm. unfold DoDeferredClose. quiet_calls.
  - apply quiet_calm. unfold CleanupWindowInPluginMoves. quiet_calls.
  - apply quiet_calm. unfold GenerateFullRepaint. quiet_calls.
  - apply quiet_calm, quiet_UpdateInputMethod.
  - apply quiet_calm, quiet_PaintRect.
  - apply quiet_calm. quiet_calls.
Qed.


Lemma step_cases (op : Op) w w' :
  step op w = Ok w' ->
  (is_ack op = false /\ is_close op = false /\ calm w w') \/
  (is_ack op = false /\ is_close op = true /\ close_outcome w w') \/
  (is_close op = false /\
   flush_outcome (if is_ack op then false else update_reply_pending_ w)
     w w').
Proof.
  intros H. apply step_has_outcome in H.
  destruct op; simpl in *; auto.
Qed.

Lemma count_effects_app (which : Effect -> bool) (a b : list Effect) :
  count_effects which (a ++ b) =
  (count_effects which a + count_effects which b)%nat.
Proof. unfold count_effects. rewrite filter_app, length_app. reflexivity. Qed.

Lemma no_close_effects d :
  filter is_close_effect d = [] ->
  count_effects is_RemoveRoute d = 0%nat /\
  count_effects is_PostNonNestable_Close d = 0%nat /\
  count_effects is_Release d = 0%nat.
Proof.
  unfold count_effects, is_close_effect.
  induction d as [|e d IH]; simpl; [auto|].
  destruct (is_RemoveRoute e), (is_PostNonNestable_Close e), (is_Release e);
    simpl; try discriminate; exact IH.
Qed.

(** What every step keeps. *)
Lemma step_frame (op : Op) w w' :
  step op w = Ok w' ->
  routing_id_ w' = routing_id_ w /\
  (closing_ w = true -> closing_ w' = true) /\
  (ack_slot_ok w = true -> ack_slot_ok w' = true) /\
  exists d,
    effects w' = effects w ++ d /\
    (closing_ w = true -> forwarded d = [] /\ filter is_close_effect d = []) /\
    (is_close op = false ->
     closing_ w' = closing_ w /\ filter is_close_effect d = []).
Proof.
  intros H.
  destruct (step_cases op w w' H)
    as [(_ & Hcl & [c1 c2 c3 c4 c5 (d & Hd & Hc & Hf & Hs)])
       |[(_ & Hcl & c1 & c2 & c3 & c4 & c5 & d & Hd & Hf & Hs & Hd0 & Hcount)
        |(Hcl & c1 & c2 & c3 & d & Hd & Hc & Hf & Hs)]].
  - repeat split; try congruence; auto.
    exists d. repeat split; auto.
  - repeat split; try congruence; auto.
    + unfold ack_slot_ok. rewrite c5. auto.
    + exists d. repeat split; try congruence; auto.
      match goal with
      | E : closing_ w = true |- _ => rewrite (Hd0 E)
      end.
      reflexivity.
  - repeat split; try congruence; auto.
    exists d. repeat split; auto.
Qed.

Lemma run_frame (ops : list Op) w w' :
  run ops w = Ok w' ->
  routing_id_ w' = routing_id_ w /\
  (closing_ w = true -> closing_ w' = true) /\
  (ack_slot_ok w = true -> ack_slot_ok w' = true) /\
  exists d,
    effects w' = effects w ++ d /\
    (closing_ w = true -> forwarded d = [] /\ filter is_close_effect d = []).
Proof.
  revert w. induction ops as [|op ops IH]; intros w H; simpl in H.
  - injection H as <-. repeat split; auto.
    exists []. rewrite app_nil_r. repeat split.
  - apply bind_Ok in H. destruct H as (w1 & H1 & H).
    destruct (step_frame op w w1 H1) as (s1 & s2 & s3 & d1 & Hd1 & Hc1 & _).
    destruct (IH w1 H) as (r1 & r2 & r3 & d2 & Hd2 & Hc2).
    repeat split; try congruence; auto.
    exists (d1 ++ d2). split.
    + rewrite Hd2, Hd1, app_assoc. reflexivity.
    + intros E. destruct (Hc1 E) as (F1 & C1).
      destruct (Hc2 (s2 E)) as (F2 & C2).
      rewrite forwarded_app, filter_app, F1, F2, C1, C2. auto.
Qed.


(** ** Closing is final *)

Lemma OnClose_when_closing w : closing_ w = true -> OnClose w = w.
Proof. unfold OnClose. intros ->. reflexivity. Qed.

Lemma run_until_close (ops : list Op) w w' :
  run ops w = Ok w' ->
  closing_ w = false ->
  exists d,
    effects w' = effects w ++ d /\
    if existsb is_close ops then
      closing_ w' = true /\
      count_effects is_RemoveRoute d =
        (if (routing_id_ w =? MSG_ROUTING_NONE)%Z then 0%nat else 1%nat) /\
      count_effects is_PostNonNestable_Close d = 1%nat /\
      count_effects is_Release d = 1%nat
    else
      closing_ w' = false /\ filter is_close_effect d = [].
Proof.
  revert w. induction ops as [|op ops IH]; intros w H Hcl; simpl in H.
  - injection H as <-. exists []. rewrite app_nil_r. simpl. auto.
  - apply bind_Ok in H. destruct H as (w1 & H1 & H).
    simpl. destruct (is_close op) eqn:Hop; simpl.
    + destruct op; try discriminate Hop. simpl in H1. injection H1 as <-.
      destruct (OnClose_outcome w)
        as (c1 & c2 & _ & _ & _ & d1 & Hd1 & _ & _ & _ & Hcount).
      destruct (Hcount Hcl) as (n1 & n2 & n3).
      destruct (run_frame ops _ _ H) as (_ & r2 & _ & d2 & Hd2 & Hq).
      destruct (Hq c2) as (_ & Hnone).
      destruct (no_close_effects d2 Hnone) as (z1 & z2 & z3).
      exists (d1 ++ d2). split.
      * rewrite Hd2, Hd1, app_assoc. reflexivity.
      * rewrite !count_effects_app, n1, n2, n3, z1, z2, z3, !Nat.add_0_r.
        auto.
    + destruct (step_frame op w w1 H1) as (s1 & _ & _ & d1 & Hd1 & _ & Hs).
      destruct (Hs Hop) as (Hc1 & Hnone).
      rewrite Hcl in Hc1.
      destruct (IH w1 H Hc1) as (d2 & Hd2 & Hrest).
      destruct (no_close_effects d1 Hnone) as (z1 & z2 & z3).
      exists (d1 ++ d2). split.
      * rewrite Hd2, Hd1, app_assoc. reflexivity.
      * rewrite s1 in Hrest.
        destruct (existsb is_close ops).
        -- rewrite !count_effects_app, z1, z2, z3. exact Hrest.
        -- rewrite filter_app, Hnone. exact Hrest.
Qed.

(** C7 (close idempotence).  A second OnClose, once [closing_] is set, is
    the identity on the widget and adds no effect.  In every run that
    starts from a widget that is not closing, however many OnClose it
    holds: the route is removed once (when the widget has a route, i.e.
    its routing id is not MSG_ROUTING_NONE), the non-nestable Close task is
    posted once and the reference is released once; without an OnClose
    none of the three happens.  And [closing_] is never reset: from a
    closing widget every run ends closing, with no further route removal,
    teardown task or release. *)
Theorem OnClose_idempotent :
  (forall w, closing_ w = true -> OnClose w = w) /\
  (forall w, OnClose (OnClose w) = OnClose w) /\
  (forall ops w w',
     closing_ w = false ->
     existsb is_close ops = true ->
     run ops w = Ok w' ->
     closing_ w' = true /\
     exists d,
       effects w' = effects w ++ d /\
       count_effects is_RemoveRoute d =
         (if (routing_id_ w =? MSG_ROUTING_NONE)%Z then 0%nat else 1%nat) /\
       count_effects is_PostNonNestable_Close d = 1%nat /\
       count_effects is_Release d = 1%nat) /\
  (forall ops w w',
     closing_ w = false ->
     existsb is_close ops = false ->
     run ops w = Ok w' ->
     closing_ w' = false /\
     exists d,
       effects w' = effects w ++ d /\ filter is_close_effect d = []) /\
  (forall ops w w',
     closing_ w = true ->
     run ops w = Ok w' ->
     closing_ w' = true /\
     exists d,
       effects w' = effects w ++ d /\ filter is_close_effect d = []).
Proof.
  split; [exact OnClose_when_closing|].
  split.
  { intros w. apply OnClose_when_closing.
    destruct (OnClose_outcome w) as (_ & c & _). exact c. }
  split.
  { intros ops w w' Hcl Hops H.
    destruct (run_until_close ops w w' H Hcl) as (d & Hd & Hrest).
    rewrite Hops in Hrest. destruct Hrest as (c & n).
    split; [exact c|]. exists d. split; assumption. }
  split.
  { intros ops w w' Hcl Hops H.
    destruct (run_until_close ops w w' H Hcl) as (d & Hd & Hrest).
    rewrite Hops in Hrest. destruct Hrest as (c & n).
    split; [exact c|]. exists d. split; assumption. }
  intros ops w w' Hcl H.
  destruct (run_frame ops w w' H) as (_ & r2 & _ & d & Hd & Hq).
  split; [exact (r2 Hcl)|].
  exists d. split; [exact Hd | exact (proj2 (Hq Hcl))].
Qed.

(** C10 (nothing is forwarded once closing).  Once [closing_] is set, Send
    deletes the message and returns false, whatever the message; OnClose
    sets [closing_] and forwards nothing itself; and from a closing widget
    no run hands any message to the render thread: frame updates, input
    acknowledgements, the deferred close and every other message all go
    through Send.  While the widget is not closing, Send forwards the
    message, stamped with the routing id of the widget when the message
    has none, and returns what the render thread returns. *)
Theorem Send_drops_everything_once_closing :
  (forall (message : Message) w,
     closing_ w = true ->
     Send message w = (false, emit (delete_message message) w)) /\
  (forall w,
     closing_ (OnClose w) = true /\
     forwarded (effects (OnClose w)) = forwarded (effects w)) /\
  (forall ops w w',
     closing_ w = true ->
     run ops w = Ok w' ->
     closing_ w' = true /\
     forwarded (effects w') = forwarded (effects w)) /\
  (forall (message : Message) w,
     closing_ w = false ->
     let stamped :=
       if routing_id message =? MSG_ROUTING_NONE
       then set_routing_id (routing_id_ w) message
       else message in
     Send message w =
     (render_thread_Send_result stamped,
      emit (render_thread_Send stamped) w)).
Proof.
  split.
  { intros message w Hcl. unfold Send. rewrite Hcl. reflexivity. }
  split.
  { intros w.
    destruct (OnClose_outcome w)
      as (_ & c & _ & _ & _ & d & Hd & Hf & _).
    split; [exact c|].
    rewrite Hd, forwarded_app, Hf, app_nil_r. reflexivity. }
  split.
  { intros ops w w' Hcl H.
    destruct (run_frame ops w w' H) as (_ & r2 & _ & d & Hd & Hq).
    split; [exact (r2 Hcl)|].
    rewrite Hd, forwarded_app, (proj1 (Hq Hcl)), app_nil_r. reflexivity. }
  intros message w Hcl. unfold Send. rewrite Hcl. reflexivity.
Qed.


(** ** One frame update in flight *)

Lemma step_in_flight (op : Op) w w' :
  ack_slot_ok w = true ->
  update_reply_pending_ w = true ->
  is_ack op = false ->
  step op w = Ok w' ->
  update_reply_pending_ w' = true /\
  sent_updates (effects w') = sent_updates (effects w).
Proof.
  intros Hslot Hp Hop H.
  destruct (step_cases op w w' H)
    as [(_ & _ & [c1 c2 c3 c4 c5 (d & Hd & Hc & Hf & Hs)])
       |[(_ & _ & c1 & c2 & c3 & c4 & c5 & d & Hd & Hf & Hs & _)
        |(_ & c1 & c2 & c3 & d & Hd & Hc & Hf & Hcases)]].
  - split; [congruence|].
    rewrite Hd, sent_updates_app, (Hs Hslot), app_nil_r. reflexivity.
  - split; [congruence|].
    rewrite Hd, sent_updates_app, Hs, app_nil_r. reflexivity.
  - rewrite Hop, Hp in Hcases.
    destruct (Hcases Hslot) as [(p1 & _ & p3)|(p1 & _)];
      [|discriminate p1].
    split; [exact p1|].
    rewrite Hd, sent_updates_app, p3, app_nil_r. reflexivity.
Qed.

Lemma run_in_flight (ops : list Op) w w' :
  ack_slot_ok w = true ->
  update_reply_pending_ w = true ->
  forallb (fun op => negb (is_ack op)) ops = true ->
  run ops w = Ok w' ->
  update_reply_pending_ w' = true /\
  sent_updates (effects w') = sent_updates (effects w).
Proof.
  revert w. induction ops as [|op ops IH]; intros w Hslot Hp Hops H;
    simpl in H.
  - injection H as <-. auto.
  - apply bind_Ok in H. destruct H as (w1 & H1 & H).
    simpl in Hops. apply andb_true_iff in Hops. destruct Hops as (Hop & Hops).
    apply negb_true_iff in Hop.
    destruct (step_in_flight op w w1 Hslot Hp Hop H1) as (Hp1 & Hs1).
    destruct (step_frame op w w1 H1) as (_ & _ & Hslot1 & _).
    destruct (IH w1 (Hslot1 Hslot) Hp1 Hops H) as (Hp' & Hs').
    split; [exact Hp' | congruence].
Qed.

Lemma step_budget (op : Op) w w' :
  ack_slot_ok w = true ->
  step op w = Ok w' ->
  (updates_budget w' <=
   updates_budget w + (if is_ack op then 1 else 0))%nat.
Proof.
  intros Hslot H. unfold updates_budget.
  destruct (step_cases op w w' H)
    as [(Ha & _ & [c1 c2 c3 c4 c5 (d & Hd & Hc & Hf & Hs)])
       |[(Ha & _ & c1 & c2 & c3 & c4 & c5 & d & Hd & Hf & Hs & _)
        |(_ & c1 & c2 & c3 & d & Hd & Hc & Hf & Hcases)]].
  - rewrite Hd, sent_updates_app, (Hs Hslot), app_nil_r, c3, Ha. lia.
  - rewrite Hd, sent_updates_app, Hs, app_nil_r, c3, Ha. lia.
  - rewrite Hd, sent_updates_app, length_app.
    destruct (Hcases Hslot) as [(p1 & _ & p3)|(p1 & p2 & _ & p4)].
    + rewrite p1, p3. simpl.
      destruct (is_ack op), (update_reply_pending_ w); simpl; lia.
    + rewrite p2.
      assert (Hlen : (length (sent_updates d) <= 1)%nat).
      { destruct (closing_ w); [rewrite p4; simpl; lia|].
        destruct p4 as (p & -> & _). simpl. lia. }
      destruct (is_ack op); [destruct (update_reply_pending_ w); lia|].
      rewrite p1. lia.
Qed.

Lemma run_budget (ops : list Op) w w' :
  ack_slot_ok w = true ->
  run ops w = Ok w' ->
  (updates_budget w' <= updates_budget w + count_acks ops)%nat.
Proof.
  revert w. induction ops as [|op ops IH]; intros w Hslot H; simpl in H.
  - injection H as <-. unfold count_acks. simpl. lia.
  - apply bind_Ok in H. destruct H as (w1 & H1 & H).
    pose proof (step_budget op w w1 Hslot H1) as B1.
    destruct (step_frame op w w1 H1) as (_ & _ & Hslot1 & _).
    pose proof (IH w1 (Hslot1 Hslot) H) as B2.
    unfold count_acks in *. simpl.
    destruct (is_ack op); simpl; lia.
Qed.

(** C1 (single flight).  When DoDeferredUpdate sends a
    ViewHostMsg_UpdateRect it sends exactly one, no reply was pending
    before, and [update_reply_pending_] is set after.  While
    [update_reply_pending_] is set, DoDeferredUpdate returns at once,
    changing nothing; and through any run that holds no OnUpdateRectAck
    (however many didInvalidateRect, didScrollRect, deferred updates or
    other messages it holds) the flag stays set and no further frame
    update is forwarded.  So over any run the frame updates forwarded
    exceed the acknowledgements processed by at most one (none, if a
    reply was pending at the start). *)
Theorem single_flight :
  (forall env w w',
     DoDeferredUpdate env w = Ok w' ->
     sent_updates (effects w') = sent_updates (effects w) \/
     (exists p,
        sent_updates (effects w') = sent_updates (effects w) ++ [p] /\
        update_reply_pending_ w = false /\
        update_reply_pending_ w' = true)) /\
  (forall env w,
     update_reply_pending_ w = true -> DoDeferredUpdate env w = Ok w) /\
  (forall ops w w',
     ack_slot_ok w = true ->
     update_reply_pending_ w = true ->
     forallb (fun op => negb (is_ack op)) ops = true ->
     run ops w = Ok w' ->
     update_reply_pending_ w' = true /\
     sent_updates (effects w') = sent_updates (effects w)) /\
  (forall ops w w',
     ack_slot_ok w = true ->
     run ops w = Ok w' ->
     (length (sent_updates (effects w')) <=
      length (sent_updates (effects w)) + count_acks ops +
      (if update_reply_pending_ w then 0 else 1))%nat).
Proof.
  split.
  { intros env w w' H.
    destruct (DoDeferredUpdate_summary env w w' H)
      as (_ & _ & _ & d & Hd & _ & _ & Hcases).
    rewrite Hd, sent_updates_app.
    destruct Hcases as [(_ & _ & Hs)|(p1 & p2 & _ & p4)].
    - left. rewrite Hs, app_nil_r. reflexivity.
    - destruct (closing_ w).
      + left. rewrite p4, app_nil_r. reflexivity.
      + destruct p4 as (p & Hp & _). right. exists p. rewrite Hp. auto. }
  split.
  { intros env w Hp. apply DoDeferredUpdate_skip. rewrite Hp.
    apply andb_false_r. }
  split; [exact run_in_flight|].
  intros ops w w' Hslot H.
  pose proof (run_budget ops w w' Hslot H) as B.
  unfold updates_budget in B.
  destruct (update_reply_pending_ w), (update_reply_pending_ w'); lia.
Qed.


(** ** The guards of DoDeferredUpdate *)

(** C3 (flush preconditions).  DoDeferredUpdate returns the widget as it
    is, with no effect, when the aggregator has no pending update or a
    reply is pending.  Otherwise, for a live widget that is hidden or has
    an empty size, it clears the aggregator, sets
    [needs_repainting_on_restore_], and touches nothing else: no effect is
    added, so nothing is sent. *)
Theorem DoDeferredUpdate_guards :
  (forall env w,
     HasPendingUpdate (paint_aggregator_ w) = false \/
     update_reply_pending_ w = true ->
     DoDeferredUpdate env w = Ok w) /\
  (forall env w,
     webwidget_ w = true ->
     HasPendingUpdate (paint_aggregator_ w) = true ->
     update_reply_pending_ w = false ->
     is_hidden_ w = true \/ Size_IsEmpty (size_ w) = true ->
     exists w',
       DoDeferredUpdate env w = Ok w' /\
       w' = set_needs_repainting_on_restore_ true
              (set_paint_aggregator_
                 (ClearPendingUpdate (paint_aggregator_ w)) w) /\
       paint_aggregator_ w' = ClearPendingUpdate (paint_aggregator_ w) /\
       needs_repainting_on_restore_ w' = true /\
       update_reply_pending_ w' = false /\
       effects w' = effects w).
Proof.
  split.
  - intros env w H. apply DoDeferredUpdate_skip.
    destruct H as [-> | ->];
      [rewrite andb_false_r | rewrite andb_false_r]; reflexivity.
  - intros env w Hw Hp Hr Hh. eexists. split.
    + apply DoDeferredUpdate_suppressed; try assumption.
      destruct Hh as [-> | ->]; [reflexivity | apply orb_true_r].
    + repeat split. simpl. exact Hr.
Qed.

(** ** When no canvas is acquired *)

Lemma flushable_not_pending w :
  flushable w = true -> update_reply_pending_ w = false.
Proof.
  unfold flushable. destruct (update_reply_pending_ w); [|reflexivity].
  rewrite !andb_false_r. discriminate.
Qed.

(** C4, as the code has it.  In a state in which DoDeferredUpdate goes on
    to paint, when GetDrawingCanvas hands back no canvas: a build without
    debug assertions returns without sending a frame update and with
    [update_reply_pending_] still clear, but the pending update was taken
    out of the aggregator before the canvas was asked for and is not put
    back: the aggregator is left cleared.  A build with debug assertions
    stops at NOTREACHED. *)
Theorem DoDeferredUpdate_no_canvas env w (memory : option TransportDIB) :
  flushable w = true ->
  drawing_canvas env = no_canvas memory ->
  (DCHECK_IS_ON = true -> DoDeferredUpdate env w = Fatal) /\
  (DCHECK_IS_ON = false ->
   exists w',
     DoDeferredUpdate env w = Ok w' /\
     update_reply_pending_ w' = false /\
     sent_updates (effects w') = sent_updates (effects w) /\
     paint_aggregator_ w' =
       ClearPendingUpdate (paint_aggregator_ (after_layout env w))).
Proof.
  intros Hf Hc.
  rewrite (DoDeferredUpdate_flushable env w Hf), Hc.
  unfold NOTREACHED, DCHECK. split; intros ->; simpl; [reflexivity|].
  eexists. split; [reflexivity|].
  destruct (quiet_at_canvas env w) as [_ _ q3 _ _ (d & Hd & Hs & _)].
  simpl. repeat split.
  - rewrite <- (flushable_not_pending w Hf). exact q3.
  - change (sent_updates (effects (at_canvas env w)) =
            sent_updates (effects w)).
    rewrite Hd, sent_updates_app, Hs, app_nil_r. reflexivity.
Qed.


(** ** What the notifications of WebKit leave alone *)

Lemma paints_app (a b : list Effect) : paints (a ++ b) = paints a ++ paints b.
Proof.
  induction a as [|e a IH]; simpl; [reflexivity|].
  destruct e; simpl; rewrite ?IH; reflexivity.
Qed.

Lemma kept_refl w : kept w w.
Proof. repeat split. Qed.

Lemma kept_trans w1 w2 w3 : kept w1 w2 -> kept w2 w3 -> kept w1 w3.
Proof.
  unfold kept. intros (a1 & a2 & a3 & a4 & a5 & a6 & a7 & a8)
    (b1 & b2 & b3 & b4 & b5 & b6 & b7 & b8).
  repeat split; congruence.
Qed.

Ltac split_ifs :=
  repeat match goal with
         | |- context [if ?c then _ else _] => destruct c
         end.

Lemma kept_Send_ (m : Message) w : kept w (Send_ m w).
Proof.
  unfold kept, Send_, Send. destruct (closing_ w); simpl;
    rewrite paints_app, app_nil_r; repeat split.
Qed.

Lemma kept_delegate (c : DelegateCall) w : kept w (delegate c w).
Proof.
  destruct c; simpl;
    try (unfold didBlur; apply kept_Send_);
    unfold kept, didInvalidateRect, didScrollRect, closeWidgetSoon,
      SchedulePluginMove, update_reply_pending; cbv zeta;
    split_ifs; simpl; rewrite ?paints_app, ?app_nil_r; repeat split.
Qed.

Lemma kept_delegate_all (calls : list DelegateCall) w :
  kept w (delegate_all calls w).
Proof.
  revert w. induction calls as [|c calls IH]; intros w; simpl.
  - apply kept_refl.
  - eapply kept_trans; [apply kept_delegate | apply IH].
Qed.








(** ** A flush that goes through *)






(** ** The acknowledgement of a frame update *)




Lemma CallDoDeferredUpdate_after env w w1 :
  DoDeferredUpdate env w = Ok w1 ->
  CallDoDeferredUpdate env w = Ok (release_input_ack w1).
Proof.
  intros H. unfold CallDoDeferredUpdate, release_input_ack. rewrite H.
  simpl. destruct (pending_input_event_ack_ w1); reflexivity.
Qed.




(** ** Acknowledgements of input events *)

Lemma effects_Send_exact (m : Message) w :
  effects (Send_ m w) = effects w ++ [Send_effect m w].
Proof.
  unfold Send_, Send, Send_effect, stamped.
  destruct (closing_ w); reflexivity.
Qed.

Lemma OnHandleInputEvent_stages (message : InputEventMessage)
  (env : InputEventAnswers) w (type : WebInputEventType) :
  input_event message = Some type ->
  let hw := handled type message env w in
  OnHandleInputEvent message env w =
  set_handling_input_event_ false
    (if rate_limited type hw then
       set_pending_input_event_ack_ (Some (input_response type hw))
         match pending_input_event_ack_ (snd hw) with
         | Some ack => Send_ ack (set_pending_input_event_ack_ None (snd hw))
         | None => snd hw
         end
     else Send_ (input_response type hw) (snd hw)).
Proof.
  intros Hm. unfold OnHandleInputEvent, handled, rate_limited, input_response.
  rewrite Hm. cbv zeta.
  destruct (_ || _); [destruct (webwidget_ _)|]; reflexivity.
Qed.

Lemma quiet_handled (type : WebInputEventType) (message : InputEventMessage)
  (env : InputEventAnswers) w :
  quiet w (snd (handled type message env w)).
Proof.
  unfold handled. cbv zeta.
  destruct (_ || _); [destruct (webwidget_ _)|]; simpl; quiet_calls.
Qed.

(** C5 (input acknowledgements are coalesced).  For a MouseMove or
    MouseWheel event, when the aggregator has a pending update as the
    acknowledgement is built, the acknowledgement is not sent: it is stored
    in [pending_input_event_ack_], after the acknowledgement the slot held
    before, if any, was handed to Send.  For every other event, or with
    nothing pending, the acknowledgement is handed to Send at once and the
    slot is left as it was.  CallDoDeferredUpdate, once its
    DoDeferredUpdate returns, hands the stored acknowledgement to Send and
    leaves the slot empty.  Send forwards the message to the render thread
    unless the widget is closing. *)
Theorem input_ack_coalescing :
  (forall message env w type,
     input_event message = Some type ->
     let hw := handled type message env w in
     let w' := OnHandleInputEvent message env w in
     pending_input_event_ack_ (snd hw) = pending_input_event_ack_ w /\
     closing_ (snd hw) = closing_ w /\
     (rate_limited type hw = true <->
      (type = MouseMove \/ type = MouseWheel) /\
      HasPendingUpdate (paint_aggregator_ (snd hw)) = true) /\
     (rate_limited type hw = true ->
      pending_input_event_ack_ w' = Some (input_response type hw) /\
      effects w' =
        effects (snd hw) ++
        match pending_input_event_ack_ w with
        | Some ack => [Send_effect ack (snd hw)]
        | None => []
        end) /\
     (rate_limited type hw = false ->
      pending_input_event_ack_ w' = pending_input_event_ack_ w /\
      effects w' =
        effects (snd hw) ++ [Send_effect (input_response type hw) (snd hw)])) /\
  (forall env w w',
     CallDoDeferredUpdate env w = Ok w' ->
     pending_input_event_ack_ w' = None /\
     exists w1,
       DoDeferredUpdate env w = Ok w1 /\
       closing_ w1 = closing_ w /\
       effects w' =
         effects w1 ++
         match pending_input_event_ack_ w with
         | Some ack => [Send_effect ack w1]
         | None => []
         end) /\
  (forall env w w1,
     DoDeferredUpdate env w = Ok w1 ->
     exists w', CallDoDeferredUpdate env w = Ok w') /\
  (forall m w,
     closing_ w = false ->
     Send_effect m w = render_thread_Send (stamped m w)).
Proof.
  split.
  { intros message env w type Hm hw w'. subst w'.
    rewrite (OnHandleInputEvent_stages message env w type Hm).
    fold hw.
    destruct (quiet_handled type message env w) as [_ q2 _ _ q5 _].
    fold hw in q2, q5.
    split; [exact q5|]. split; [exact q2|].
    split.
    { unfold rate_limited. rewrite andb_true_iff, orb_true_iff.
      destruct type; simpl; intuition congruence. }
    split.
    - intros ->. simpl. split; [reflexivity|].
      rewrite <- q5.
      destruct (pending_input_event_ack_ (snd hw)).
      + rewrite effects_Send_exact. reflexivity.
      + rewrite app_nil_r. reflexivity.
    - intros ->. simpl. rewrite slot_Send_, effects_Send_exact. auto. }
  split.
  { intros env w w' H. unfold CallDoDeferredUpdate in H.
    apply bind_Ok in H. destruct H as (w1 & H1 & H).
    destruct (DoDeferredUpdate_summary env w w1 H1) as (_ & s2 & s3 & _).
    rewrite <- s3.
    destruct (pending_input_event_ack_ w1) as [ack|] eqn:E;
      injection H as <-.
    - split; [apply slot_Send_|].
      exists w1. repeat split; try assumption.
      rewrite effects_Send_exact. reflexivity.
    - split; [exact E|].
      exists w1. rewrite app_nil_r. auto. }
  split.
  { intros env w w1 H. unfold CallDoDeferredUpdate. rewrite H. simpl.
    destruct (pending_input_event_ack_ w1); eauto. }
  intros m w Hcl. unfold Send_effect. rewrite Hcl. reflexivity.
Qed.


(** ** Resizing *)

Lemma resizing_fields (new_size : Size) (resizer_rect : Rect) w :
  let w0 := resizing new_size resizer_rect w in
  paint_aggregator_ w0 = ClearPendingUpdate (paint_aggregator_ w) /\
  size_ w0 = new_size /\
  resizer_rect_ w0 = resizer_rect /\
  is_hidden_ w0 = false /\
  next_paint_flags_ w0 = next_paint_flags_ w /\
  effects w0 =
    effects w ++
    (if is_hidden_ w then [render_thread_WidgetRestored] else []) ++
    [webwidget_resize new_size].
Proof.
  unfold resizing, SetHidden. cbv zeta. simpl.
  destruct (is_hidden_ w) eqn:E; simpl; rewrite <- ?app_assoc;
    repeat split; assumption.
Qed.

Lemma OnResize_stages (new_size : Size) (resizer_rect : Rect)
  (calls : list DelegateCall) w w' :
  webwidget_ w = true ->
  OnResize new_size resizer_rect calls w = Ok w' ->
  let w1 := delegate_all calls (resizing new_size resizer_rect w) in
  w' = (if Size_IsEmpty new_size then w1
        else set_next_paint_is_resize_ack w1) /\
  (DCHECK_IS_ON = true ->
   next_paint_is_resize_ack w = false /\
   Size_eqb (size_ w) new_size = false /\
   (Size_IsEmpty new_size = false ->
    HasPendingUpdate (paint_aggregator_ w1) = true)).
Proof.
  intros Hw H w1. unfold OnResize in H. rewrite Hw in H. cbv zeta in H.
  simpl negb in H. cbv iota in H.
  apply bind_Ok in H. destruct H as (u1 & H1 & H).
  apply bind_Ok in H. destruct H as (u2 & H2 & H).
  fold (resizing new_size resizer_rect w) in H. fold w1 in H.
  destruct (Size_IsEmpty new_size); simpl in H.
  - injection H as <-. split; [reflexivity|].
    intros Hon.
    apply (fun H => DCHECK_Ok _ _ H Hon) in H1, H2.
    apply negb_true_iff in H1, H2.
    unfold next_paint_is_resize_ack, SetHidden in *. simpl in *.
    destruct (Bool.eqb (is_hidden_ w) false); simpl in *;
      repeat split; (assumption || discriminate).
  - apply bind_Ok in H. destruct H as (u3 & H3 & H).
    injection H as <-. split; [reflexivity|].
    intros Hon.
    apply (fun H => DCHECK_Ok _ _ H Hon) in H1, H2, H3.
    apply negb_true_iff in H1, H2.
    unfold next_paint_is_resize_ack, SetHidden in *. simpl in *.
    destruct (Bool.eqb (is_hidden_ w) false); simpl in *;
      repeat split; (assumption || (intros _; assumption)).
Qed.

Lemma OnResize_release (new_size : Size) (resizer_rect : Rect)
  (calls : list DelegateCall) w :
  DCHECK_IS_ON = false ->
  exists w', OnResize new_size resizer_rect calls w = Ok w'.
Proof.
  intros Hoff. unfold OnResize. cbv zeta.
  destruct (negb (webwidget_ w)); [eauto|].
  rewrite !(DCHECK_off _ Hoff). simpl.
  destruct (negb (Size_IsEmpty new_size)); simpl; eauto.
Qed.

Lemma step_resize_ack_due (op : Op) w w' :
  ack_slot_ok w = true ->
  resize_ack_due w ->
  step op w = Ok w' ->
  exists d,
    effects w' = effects w ++ d /\
    first_update_acks_resize d /\
    (sent_updates d = [] -> resize_ack_due w').
Proof.
  intros Hslot Hdue H. unfold first_update_acks_resize, resize_ack_due in *.
  destruct (step_cases op w w' H)
    as [(_ & _ & [c1 c2 c3 c4 c5 (d & Hd & Hc & Hf & Hs)])
       |[(_ & _ & c1 & c2 & c3 & c4 & c5 & d & Hd & Hf & Hs & _)
        |(_ & c1 & c2 & c3 & d & Hd & Hc & Hf & Hcases)]];
    exists d; (split; [exact Hd|]).
  - rewrite (Hs Hslot). split; [exact I|]. intros _.
    rewrite c2. destruct Hdue; auto.
  - rewrite Hs. auto.
  - destruct (Hcases Hslot) as [(_ & p2 & p3)|(_ & _ & _ & p4)].
    + rewrite p3. split; [exact I|]. intros _.
      unfold next_paint_is_resize_ack in *. rewrite c2, p2. exact Hdue.
    + destruct (closing_ w) eqn:Hcl.
      * rewrite p4. split; [exact I|]. intros _. left. congruence.
      * destruct p4 as (p & -> & Hp).
        destruct Hdue as [Hdue | Hdue]; [discriminate Hdue|].
        unfold next_paint_is_resize_ack in Hdue. rewrite Hp.
        split; [exact Hdue | discriminate].
Qed.

Lemma run_resize_ack_due (ops : list Op) w w' :
  ack_slot_ok w = true ->
  resize_ack_due w ->
  run ops w = Ok w' ->
  exists d, effects w' = effects w ++ d /\ first_update_acks_resize d.
Proof.
  revert w. induction ops as [|op ops IH]; intros w Hslot Hdue H;
    simpl in H.
  - injection H as <-. exists []. rewrite app_nil_r. split; [reflexivity|].
    exact I.
  - apply bind_Ok in H. destruct H as (w1 & H1 & H).
    destruct (step_resize_ack_due op w w1 Hslot Hdue H1)
      as (d1 & Hd1 & Hfirst & Hnext).
    destruct (step_frame op w w1 H1) as (_ & _ & Hslot1 & _).
    unfold first_update_acks_resize in *.
    destruct (sent_updates d1) as [|p rest] eqn:E.
    + destruct (IH w1 (Hslot1 Hslot) (Hnext eq_refl) H)
        as (d2 & Hd2 & Hfirst2).
      exists (d1 ++ d2). split.
      * rewrite Hd2, Hd1, app_assoc. reflexivity.
      * rewrite sent_updates_app, E. exact Hfirst2.
    + destruct (run_frame ops w1 w' H) as (_ & _ & _ & d2 & Hd2 & _).
      exists (d1 ++ d2). split.
      * rewrite Hd2, Hd1, app_assoc. reflexivity.
      * rewrite sent_updates_app, E. exact Hfirst.
Qed.

(** C6 (the resize contract).  OnResize on a live widget stores the new
    size and resizer rectangle, clears the aggregator, and only then lets
    WebKit resize, so whatever is pending afterwards is what that resize
    invalidated (a debug build checks that something is, for a non-empty
    size).  It sets IS_RESIZE_ACK in [next_paint_flags_] when the new size
    is not empty and leaves the flags alone when it is empty; so, no
    acknowledgement being due before (which a debug build checks), one is
    due after exactly when the new size is not empty.  After a resize to a
    non-empty size the next frame update that is forwarded, whatever runs
    in between, carries IS_RESIZE_ACK. *)
Theorem OnResize_contract :
  (forall new_size resizer_rect calls w w',
     webwidget_ w = true ->
     OnResize new_size resizer_rect calls w = Ok w' ->
     let w0 := resizing new_size resizer_rect w in
     paint_aggregator_ w0 = ClearPendingUpdate (paint_aggregator_ w) /\
     effects w0 =
       effects w ++
       (if is_hidden_ w then [render_thread_WidgetRestored] else []) ++
       [webwidget_resize new_size] /\
     paint_aggregator_ w' = paint_aggregator_ (delegate_all calls w0) /\
     size_ w' = new_size /\
     resizer_rect_ w' = resizer_rect /\
     next_paint_flags_ w' =
       (if Size_IsEmpty new_size then next_paint_flags_ w
        else Z.lor (next_paint_flags_ w)
               ViewHostMsg_UpdateRect_Flags.IS_RESIZE_ACK) /\
     (next_paint_is_resize_ack w = false ->
      next_paint_is_resize_ack w' = negb (Size_IsEmpty new_size)) /\
     (DCHECK_IS_ON = true ->
      next_paint_is_resize_ack w = false /\
      (Size_IsEmpty new_size = false ->
       HasPendingUpdate (paint_aggregator_ w') = true))) /\
  (forall new_size resizer_rect rect w w',
     webwidget_ w = true ->
     Rect_IsEmpty (Rect_Intersect (Rect_of_Size new_size) rect) = false ->
     OnResize new_size resizer_rect [call_didInvalidateRect rect] w = Ok w' ->
     paint_aggregator_ w' =
       InvalidateRect (Rect_Intersect (Rect_of_Size new_size) rect)
         (ClearPendingUpdate (paint_aggregator_ w))) /\
  (forall new_size resizer_rect calls w,
     DCHECK_IS_ON = false ->
     exists w', OnResize new_size resizer_rect calls w = Ok w') /\
  (forall new_size resizer_rect calls w w' ops w'',
     webwidget_ w = true ->
     ack_slot_ok w = true ->
     Size_IsEmpty new_size = false ->
     OnResize new_size resizer_rect calls w = Ok w' ->
     run ops w' = Ok w'' ->
     exists d,
       effects w'' = effects w' ++ d /\ first_update_acks_resize d).
Proof.
  split.
  { intros new_size resizer_rect calls w w' Hw H w0.
    destruct (OnResize_stages _ _ _ _ _ Hw H) as (Hw' & Hdebug).
    fold w0 in Hw', Hdebug.
    destruct (resizing_fields new_size resizer_rect w)
      as (r1 & r2 & r3 & r4 & r5 & r6).
    fold w0 in r1, r2, r3, r4, r5, r6.
    destruct (kept_delegate_all calls w0)
      as (k1 & _ & _ & _ & k5 & _).
    pose proof (quiet_flags _ _ (quiet_delegate_all calls w0)) as qf.
    split; [exact r1|]. split; [exact r6|].
    assert (Hflags : next_paint_flags_ w' =
      if Size_IsEmpty new_size then next_paint_flags_ w
      else Z.lor (next_paint_flags_ w)
             ViewHostMsg_UpdateRect_Flags.IS_RESIZE_ACK).
    { rewrite Hw'. destruct (Size_IsEmpty new_size); simpl; congruence. }
    split; [rewrite Hw'; destruct (Size_IsEmpty new_size); reflexivity|].
    split; [rewrite Hw'; destruct (Size_IsEmpty new_size); simpl;
            congruence|].
    split; [rewrite Hw'; destruct (Size_IsEmpty new_size); simpl;
            congruence|].
    split; [exact Hflags|].
    split.
    { unfold next_paint_is_resize_ack. rewrite Hflags.
      destruct (Size_IsEmpty new_size); simpl; [auto|].
      intros _. apply is_resize_ack_set. }
    intros Hon. destruct (Hdebug Hon) as (d1 & _ & d3).
    split; [exact d1|].
    intros He. rewrite Hw', He. simpl. exact (d3 He). }
  split.
  { intros new_size resizer_rect rect w w' Hw Hrect H.
    destruct (OnResize_stages _ _ _ _ _ Hw H) as (-> & _).
    destruct (resizing_fields new_size resizer_rect w)
      as (r1 & r2 & _).
    assert (E : paint_aggregator_
                  (didInvalidateRect rect (resizing new_size resizer_rect w))
                = InvalidateRect
                    (Rect_Intersect (Rect_of_Size new_size) rect)
                    (ClearPendingUpdate (paint_aggregator_ w))).
    { unfold didInvalidateRect. cbv zeta. rewrite r2, Hrect, r1.
      split_ifs; reflexivity. }
    simpl delegate_all.
    destruct (Size_IsEmpty new_size); simpl; exact E. }
  split; [intros; apply OnResize_release; assumption|].
  intros new_size resizer_rect calls w w' ops w'' Hw Hslot He H Hrun.
  destruct (OnResize_stages _ _ _ _ _ Hw H) as (Hw' & _).
  apply (run_resize_ack_due ops w' w''); [| |exact Hrun].
  - apply (calm_slot _ _ (calm_OnResize _ _ _ _ _ H)). exact Hslot.
  - right. rewrite Hw', He. unfold next_paint_is_resize_ack. simpl.
    apply is_resize_ack_set.
Qed.


(** ** Invalidations *)

Lemma didInvalidateRect_cases (rect : Rect) w :
  let damaged_rect := Rect_Intersect (Rect_of_Size (size_ w)) rect in
  let w' := didInvalidateRect rect w in
  (Rect_IsEmpty damaged_rect = true -> w' = w) /\
  (Rect_IsEmpty damaged_rect = false ->
   paint_aggregator_ w' = InvalidateRect damaged_rect (paint_aggregator_ w) /\
   update_reply_pending_ w' = update_reply_pending_ w /\
   effects w' =
     effects w ++
     (if negb (HasPendingUpdate (paint_aggregator_ w)) &&
         HasPendingUpdate (paint_aggregator_ w') &&
         negb (update_reply_pending_ w)
      then [PostTask Task_CallDoDeferredUpdate]
      else [])).
Proof.
  unfold didInvalidateRect, update_reply_pending. cbv zeta.
  split; intros ->; [reflexivity|].
  match goal with
  | |- context [HasPendingUpdate (paint_aggregator_
                  (set_paint_aggregator_ ?a w))] =>
      change (paint_aggregator_ (set_paint_aggregator_ a w)) with a;
      destruct (HasPendingUpdate (paint_aggregator_ w)) eqn:E1;
      destruct (HasPendingUpdate a) eqn:E2;
      destruct (update_reply_pending_ w) eqn:E3
  end;
  simpl; rewrite ?E1, ?E2, ?E3; simpl; rewrite ?E1, ?E2, ?E3; simpl;
  rewrite ?app_nil_r; auto.
Qed.

Lemma didScrollRect_cases (dx dy : Z) (clip_rect : Rect) w :
  let damaged_rect := Rect_Intersect (Rect_of_Size (size_ w)) clip_rect in
  let w' := didScrollRect dx dy clip_rect w in
  (Rect_IsEmpty damaged_rect = true -> w' = w) /\
  (Rect_IsEmpty damaged_rect = false ->
   paint_aggregator_ w' =
     ScrollRect dx dy damaged_rect (paint_aggregator_ w) /\
   update_reply_pending_ w' = update_reply_pending_ w /\
   effects w' =
     effects w ++
     (if negb (HasPendingUpdate (paint_aggregator_ w)) &&
         HasPendingUpdate (paint_aggregator_ w') &&
         negb (update_reply_pending_ w)
      then [PostTask Task_CallDoDeferredUpdate]
      else [])).
Proof.
  unfold didScrollRect, update_reply_pending. cbv zeta.
  split; intros ->; [reflexivity|].
  match goal with
  | |- context [HasPendingUpdate (paint_aggregator_
                  (set_paint_aggregator_ ?a w))] =>
      change (paint_aggregator_ (set_paint_aggregator_ a w)) with a;
      destruct (HasPendingUpdate (paint_aggregator_ w)) eqn:E1;
      destruct (HasPendingUpdate a) eqn:E2;
      destruct (update_reply_pending_ w) eqn:E3
  end;
  simpl; rewrite ?E1, ?E2, ?E3; simpl; rewrite ?E1, ?E2, ?E3; simpl;
  rewrite ?app_nil_r; auto.
Qed.

Section Coalescing.

Context {laws : PaintAggregatorLaws}.

(** One notification posts at most one deferred update, and none once an
    update is under way. *)
Lemma delegate_posts_once (c : DelegateCall) w :
  (count_effects is_PostTask_CallDoDeferredUpdate (effects (delegate c w)) +
   (if update_underway (delegate c w) then 0 else 1) <=
   count_effects is_PostTask_CallDoDeferredUpdate (effects w) +
   (if update_underway w then 0 else 1))%nat.
Proof.
  unfold update_underway.
  destruct c as [rect | dx dy clip | | |move]; simpl.
  - destruct (didInvalidateRect_cases rect w) as (He & Hn).
    destruct (Rect_IsEmpty _).
    + rewrite (He eq_refl). lia.
    + destruct (Hn eq_refl) as (Ha & Hp & Hd). rewrite Hd, Hp, Ha.
      rewrite count_effects_app.
      destruct (HasPendingUpdate (paint_aggregator_ w)) eqn:E; simpl.
      * rewrite (HasPendingUpdate_InvalidateRect _ _ E). simpl.
        unfold count_effects. simpl. lia.
      * destruct (HasPendingUpdate (InvalidateRect _ _)),
          (update_reply_pending_ w); unfold count_effects; simpl; lia.
  - destruct (didScrollRect_cases dx dy clip w) as (He & Hn).
    destruct (Rect_IsEmpty _).
    + rewrite (He eq_refl). lia.
    + destruct (Hn eq_refl) as (Ha & Hp & Hd). rewrite Hd, Hp, Ha.
      rewrite count_effects_app.
      destruct (HasPendingUpdate (paint_aggregator_ w)) eqn:E; simpl.
      * rewrite (HasPendingUpdate_ScrollRect _ _ _ _ E). simpl.
        unfold count_effects. simpl. lia.
      * destruct (HasPendingUpdate (ScrollRect _ _ _ _)),
          (update_reply_pending_ w); unfold count_effects; simpl; lia.
  - unfold didBlur, Send_, Send, count_effects.
    destruct (closing_ w); simpl; rewrite filter_app, length_app; simpl;
      lia.
  - unfold closeWidgetSoon, count_effects. simpl.
    rewrite filter_app, length_app. simpl. lia.
  - unfold SchedulePluginMove. simpl. lia.
Qed.

Lemma delegate_all_posts_once (calls : list DelegateCall) w :
  (count_effects is_PostTask_CallDoDeferredUpdate
     (effects (delegate_all calls w)) <=
   count_effects is_PostTask_CallDoDeferredUpdate (effects w) +
   (if update_underway w then 0 else 1))%nat.
Proof.
  assert (H : forall calls w,
    (count_effects is_PostTask_CallDoDeferredUpdate
       (effects (delegate_all calls w)) +
     (if update_underway (delegate_all calls w) then 0 else 1) <=
     count_effects is_PostTask_CallDoDeferredUpdate (effects w) +
     (if update_underway w then 0 else 1))%nat).
  { intros calls0. induction calls0 as [|c calls0 IH]; intros w0; simpl.
    - lia.
    - pose proof (IH (delegate c w0)).
      pose proof (delegate_posts_once c w0). lia. }
  specialize (H calls w). lia.
Qed.

(** C8 (invalidations are clipped and a flush is scheduled once).
    didInvalidateRect, and likewise didScrollRect, intersects the rectangle
    with the view rectangle of the current size.  When the intersection is
    empty the widget is returned as it is.  Otherwise the clipped rectangle
    goes to the aggregator, and one CallDoDeferredUpdate task is posted
    exactly when nothing was pending before the call, something is pending
    after it and no reply is pending; nothing else happens in the call, so
    nothing is painted or sent in it.  With an aggregator that keeps what
    is pending, any sequence of notifications posts at most one task, and
    none when an update was already pending or in flight. *)
Theorem invalidation_clips_and_schedules_once :
  (forall rect w,
     let damaged_rect := Rect_Intersect (Rect_of_Size (size_ w)) rect in
     let w' := didInvalidateRect rect w in
     (Rect_IsEmpty damaged_rect = true -> w' = w) /\
     (Rect_IsEmpty damaged_rect = false ->
      paint_aggregator_ w' =
        InvalidateRect damaged_rect (paint_aggregator_ w) /\
      update_reply_pending_ w' = update_reply_pending_ w /\
      effects w' =
        effects w ++
        (if negb (HasPendingUpdate (paint_aggregator_ w)) &&
            HasPendingUpdate (paint_aggregator_ w') &&
            negb (update_reply_pending_ w)
         then [PostTask Task_CallDoDeferredUpdate]
         else []))) /\
  (forall dx dy clip_rect w,
     let damaged_rect := Rect_Intersect (Rect_of_Size (size_ w)) clip_rect in
     let w' := didScrollRect dx dy clip_rect w in
     (Rect_IsEmpty damaged_rect = true -> w' = w) /\
     (Rect_IsEmpty damaged_rect = false ->
      paint_aggregator_ w' =
        ScrollRect dx dy damaged_rect (paint_aggregator_ w) /\
      update_reply_pending_ w' = update_reply_pending_ w /\
      effects w' =
        effects w ++
        (if negb (HasPendingUpdate (paint_aggregator_ w)) &&
            HasPendingUpdate (paint_aggregator_ w') &&
            negb (update_reply_pending_ w)
         then [PostTask Task_CallDoDeferredUpdate]
         else []))) /\
  (forall calls w,
     (count_effects is_PostTask_CallDoDeferredUpdate
        (effects (delegate_all calls w)) <=
      count_effects is_PostTask_CallDoDeferredUpdate (effects w) +
      (if update_underway w then 0 else 1))%nat /\
     paints (effects (delegate_all calls w)) = paints (effects w) /\
     sent_updates (effects (delegate_all calls w)) =
       sent_updates (effects w)).
Proof.
  split; [exact didInvalidateRect_cases|].
  split; [exact didScrollRect_cases|].
  intros calls w. split; [apply delegate_all_posts_once|].
  split.
  - apply (kept_delegate_all calls w).
  - destruct (quiet_delegate_all calls w) as [_ _ _ _ _ (d & Hd & Hs & _)].
    rewrite Hd, sent_updates_app, Hs, app_nil_r. reflexivity.
Qed.

End Coalescing.

End Properties.

(** * The properties at work on the scenarios *)

Lemma ReferenceAggregator_laws :
  @PaintAggregatorLaws ReferenceAggregator.ops.
Proof.
  constructor.
  - reflexivity.
  - intros r [sc ps] _. destruct sc, ps; reflexivity.
  - intros dx dy r [sc ps] _. destruct ps; reflexivity.
Qed.

Module Concrete.

Import Scenario.

#[local] Existing Instance release_build.
#[local] Existing Instance ReferenceGfx.ops.
#[local] Existing Instance ReferenceAggregator.ops.

(** C1 on the scenario: between the flush and its acknowledgement, two
    notifications, two deferred updates, a mouse move, a repaint request
    and a hide and restore forward no second frame update. *)
Lemma single_flight_witness :
  ack_slot_ok in_flight = true /\
  update_reply_pending_ in_flight = true /\
  forallb (fun op => negb (is_ack op)) busy_ops = true /\
  exists w',
    run busy_ops in_flight = Ok w' /\
    update_reply_pending_ w' = true /\
    sent_updates (effects w') = sent_updates (effects in_flight).
Proof.
  split; [reflexivity|]. split; [reflexivity|]. split; [reflexivity|].
  eexists. split; [vm_compute; reflexivity|].
  apply (proj1 (proj2 (proj2
           (@single_flight release_build ReferenceGfx.ops
              ReferenceAggregator.ops))) busy_ops in_flight);
    [reflexivity | reflexivity | reflexivity | vm_compute; reflexivity].
Defined.


(** C3 on the scenario: a hidden widget with damage pending drops the
    damage, remembers to repaint and sends nothing. *)
Lemma DoDeferredUpdate_guards_witness :
  webwidget_ hidden_damaged = true /\
  HasPendingUpdate (paint_aggregator_ hidden_damaged) = true /\
  update_reply_pending_ hidden_damaged = false /\
  is_hidden_ hidden_damaged = true /\
  exists w',
    DoDeferredUpdate (quiet_answers 10 10) hidden_damaged = Ok w' /\
    HasPendingUpdate (paint_aggregator_ w') = false /\
    needs_repainting_on_restore_ w' = true /\
    effects w' = effects hidden_damaged.
Proof.
  repeat (split; [reflexivity|]).
  destruct (proj2 (@DoDeferredUpdate_guards release_build ReferenceGfx.ops
                     ReferenceAggregator.ops)
              (quiet_answers 10 10) hidden_damaged
              eq_refl eq_refl eq_refl (or_introl eq_refl))
    as (w' & Hrun & _ & Hagg & Hflag & _ & Heffects).
  exists w'. repeat split; try assumption.
  rewrite Hagg. reflexivity.
Defined.

(** C4 on the scenario, in a release and in a debug build. *)
Lemma DoDeferredUpdate_no_canvas_witness :
  flushable damaged = true /\
  drawing_canvas no_canvas_answers = no_canvas None /\
  (exists w',
     DoDeferredUpdate no_canvas_answers damaged = Ok w' /\
     update_reply_pending_ w' = false /\
     sent_updates (effects w') = [] /\
     HasPendingUpdate (paint_aggregator_ w') = false) /\
  @DoDeferredUpdate debug_build ReferenceGfx.ops ReferenceAggregator.ops
    no_canvas_answers damaged = Fatal.
Proof.
  split; [reflexivity|]. split; [reflexivity|]. split.
  - destruct (proj2 (@DoDeferredUpdate_no_canvas release_build
                       ReferenceGfx.ops ReferenceAggregator.ops
                       no_canvas_answers damaged None eq_refl eq_refl)
                eq_refl)
      as (w' & Hrun & Hpending & Hsent & Hagg).
    exists w'. repeat split; try assumption.
    rewrite Hagg. reflexivity.
  - exact (proj1 (@DoDeferredUpdate_no_canvas debug_build
                    ReferenceGfx.ops ReferenceAggregator.ops
                    no_canvas_answers damaged None eq_refl eq_refl)
             eq_refl).
Defined.


(** C5 on the scenario: with damage pending, the acknowledgement of a
    mouse move is stored and nothing is forwarded; the next
    CallDoDeferredUpdate forwards it after the frame update. *)
Lemma input_ack_coalescing_witness :
  input_event mouse_move = Some MouseMove /\
  rate_limited MouseMove
    (handled MouseMove mouse_move processed_quietly damaged) = true /\
  let w' := OnHandleInputEvent mouse_move processed_quietly damaged in
  pending_input_event_ack_ w' =
    Some (mkMessage 7 (ViewHostMsg_HandleInputEvent_ACK MouseMove true)) /\
  forwarded (effects w') = [] /\
  exists w'',
    CallDoDeferredUpdate (quiet_answers 10 10) w' = Ok w'' /\
    pending_input_event_ack_ w'' = None /\
    map body (forwarded (effects w'')) =
      [ViewHostMsg_UpdateRect
         (mkUpdateRect_Params 1 (mkRect 0 0 10 10) 0 0 Rect_default
            [mkRect 0 0 10 10] (mkSize 100 100) [] 0);
       ViewHostMsg_HandleInputEvent_ACK MouseMove true].
Proof.
  split; [reflexivity|]. split; [reflexivity|].
  destruct (proj1 (@input_ack_coalescing release_build ReferenceGfx.ops
                     ReferenceAggregator.ops)
              mouse_move processed_quietly damaged MouseMove eq_refl)
    as (_ & _ & _ & Hlimited & _).
  destruct (Hlimited eq_refl) as (Hslot & Heffects).
  cbv zeta. split; [exact Hslot|].
  split; [rewrite Heffects; vm_compute; reflexivity|].
  eexists. split; [vm_compute; reflexivity|].
  split; vm_compute; reflexivity.
Defined.

(** C6 on the scenario: after a resize to 800x600 the next frame update
    carries the resize acknowledgement. *)
Lemma OnResize_contract_witness :
  webwidget_ damaged = true /\
  ack_slot_ok damaged = true /\
  Size_IsEmpty (mkSize 800 600) = false /\
  exists w' w'',
    OnResize (mkSize 800 600) Rect_default resize_calls damaged = Ok w' /\
    run [op_CallDoDeferredUpdate (quiet_answers 800 600)] w' = Ok w'' /\
    paint_rects (GetPendingUpdate (paint_aggregator_ w')) =
      [mkRect 0 0 800 600] /\
    next_paint_is_resize_ack w' = true /\
    map flags (sent_updates (effects w'')) =
      [ViewHostMsg_UpdateRect_Flags.IS_RESIZE_ACK] /\
    exists d,
      effects w'' = effects w' ++ d /\ first_update_acks_resize d.
Proof.
  split; [reflexivity|]. split; [reflexivity|]. split; [reflexivity|].
  eexists. eexists.
  split; [vm_compute; reflexivity|].
  split; [vm_compute; reflexivity|].
  split; [reflexivity|]. split; [reflexivity|]. split; [reflexivity|].
  apply (proj2 (proj2 (proj2
           (@OnResize_contract release_build ReferenceGfx.ops
              ReferenceAggregator.ops)))
           (mkSize 800 600) Rect_default resize_calls damaged _
           [op_CallDoDeferredUpdate (quiet_answers 800 600)] _);
    [reflexivity | reflexivity | reflexivity | vm_compute; reflexivity
    | vm_compute; reflexivity].
Defined.

(** C7 on the scenario: two OnClose remove the route, post the teardown
    and release the reference once each. *)
Lemma OnClose_idempotent_witness :
  closing_ idle_widget = false /\
  existsb is_close closing_ops = true /\
  exists w',
    run closing_ops idle_widget = Ok w' /\
    closing_ w' = true /\
    exists d,
      effects w' = effects idle_widget ++ d /\
      count_effects is_RemoveRoute d = 1%nat /\
      count_effects is_PostNonNestable_Close d = 1%nat /\
      count_effects is_Release d = 1%nat.
Proof.
  split; [reflexivity|]. split; [reflexivity|].
  eexists. split; [vm_compute; reflexivity|].
  apply (proj1 (proj2 (proj2
           (@OnClose_idempotent release_build ReferenceGfx.ops
              ReferenceAggregator.ops))) closing_ops idle_widget);
    [reflexivity | reflexivity | vm_compute; reflexivity].
Defined.

(** C8 on the scenario: three notifications in a row post one task. *)
Lemma invalidation_clips_and_schedules_once_witness :
  update_underway idle_widget = false /\
  count_effects is_PostTask_CallDoDeferredUpdate
    (effects (delegate_all three_notifications idle_widget)) = 1%nat /\
  (count_effects is_PostTask_CallDoDeferredUpdate
     (effects (delegate_all three_notifications idle_widget)) <=
   count_effects is_PostTask_CallDoDeferredUpdate (effects idle_widget) + 1)%nat /\
  paints (effects (delegate_all three_notifications idle_widget)) = [] /\
  sent_updates (effects (delegate_all three_notifications idle_widget)) = [].
Proof.
  split; [reflexivity|]. split; [reflexivity|].
  exact (proj2 (proj2
           (@invalidation_clips_and_schedules_once release_build
              ReferenceGfx.ops ReferenceAggregator.ops
              ReferenceAggregator_laws))
           three_notifications idle_widget).
Defined.


(** C10 on the scenario: once closed, the busy run forwards nothing. *)
Lemma Send_drops_everything_once_closing_witness :
  closing_ (OnClose in_flight) = true /\
  exists w',
    run busy_ops (OnClose in_flight) = Ok w' /\
    closing_ w' = true /\
    forwarded (effects w') = forwarded (effects (OnClose in_flight)).
Proof.
  split; [reflexivity|].
  eexists. split; [vm_compute; reflexivity|].
  apply (proj1 (proj2 (proj2
           (@Send_drops_everything_once_closing release_build
              ReferenceGfx.ops ReferenceAggregator.ops)))
           busy_ops (OnClose in_flight));
    [reflexivity | vm_compute; reflexivity].
Defined.

(** ** Where the code departs *)

(** C4 at a concrete input.  A visible 100x100 widget has the rectangle
    (0,0,10,10) pending and no canvas can be had.  In a release build
    DoDeferredUpdate returns with the aggregator empty: the pending update
    is gone, and a deferred update run right after, with a canvas at hand,
    sends nothing.  In a debug build the same call stops the process. *)
Lemma pending_update_lost_without_canvas :
  flushable damaged = true /\
  paint_rects (GetPendingUpdate (paint_aggregator_ damaged)) =
    [mkRect 0 0 10 10] /\
  (exists w' w'',
     DoDeferredUpdate no_canvas_answers damaged = Ok w' /\
     HasPendingUpdate (paint_aggregator_ w') = false /\
     paint_rects (GetPendingUpdate (paint_aggregator_ w')) = [] /\
     GetPendingUpdate (paint_aggregator_ w') <>
       GetPendingUpdate (paint_aggregator_ damaged) /\
     CallDoDeferredUpdate (quiet_answers 10 10) w' = Ok w'' /\
     sent_updates (effects w'') = []) /\
  @DoDeferredUpdate debug_build ReferenceGfx.ops ReferenceAggregator.ops
    no_canvas_answers damaged = Fatal.
Proof.
  split; [reflexivity|]. split; [reflexivity|]. split; [|reflexivity].
  eexists. eexists.
  split; [vm_compute; reflexivity|].
  split; [reflexivity|]. split; [reflexivity|].
  split; [discriminate|].
  split; [vm_compute; reflexivity|]. reflexivity.
Qed.


End Concrete.

(** * Further properties *)

(** Splits a hypothesis [bind r k = Ok w] into its two halves. *)
Ltac bind_inv H :=
  let a := fresh "u" in
  let Hr := fresh "Hcheck" in
  apply bind_Ok in H; destruct H as (a & Hr & H).

Section Books.

Context {platform : Platform} {gfx : GfxOps} {aggregator : PaintAggregatorOps}.

Implicit Types (w : RenderWidget) (d : list Effect).

Lemma hidden_count_app (a b : list Effect) :
  hidden_count (a ++ b) = hidden_count a + hidden_count b.
Proof.
  induction a as [|e a IH]; simpl; [reflexivity|].
  destruct e; rewrite ?IH; lia.
Qed.

Lemma no_notice d :
  filter is_notice d = [] ->
  hidden_count d = 0 /\
  acks_handed d = 0%nat /\
  count_effects is_webwidget_close d = 0%nat.
Proof.
  unfold acks_handed, count_effects.
  induction d as [|e d IH]; simpl; [auto|].
  destruct e as [m|m| | | | | | | | | | | | |]; simpl;
    try discriminate; try exact IH;
    destruct (is_input_ack m); simpl; try discriminate; exact IH.
Qed.

Lemma inert_refl w : inert w w.
Proof.
  constructor; try reflexivity.
  exists []. rewrite app_nil_r. repeat split.
Qed.

Lemma inert_trans w1 w2 w3 : inert w1 w2 -> inert w2 w3 -> inert w1 w3.
Proof.
  intros [a1 a2 a3 a4 (d1 & E1 & N1 & D1)] [b1 b2 b3 b4 (d2 & E2 & N2 & D2)].
  constructor; try congruence.
  exists (d1 ++ d2). rewrite !filter_app, N1, N2. rewrite a3 in D2.
  repeat split.
  - rewrite E2, E1, app_assoc. reflexivity.
  - intros E. rewrite (D1 E), (D2 E). reflexivity.
Qed.

Lemma inert_set w w' :
  is_hidden_ w' = is_hidden_ w ->
  webwidget_ w' = webwidget_ w ->
  closing_ w' = closing_ w ->
  pending_input_event_ack_ w' = pending_input_event_ack_ w ->
  effects w' = effects w ->
  inert w w'.
Proof.
  intros. constructor; try assumption.
  exists []. rewrite app_nil_r. repeat split. assumption.
Qed.

Lemma inert_emit w (e : Effect) :
  is_notice e = false -> is_delete e = false -> inert w (emit e w).
Proof.
  intros Hn Hd. constructor; try reflexivity.
  exists [e]. simpl. rewrite Hn, Hd. repeat split.
Qed.

Lemma inert_Send_ w (m : Message) :
  is_input_ack m = false -> inert w (Send_ m w).
Proof.
  intros Hm. unfold Send_, Send.
  destruct (closing_ w) eqn:Hc; simpl.
  - constructor; try reflexivity; try assumption.
    exists [delete_message m]. simpl. rewrite Hm.
    repeat split. rewrite Hc. discriminate.
  - constructor; try reflexivity; try assumption.
    eexists. split; [reflexivity|]. simpl.
    assert (E : is_input_ack
                  (if routing_id m =? MSG_ROUTING_NONE
                   then set_routing_id (routing_id_ w) m else m) = false)
      by (destruct (routing_id m =? MSG_ROUTING_NONE); exact Hm).
    rewrite E. repeat split.
Qed.

Ltac inert_layer :=
  lazymatch goal with
  | |- inert ?w ?w => apply inert_refl
  | |- inert ?w (emit ?e ?w1) =>
      apply (inert_trans w w1 _); [| apply inert_emit; reflexivity]
  | |- inert ?w (Send_ ?m ?w1) =>
      apply (inert_trans w w1 _); [| apply inert_Send_; reflexivity]
  | |- inert ?w (if ?c then _ else _) => destruct c eqn:?
  | |- inert ?w (?f ?v ?w1) =>
      apply (inert_trans w w1 _); [| apply inert_set; reflexivity]
  end.

Ltac inert_layers := cbv zeta; repeat inert_layer.

Lemma inert_didInvalidateRect (rect : Rect) w :
  inert w (didInvalidateRect rect w).
Proof. unfold didInvalidateRect. inert_layers. Qed.

Lemma inert_didScrollRect (dx dy : Z) (clip_rect : Rect) w :
  inert w (didScrollRect dx dy clip_rect w).
Proof. unfold didScrollRect. inert_layers. Qed.

Lemma inert_delegate (c : DelegateCall) w : inert w (delegate c w).
Proof.
  destruct c; simpl.
  - apply inert_didInvalidateRect.
  - apply inert_didScrollRect.
  - unfold didBlur. inert_layers.
  - unfold closeWidgetSoon. inert_layers.
  - unfold SchedulePluginMove. inert_layers.
Qed.

Lemma inert_delegate_all (calls : list DelegateCall) w :
  inert w (delegate_all calls w).
Proof.
  revert w. induction calls as [|c calls IH]; intros w; simpl.
  - apply inert_refl.
  - eapply inert_trans; [apply inert_delegate | apply IH].
Qed.

Lemma inert_PaintRect (rect : Rect) (o : Point) (calls : list DelegateCall) w :
  inert w (PaintRect rect o calls w).
Proof.
  unfold PaintRect.
  eapply inert_trans; [| apply inert_delegate_all].
  inert_layers.
Qed.

Lemma inert_paint_copy_rects (rects : list Rect) (i : nat) (o : Point)
  (calls : nat -> list DelegateCall) w :
  inert w (paint_copy_rects i rects o calls w).
Proof.
  revert i w. induction rects as [|r rects IH]; intros i w; simpl.
  - apply inert_refl.
  - eapply inert_trans; [apply inert_PaintRect | apply IH].
Qed.

Lemma inert_UpdateInputMethod (t : WebTextInputType) (r : Rect) w :
  inert w (UpdateInputMethod t r w).
Proof. unfold UpdateInputMethod. inert_layers. Qed.

Ltac inert_call :=
  lazymatch goal with
  | |- inert ?w ?w => apply inert_refl
  | |- inert ?w (didInvalidateRect ?r ?w1) =>
      apply (inert_trans w w1 _); [| apply inert_didInvalidateRect]
  | |- inert ?w (delegate_all ?cs ?w1) =>
      apply (inert_trans w w1 _); [| apply inert_delegate_all]
  | |- inert ?w (paint_copy_rects ?i ?rs ?o ?cs ?w1) =>
      apply (inert_trans w w1 _); [| apply inert_paint_copy_rects]
  | |- inert ?w (UpdateInputMethod ?t ?r ?w1) =>
      apply (inert_trans w w1 _); [| apply inert_UpdateInputMethod]
  | |- _ => inert_layer
  end.

Ltac inert_calls := cbv zeta; repeat inert_call.

Lemma inert_flushed env w (memory : TransportDIB) (dw dh : Z) :
  inert w (flushed env w memory dw dh).
Proof.
  unfold flushed, painted, at_canvas, after_layout. inert_calls.
Qed.

Lemma inert_at_canvas env w : inert w (at_canvas env w).
Proof. unfold at_canvas, after_layout. inert_calls. Qed.

Lemma inert_DoDeferredUpdate env w w' :
  DoDeferredUpdate env w = Ok w' -> inert w w'.
Proof.
  intros H.
  destruct (flushable_cases w) as [Hf | [Hs | (Hw & Hp & Hr & Hh)]].
  - rewrite (DoDeferredUpdate_flushable env w Hf) in H.
    destruct (drawing_canvas env) as [memory | memory dw dh].
    + bind_inv H. injection H as <-.
      eapply inert_trans; [apply inert_at_canvas|].
      apply inert_set; reflexivity.
    + bind_inv H. bind_inv H. injection H as <-. apply inert_flushed.
  - rewrite (DoDeferredUpdate_skip env w Hs) in H. injection H as <-.
    apply inert_refl.
  - rewrite (DoDeferredUpdate_suppressed env w Hw Hp Hr Hh) in H.
    injection H as <-. apply inert_set; reflexivity.
Qed.


(** ** The books of a step *)

Lemma inert_ledger w w' : inert w w' -> ledger 0 w w'.
Proof.
  intros [i1 i2 i3 i4 (d & Hd & Hn & Hdel)].
  destruct (no_notice d Hn) as (n1 & n2 & n3).
  constructor; try congruence.
  - unfold ack_slot_ok. rewrite i4. auto.
  - exists d. unfold ack_stored, alive. rewrite i1, i2, i4, n1, n2, n3.
    split; [exact Hd|]. split; [lia|]. split; [lia|]. split; [lia|].
    intros E. apply Hdel. congruence.
Qed.

Lemma ledger_trans (n1 n2 : nat) w1 w2 w3 :
  ledger n1 w1 w2 -> ledger n2 w2 w3 -> ledger (n1 + n2) w1 w3.
Proof.
  intros [a1 a2 a3 (d1 & E1 & H1 & A1 & C1 & D1)]
         [b1 b2 b3 (d2 & E2 & H2 & A2 & C2 & D2)].
  constructor; auto.
  exists (d1 ++ d2).
  unfold acks_handed in *.
  rewrite hidden_count_app, !count_effects_app, filter_app.
  repeat split.
  - rewrite E2, E1, app_assoc. reflexivity.
  - lia.
  - intros Hs. specialize (A1 Hs). specialize (A2 (a2 Hs)). lia.
  - lia.
  - intros E.
    assert (E2' : closing_ w2 = false).
    { destruct (closing_ w2) eqn:Hc; [|reflexivity].
      rewrite (b1 eq_refl) in E. discriminate E. }
    rewrite (D1 E2'), (D2 E). reflexivity.
Qed.

Lemma ledger_after_inert (n : nat) w1 w2 w3 :
  inert w1 w2 -> ledger n w2 w3 -> ledger n w1 w3.
Proof.
  intros Hi Hl. apply (ledger_trans 0 n w1 w2 w3); [|exact Hl].
  apply inert_ledger, Hi.
Qed.

Lemma ledger_before_inert (n : nat) w1 w2 w3 :
  ledger n w1 w2 -> inert w2 w3 -> ledger n w1 w3.
Proof.
  intros Hl Hi. rewrite <- (Nat.add_0_r n).
  apply (ledger_trans n 0 w1 w2 w3); [exact Hl|].
  apply inert_ledger, Hi.
Qed.

Lemma ledger_SetHidden (hidden : bool) w : ledger 0 w (SetHidden hidden w).
Proof.
  unfold SetHidden.
  destruct (is_hidden_ w) eqn:E, hidden; simpl;
    try (apply inert_ledger, inert_refl);
    (constructor; simpl; auto;
     eexists; (split; [reflexivity|]); unfold ack_stored, alive; simpl;
     rewrite E; repeat split; lia).
Qed.

Lemma ledger_Close w : ledger 0 w (Close w).
Proof.
  unfold Close. destruct (webwidget_ w) eqn:E.
  - constructor; simpl; auto.
    eexists. split; [reflexivity|]. unfold ack_stored, alive. simpl.
    rewrite E. repeat split; lia.
  - apply inert_ledger, inert_refl.
Qed.

Lemma ledger_OnClose w : ledger 0 w (OnClose w).
Proof.
  unfold OnClose. cbv zeta.
  destruct (closing_ w) eqn:Hc; [apply inert_ledger, inert_refl|].
  match goal with
  | |- ledger 0 w (emit ?e1 (emit ?e2 ?w2)) =>
      apply (ledger_before_inert 0 w w2 _);
      [| apply (inert_trans _ (emit e2 w2) _); apply inert_emit; reflexivity]
  end.
  assert (H0 : ledger 0 w (set_closing_ true w)).
  { constructor; simpl; auto.
    exists []. rewrite app_nil_r. unfold ack_stored, alive. simpl.
    repeat split; lia. }
  destruct (negb _); [|exact H0].
  match goal with
  | |- ledger 0 w (SetHidden false ?w1) =>
      apply (ledger_trans 0 0 w w1 _); [|apply ledger_SetHidden]
  end.
  apply (ledger_before_inert 0 w _ _ H0).
  apply inert_emit; reflexivity.
Qed.

Lemma is_input_ack_effect_Send (m : Message) w :
  is_input_ack_effect (Send_effect m w) = is_input_ack m.
Proof.
  unfold Send_effect, stamped. destruct (closing_ w); [reflexivity|].
  simpl. destruct (routing_id m =? MSG_ROUTING_NONE); reflexivity.
Qed.

Lemma is_delete_Send (m : Message) w :
  closing_ w = false -> is_delete (Send_effect m w) = false.
Proof. unfold Send_effect. intros ->. reflexivity. Qed.

Lemma is_webwidget_close_Send (m : Message) w :
  is_webwidget_close (Send_effect m w) = false.
Proof. unfold Send_effect. destruct (closing_ w); reflexivity. Qed.

Lemma hidden_count_Send (m : Message) w :
  hidden_count [Send_effect m w] = 0.
Proof. unfold Send_effect. destruct (closing_ w); reflexivity. Qed.

(** Handing a message to Send, as the books see it. *)
Lemma Send_books (m : Message) w :
  is_hidden_ (Send_ m w) = is_hidden_ w /\
  webwidget_ (Send_ m w) = webwidget_ w /\
  exists d,
    effects (Send_ m w) = effects w ++ d /\
    hidden_count d = 0 /\
    acks_handed d = (if is_input_ack m then 1 else 0)%nat /\
    count_effects is_webwidget_close d = 0%nat /\
    (closing_ w = false -> filter is_delete d = []).
Proof.
  split; [unfold Send_, Send; destruct (closing_ w); reflexivity|].
  split; [unfold Send_, Send; destruct (closing_ w); reflexivity|].
  exists [Send_effect m w]. rewrite effects_Send_exact.
  unfold acks_handed, count_effects. simpl.
  rewrite is_input_ack_effect_Send, is_webwidget_close_Send.
  split; [reflexivity|]. split; [apply hidden_count_Send|].
  split; [destruct (is_input_ack m); reflexivity|].
  split; [reflexivity|].
  intros E. rewrite (is_delete_Send m w E). reflexivity.
Qed.

Lemma ledger_release_input_ack w : ledger 0 w (release_input_ack w).
Proof.
  unfold release_input_ack.
  destruct (pending_input_event_ack_ w) as [ack|] eqn:E;
    [|apply inert_ledger, inert_refl].
  destruct (Send_books ack (set_pending_input_event_ack_ None w))
    as (s1 & s2 & d & Hd & Hh & Ha & Hc & Hdel).
  constructor.
  - rewrite closing_Send_. auto.
  - intros _. unfold ack_slot_ok. rewrite slot_Send_. reflexivity.
  - rewrite s2. auto.
  - exists d. unfold ack_stored, alive.
    rewrite s1, s2, slot_Send_, closing_Send_, Hh, Ha, Hc. simpl.
    rewrite E. split; [exact Hd|]. split; [lia|]. split; [|split; [lia|exact Hdel]].
    unfold ack_slot_ok. rewrite E. intros ->. reflexivity.
Qed.

Lemma ledger_CallDoDeferredUpdate env w w' :
  CallDoDeferredUpdate env w = Ok w' -> ledger 0 w w'.
Proof.
  intros H. pose proof H as H'. unfold CallDoDeferredUpdate in H'.
  apply bind_Ok in H'. destruct H' as (w1 & H1 & _).
  rewrite (CallDoDeferredUpdate_after env w w1 H1) in H.
  injection H as <-.
  apply (ledger_after_inert 0 w w1 _ (inert_DoDeferredUpdate env w w1 H1)).
  apply ledger_release_input_ack.
Qed.

Lemma inert_after_ack w : inert w (after_ack w).
Proof.
  unfold after_ack. cbv zeta.
  destruct (current_paint_buf_ _); inert_layers.
Qed.

Lemma ledger_OnUpdateRectAck env w w' :
  OnUpdateRectAck env w = Ok w' -> ledger 0 w w'.
Proof.
  unfold OnUpdateRectAck. intros H. bind_inv H.
  change (CallDoDeferredUpdate env (after_ack w) = Ok w') in H.
  apply (ledger_after_inert 0 w _ _ (inert_after_ack w)).
  apply (ledger_CallDoDeferredUpdate env _ _ H).
Qed.


Lemma inert_handled (type : WebInputEventType) (message : InputEventMessage)
  (env : InputEventAnswers) w :
  inert w (snd (handled type message env w)).
Proof.
  unfold handled. cbv zeta.
  destruct (_ || _); [destruct (webwidget_ _)|]; simpl; inert_calls.
Qed.

(** Storing an acknowledgement in the empty slot: one more on the books,
    nothing handed on. *)
Lemma ledger_store (m : Message) w :
  is_input_ack m = true ->
  pending_input_event_ack_ w = None ->
  ledger 1 w (set_pending_input_event_ack_ (Some m) w).
Proof.
  intros Hm E. constructor; [simpl; auto| |simpl; auto|].
  - intros _. unfold ack_slot_ok. simpl. exact Hm.
  - exists []. rewrite app_nil_r. unfold ack_stored, alive. simpl.
    rewrite E. repeat split; lia.
Qed.

(** Handing an acknowledgement to Send: one more on the books, and it is
    in the log. *)
Lemma ledger_Send_ack (m : Message) w :
  is_input_ack m = true -> ledger 1 w (Send_ m w).
Proof.
  intros Hm.
  destruct (Send_books m w) as (s1 & s2 & d & Hd & Hh & Ha & Hc & Hdel).
  rewrite Hm in Ha.
  constructor.
  - rewrite closing_Send_. auto.
  - unfold ack_slot_ok. rewrite slot_Send_. auto.
  - rewrite s2. auto.
  - exists d. unfold ack_stored, alive.
    rewrite s1, s2, slot_Send_, closing_Send_, Hh, Ha, Hc.
    split; [exact Hd|]. split; [lia|]. split; [lia|]. split; [lia|exact Hdel].
Qed.

Lemma ledger_OnHandleInputEvent (message : InputEventMessage)
  (env : InputEventAnswers) w :
  ledger (if is_input_event (op_OnHandleInputEvent message env)
          then 1 else 0) w (OnHandleInputEvent message env w).
Proof.
  simpl. destruct (input_event message) as [type|] eqn:E.
  - rewrite (OnHandleInputEvent_stages message env w type E). cbv zeta.
    set (hw := handled type message env w).
    apply (ledger_after_inert 1 w (snd hw) _ (inert_handled type message env w)).
    match goal with
    | |- ledger 1 _ (set_handling_input_event_ false ?x) =>
        apply (ledger_before_inert 1 (snd hw) x _);
        [| apply inert_set; reflexivity]
    end.
    destruct (rate_limited type hw).
    + apply (ledger_trans 0 1 (snd hw) (release_input_ack (snd hw)) _).
      * apply ledger_release_input_ack.
      * unfold release_input_ack.
        destruct (pending_input_event_ack_ (snd hw)) as [ack|] eqn:Hs.
        -- apply ledger_store; [reflexivity|]. apply slot_Send_.
        -- apply ledger_store; [reflexivity|exact Hs].
    + apply ledger_Send_ack. reflexivity.
  - unfold OnHandleInputEvent. rewrite E.
    apply inert_ledger. inert_layers.
Qed.

Lemma ledger_resizing (new_size : Size) (resizer_rect : Rect) w :
  ledger 0 w (resizing new_size resizer_rect w).
Proof.
  unfold resizing. cbv zeta.
  match goal with
  | |- ledger 0 w (emit ?e (?f1 ?v1 (?f2 ?v2 (?f3 ?v3 (SetHidden false ?w1))))) =>
      apply (ledger_before_inert 0 w (SetHidden false w1) _);
      [ apply (ledger_after_inert 0 w w1 _);
        [apply inert_set; reflexivity | apply ledger_SetHidden]
      | inert_layers ]
  end.
Qed.

Lemma ledger_OnResize (new_size : Size) (resizer_rect : Rect)
  (calls : list DelegateCall) w w' :
  OnResize new_size resizer_rect calls w = Ok w' -> ledger 0 w w'.
Proof.
  intros H. destruct (webwidget_ w) eqn:Hw.
  - destruct (OnResize_stages new_size resizer_rect calls w w' Hw H)
      as (-> & _).
    apply (ledger_before_inert 0 w (resizing new_size resizer_rect w) _);
      [apply ledger_resizing|].
    destruct (Size_IsEmpty new_size).
    + apply inert_delegate_all.
    + eapply inert_trans; [apply inert_delegate_all|].
      apply inert_set; reflexivity.
  - unfold OnResize in H. rewrite Hw in H. simpl in H. injection H as <-.
    apply inert_ledger, inert_refl.
Qed.

Lemma ledger_OnWasRestored (needs_repainting : bool) w :
  ledger 0 w (OnWasRestored needs_repainting w).
Proof.
  unfold OnWasRestored. cbv zeta.
  destruct (negb (webwidget_ w)); [apply inert_ledger, inert_refl|].
  apply (ledger_before_inert 0 w (SetHidden false w) _);
    [apply ledger_SetHidden|].
  destruct (_ && _); [apply inert_refl|].
  eapply inert_trans; [|apply inert_didInvalidateRect].
  unfold set_next_paint_is_restore_ack. inert_layers.
Qed.

Lemma inert_OnMsgRepaint (size_to_paint : Size) w :
  inert w (OnMsgRepaint size_to_paint w).
Proof.
  unfold OnMsgRepaint. cbv zeta.
  destruct (negb (webwidget_ w)); [apply inert_refl|].
  eapply inert_trans; [|apply inert_didInvalidateRect].
  unfold set_next_paint_is_repaint_ack. inert_layers.
Qed.

Lemma inert_CleanupWindowInPluginMoves (window' : Z) w :
  inert w (CleanupWindowInPluginMoves window' w).
Proof. unfold CleanupWindowInPluginMoves. inert_layers. Qed.

Lemma inert_GenerateFullRepaint w : inert w (GenerateFullRepaint w).
Proof. unfold GenerateFullRepaint. apply inert_didInvalidateRect. Qed.

Lemma inert_DoDeferredClose w : inert w (DoDeferredClose w).
Proof. unfold DoDeferredClose. inert_layers. Qed.

(** Every step keeps the books: only a well-formed input event adds an
    acknowledgement to them. *)
Lemma step_ledger (op : Op) w w' :
  step op w = Ok w' ->
  ledger (if is_input_event op then 1 else 0) w w'.
Proof.
  destruct op; intros H;
    try (injection H as <-);
    try solve [ apply inert_ledger;
                first [ apply inert_OnMsgRepaint
                      | apply inert_delegate
                      | apply inert_DoDeferredClose
                      | apply inert_CleanupWindowInPluginMoves
                      | apply inert_GenerateFullRepaint
                      | apply inert_UpdateInputMethod
                      | apply inert_PaintRect
                      | apply inert_Send_; reflexivity
                      | apply inert_set; reflexivity ] ].
  - apply ledger_OnClose.
  - apply (ledger_OnResize _ _ _ _ _ H).
  - apply ledger_SetHidden.
  - apply ledger_OnWasRestored.
  - apply (ledger_OnUpdateRectAck _ _ _ H).
  - apply ledger_OnHandleInputEvent.
  - apply (ledger_CallDoDeferredUpdate _ _ _ H).
  - apply ledger_Close.
Qed.

Lemma run_ledger (ops : list Op) w w' :
  run ops w = Ok w' -> ledger (count_input_events ops) w w'.
Proof.
  revert w. induction ops as [|op ops IH]; intros w H; simpl in H.
  - injection H as <-. apply inert_ledger, inert_refl.
  - apply bind_Ok in H. destruct H as (w1 & H1 & H).
    unfold count_input_events. simpl filter.
    pose proof (step_ledger op w w1 H1) as L1.
    specialize (IH w1 H). unfold count_input_events in IH.
    destruct (is_input_event op); simpl length.
    + apply (ledger_trans 1 _ w w1 w' L1 IH).
    + apply (ledger_trans 0 _ w w1 w' L1 IH).
Qed.


(** X1 (the browser's view of visibility).  Over any run of the widget the
    notices WidgetHidden and WidgetRestored it gives the render thread
    balance with [is_hidden_]: the hidden notices minus the restored ones
    are 1 when the run hid the widget, -1 when it restored it, 0
    otherwise; so the render thread's count of hidden widgets never
    drifts, whichever of OnWasHidden, OnWasRestored, OnResize and OnClose
    did the change. *)
Theorem hidden_notices_balance (ops : list Op) w w' :
  run ops w = Ok w' ->
  exists d,
    effects w' = effects w ++ d /\
    hidden_count d = Z.b2z (is_hidden_ w') - Z.b2z (is_hidden_ w).
Proof.
  intros H.
  destruct (run_ledger ops w w' H) as [_ _ _ (d & Hd & Hh & _)].
  exists d. auto.
Qed.

(** X2 (every input event is acknowledged once).  Start with an
    acknowledgement slot that is empty or holds an input acknowledgement.
    Over any run, the input acknowledgements handed to Send plus the one
    still stored are those stored at the start plus one for each
    well-formed ViewMsg_HandleInputEvent of the run: none is lost and none
    is made up, however the events were rate-limited.  And as long as the
    widget is not closing at the end, Send dropped no message at all. *)
Theorem input_events_acknowledged_once (ops : list Op) w w' :
  ack_slot_ok w = true ->
  run ops w = Ok w' ->
  exists d,
    effects w' = effects w ++ d /\
    (acks_handed d + ack_stored w' =
     ack_stored w + count_input_events ops)%nat /\
    (closing_ w' = false -> filter is_delete d = []).
Proof.
  intros Hs H.
  destruct (run_ledger ops w w' H) as [_ _ _ (d & Hd & _ & Ha & _ & Hdel)].
  exists d. auto.
Qed.

(** X3 (the WebKit widget is closed once).  Over any run,
    [webwidget_->close()] is called exactly when [webwidget_] goes from
    set to null, so at most once, and a null [webwidget_] stays null:
    nothing reopens the widget and a second Close task does nothing. *)
Theorem webwidget_closed_once (ops : list Op) w w' :
  run ops w = Ok w' ->
  (webwidget_ w = false -> webwidget_ w' = false) /\
  exists d,
    effects w' = effects w ++ d /\
    (count_effects is_webwidget_close d + alive w' = alive w)%nat.
Proof.
  intros H.
  destruct (run_ledger ops w w' H) as [_ _ Hw (d & Hd & _ & _ & Hc & _)].
  split; [exact Hw|]. exists d. auto.
Qed.

End Books.

(** ** What a run keeps *)

Section Keeping.

Context {platform : Platform} {gfx : GfxOps} {aggregator : PaintAggregatorOps}.

Implicit Types (w : RenderWidget) (d : list Effect).

Section Generic.

Variable I : RenderWidget -> Prop.
Variable bad : Effect -> bool.

Lemma keeps_refl w : keeps I bad w w.
Proof.
  intros H. split; [exact H|]. exists []. rewrite app_nil_r. auto.
Qed.

Lemma keeps_trans w1 w2 w3 :
  keeps I bad w1 w2 -> keeps I bad w2 w3 -> keeps I bad w1 w3.
Proof.
  intros H12 H23 H1.
  destruct (H12 H1) as (H2 & d1 & E1 & B1).
  destruct (H23 H2) as (H3 & d2 & E2 & B2).
  split; [exact H3|]. exists (d1 ++ d2).
  rewrite filter_app, B1, B2, E2, E1, app_assoc. auto.
Qed.

Lemma keeps_set w w' :
  (I w -> I w') -> effects w' = effects w -> keeps I bad w w'.
Proof.
  intros HI He H. split; [auto|]. exists []. rewrite app_nil_r. auto.
Qed.

Lemma keeps_emit w (e : Effect) :
  (I w -> I (emit e w)) -> (I w -> bad e = false) ->
  keeps I bad w (emit e w).
Proof.
  intros HI Hb H. split; [auto|]. exists [e]. simpl. rewrite (Hb H). auto.
Qed.

Lemma keeps_Send_ w (m : Message) :
  (I w -> I (Send_ m w)) -> (I w -> bad (Send_effect m w) = false) ->
  keeps I bad w (Send_ m w).
Proof.
  intros HI Hb H. split; [auto|]. exists [Send_effect m w].
  rewrite effects_Send_exact. simpl. rewrite (Hb H). auto.
Qed.

Lemma keeps_absurd w w' : (I w -> False) -> keeps I bad w w'.
Proof. intros Hn H. destruct (Hn H). Qed.

Lemma keeps_delegate_all (calls : list DelegateCall) w :
  (forall c w, keeps I bad w (delegate c w)) ->
  keeps I bad w (delegate_all calls w).
Proof.
  intros Hc. revert w. induction calls as [|c calls IH]; intros w; simpl.
  - apply keeps_refl.
  - eapply keeps_trans; [apply Hc | apply IH].
Qed.

Lemma keeps_paint_copy_rects (rects : list Rect) (i : nat) (o : Point)
  (calls : nat -> list DelegateCall) w :
  (forall r o cs w, keeps I bad w (PaintRect r o cs w)) ->
  keeps I bad w (paint_copy_rects i rects o calls w).
Proof.
  intros Hp. revert i w. induction rects as [|r rects IH]; intros i w; simpl.
  - apply keeps_refl.
  - eapply keeps_trans; [apply Hp | apply IH].
Qed.

Lemma keeps_DoDeferredUpdate env w w' :
  (forall w,
      keeps I bad w
        (set_needs_repainting_on_restore_ true
           (set_paint_aggregator_
              (ClearPendingUpdate (paint_aggregator_ w)) w))) ->
  (forall memory w,
      flushable w = true ->
      keeps I bad w (set_current_paint_buf_ memory (at_canvas env w))) ->
  (forall memory dw dh w,
      flushable w = true -> keeps I bad w (flushed env w memory dw dh)) ->
  DoDeferredUpdate env w = Ok w' -> keeps I bad w w'.
Proof.
  intros Hdrop Hno Hflush H.
  destruct (flushable_cases w) as [Hf | [Hs | (Hw & Hp & Hr & Hh)]].
  - rewrite (DoDeferredUpdate_flushable env w Hf) in H.
    destruct (drawing_canvas env) as [memory | memory dw dh].
    + bind_inv H. injection H as <-. apply Hno, Hf.
    + bind_inv H. bind_inv H. injection H as <-. apply Hflush, Hf.
  - rewrite (DoDeferredUpdate_skip env w Hs) in H. injection H as <-.
    apply keeps_refl.
  - rewrite (DoDeferredUpdate_suppressed env w Hw Hp Hr Hh) in H.
    injection H as <-. apply Hdrop.
Qed.

Lemma keeps_CallDoDeferredUpdate env w w' :
  (forall w w', DoDeferredUpdate env w = Ok w' -> keeps I bad w w') ->
  (forall w, keeps I bad w (release_input_ack w)) ->
  CallDoDeferredUpdate env w = Ok w' -> keeps I bad w w'.
Proof.
  intros Hd Hr H. pose proof H as H'. unfold CallDoDeferredUpdate in H'.
  apply bind_Ok in H'. destruct H' as (w1 & H1 & _).
  rewrite (CallDoDeferredUpdate_after env w w1 H1) in H.
  injection H as <-.
  eapply keeps_trans; [apply (Hd _ _ H1) | apply Hr].
Qed.

Lemma keeps_OnUpdateRectAck env w w' :
  (forall w, keeps I bad w (after_ack w)) ->
  (forall w w', CallDoDeferredUpdate env w = Ok w' -> keeps I bad w w') ->
  OnUpdateRectAck env w = Ok w' -> keeps I bad w w'.
Proof.
  intros Ha Hc H. unfold OnUpdateRectAck in H. bind_inv H.
  change (CallDoDeferredUpdate env (after_ack w) = Ok w') in H.
  eapply keeps_trans; [apply Ha | apply (Hc _ _ H)].
Qed.

Lemma keeps_OnResize (new_size : Size) (resizer_rect : Rect)
  (calls : list DelegateCall) w w' :
  (webwidget_ w = true -> keeps I bad w (resizing new_size resizer_rect w)) ->
  (forall c w, keeps I bad w (delegate c w)) ->
  (forall w, keeps I bad w (set_next_paint_is_resize_ack w)) ->
  OnResize new_size resizer_rect calls w = Ok w' -> keeps I bad w w'.
Proof.
  intros Hr Hc Hf H. destruct (webwidget_ w) eqn:Hw.
  - destruct (OnResize_stages new_size resizer_rect calls w w' Hw H)
      as (-> & _).
    eapply keeps_trans; [apply Hr; reflexivity|].
    destruct (Size_IsEmpty new_size).
    + apply keeps_delegate_all, Hc.
    + eapply keeps_trans; [apply keeps_delegate_all, Hc | apply Hf].
  - unfold OnResize in H. rewrite Hw in H. simpl in H. injection H as <-.
    apply keeps_refl.
Qed.

Lemma keeps_OnHandleInputEvent (message : InputEventMessage)
  (env : InputEventAnswers) w :
  (forall type,
      input_event message = Some type ->
      keeps I bad w (snd (handled type message env w))) ->
  (forall w m, is_input_ack m = true -> keeps I bad w (Send_ m w)) ->
  (forall w, keeps I bad w (release_input_ack w)) ->
  (forall w m,
      is_input_ack m = true ->
      keeps I bad w (set_pending_input_event_ack_ (Some m) w)) ->
  (forall w b, keeps I bad w (set_handling_input_event_ b w)) ->
  keeps I bad w (OnHandleInputEvent message env w).
Proof.
  intros Hh Hs Hr Hst Hset.
  destruct (input_event message) as [type|] eqn:E.
  - rewrite (OnHandleInputEvent_stages message env w type E). cbv zeta.
    set (hw := handled type message env w).
    eapply keeps_trans; [apply (Hh type eq_refl)|]. fold hw.
    eapply keeps_trans; [|apply Hset].
    destruct (rate_limited type hw).
    + eapply keeps_trans; [apply (Hr (snd hw))|].
      apply Hst. reflexivity.
    + apply Hs. reflexivity.
  - unfold OnHandleInputEvent. rewrite E.
    eapply keeps_trans; apply Hset.
Qed.

Lemma keeps_run (allowed : Op -> bool) :
  (forall op w w',
      allowed op = true -> step op w = Ok w' -> keeps I bad w w') ->
  forall ops w w',
    forallb allowed ops = true -> run ops w = Ok w' -> keeps I bad w w'.
Proof.
  intros Hstep ops. induction ops as [|op ops IH]; intros w w' Ha H;
    simpl in *.
  - injection H as <-. apply keeps_refl.
  - apply andb_true_iff in Ha. destruct Ha as (Ha1 & Ha2).
    apply bind_Ok in H. destruct H as (w1 & H1 & H).
    eapply keeps_trans; [apply (Hstep op w w1 Ha1 H1) | apply (IH _ _ Ha2 H)].
Qed.

Lemma keeps_release_input_ack w :
  (forall w, I w -> ack_slot_ok w = true) ->
  (forall w m, I w -> I (Send_ m (set_pending_input_event_ack_ None w))) ->
  (forall w m,
      I w -> is_input_ack m = true ->
      bad (Send_effect m (set_pending_input_event_ack_ None w)) = false) ->
  keeps I bad w (release_input_ack w).
Proof.
  intros Hok HI Hb H. unfold release_input_ack.
  destruct (pending_input_event_ack_ w) as [ack|] eqn:E;
    [|apply keeps_refl; exact H].
  assert (Hack : is_input_ack ack = true).
  { pose proof (Hok w H) as Hs. unfold ack_slot_ok in Hs.
    rewrite E in Hs. exact Hs. }
  split; [apply HI, H|].
  exists [Send_effect ack (set_pending_input_event_ack_ None w)].
  rewrite effects_Send_exact. simpl. rewrite (Hb w ack H Hack). auto.
Qed.

End Generic.

(** Peels the outermost call off the widget in a goal [keeps I bad w _];
    [side] settles what a setter, an effect or a Send owes, [calls] what a
    loop of notifications does. *)
Ltac keeps_under w w1 open :=
  apply (keeps_trans _ _ w w1 _);
  [| generalize w1; intro; open; cbv zeta].

Ltac keeps_layer side calls :=
  lazymatch goal with
  | |- keeps _ _ ?w ?w => apply keeps_refl
  | |- keeps _ _ ?w (emit ?e ?w1) =>
      apply (keeps_trans _ _ w w1 _); [| apply keeps_emit; side]
  | |- keeps _ _ ?w (Send_ ?m ?w1) =>
      apply (keeps_trans _ _ w w1 _); [| apply keeps_Send_; side]
  | |- keeps _ _ ?w (if ?c then _ else _) => destruct c eqn:?
  | |- keeps _ _ ?w (delegate_all ?cs ?w1) =>
      apply (keeps_trans _ _ w w1 _); [| apply keeps_delegate_all; calls]
  | |- keeps _ _ ?w (paint_copy_rects ?i ?rs ?o ?cs ?w1) =>
      apply (keeps_trans _ _ w w1 _); [| apply keeps_paint_copy_rects; calls]
  | |- keeps _ _ ?w (release_input_ack ?w1) =>
      apply (keeps_trans _ _ w w1 _); [| calls]
  | |- keeps _ _ ?w (SetHidden ?h ?w1) =>
      keeps_under w w1 ltac:(unfold SetHidden)
  | |- keeps _ _ ?w (didInvalidateRect ?r ?w1) =>
      keeps_under w w1 ltac:(unfold didInvalidateRect)
  | |- keeps _ _ ?w (didScrollRect ?dx ?dy ?r ?w1) =>
      keeps_under w w1 ltac:(unfold didScrollRect)
  | |- keeps _ _ ?w (didBlur ?w1) =>
      keeps_under w w1 ltac:(unfold didBlur)
  | |- keeps _ _ ?w (closeWidgetSoon ?w1) =>
      keeps_under w w1 ltac:(unfold closeWidgetSoon)
  | |- keeps _ _ ?w (DoDeferredClose ?w1) =>
      keeps_under w w1 ltac:(unfold DoDeferredClose)
  | |- keeps _ _ ?w (SchedulePluginMove ?m ?w1) =>
      keeps_under w w1 ltac:(unfold SchedulePluginMove)
  | |- keeps _ _ ?w (CleanupWindowInPluginMoves ?h ?w1) =>
      keeps_under w w1 ltac:(unfold CleanupWindowInPluginMoves)
  | |- keeps _ _ ?w (GenerateFullRepaint ?w1) =>
      keeps_under w w1 ltac:(unfold GenerateFullRepaint)
  | |- keeps _ _ ?w (UpdateInputMethod ?t ?r ?w1) =>
      keeps_under w w1 ltac:(unfold UpdateInputMethod)
  | |- keeps _ _ ?w (PaintRect ?r ?o ?cs ?w1) =>
      keeps_under w w1 ltac:(unfold PaintRect)
  | |- keeps _ _ ?w (OnWasHidden ?w1) =>
      keeps_under w w1 ltac:(unfold OnWasHidden)
  | |- keeps _ _ ?w (OnWasRestored ?b ?w1) =>
      keeps_under w w1 ltac:(unfold OnWasRestored)
  | |- keeps _ _ ?w (OnMsgRepaint ?s ?w1) =>
      keeps_under w w1 ltac:(unfold OnMsgRepaint)
  | |- keeps _ _ ?w (OnSetInputMethodActive ?b ?w1) =>
      keeps_under w w1 ltac:(unfold OnSetInputMethodActive)
  | |- keeps _ _ ?w (Close ?w1) =>
      keeps_under w w1 ltac:(unfold Close)
  | |- keeps _ _ ?w (OnClose ?w1) =>
      keeps_under w w1 ltac:(unfold OnClose)
  | |- keeps _ _ ?w (after_ack ?w1) =>
      keeps_under w w1 ltac:(unfold after_ack)
  | |- keeps _ _ ?w (resizing ?s ?r ?w1) =>
      keeps_under w w1 ltac:(unfold resizing)
  | |- keeps _ _ ?w (after_layout ?env ?w1) =>
      keeps_under w w1 ltac:(unfold after_layout)
  | |- keeps _ _ ?w (at_canvas ?env ?w1) =>
      keeps_under w w1 ltac:(unfold at_canvas)
  | |- keeps _ _ ?w (match ?o with Some _ => _ | None => _ end) =>
      destruct o eqn:?
  | |- keeps _ _ ?w (?f ?w1) =>
      apply (keeps_trans _ _ w w1 _); [| apply keeps_set; [side | reflexivity]]
  end.

Ltac keeps_layers side calls := cbv zeta; repeat keeps_layer side calls.

(** *** Once the WebKit widget is gone *)

Lemma asleep_Send_ (m : Message) w : asleep w -> asleep (Send_ m w).
Proof.
  unfold asleep, ack_slot_ok. rewrite slot_Send_.
  unfold Send_, Send. destruct (closing_ w); exact (fun H => H).
Qed.

Lemma is_webkit_call_Send (m : Message) w :
  is_update m = false -> is_webkit_call (Send_effect m w) = false.
Proof.
  intros Hm. unfold Send_effect, stamped. destruct (closing_ w); [reflexivity|].
  simpl. destruct (routing_id m =? MSG_ROUTING_NONE); exact Hm.
Qed.

Ltac asleep_side :=
  first
    [ exact (fun H => H)
    | intros _; reflexivity
    | apply asleep_Send_
    | intros _; apply is_webkit_call_Send; reflexivity
    | let Hw := fresh in
      let Hs := fresh in
      intros [Hw Hs]; cbn in *; congruence ].

Lemma asleep_delegate (c : DelegateCall) w :
  keeps asleep is_webkit_call w (delegate c w).
Proof.
  destruct c; simpl; keeps_layers asleep_side fail.
Qed.

Lemma asleep_release_input_ack w :
  keeps asleep is_webkit_call w (release_input_ack w).
Proof.
  apply keeps_release_input_ack.
  - intros ? [_ H]. exact H.
  - intros ? ? [Hw _]. apply asleep_Send_. split; [exact Hw | reflexivity].
  - intros ? ? _ Hm. apply is_webkit_call_Send.
    apply is_input_ack_not_update, Hm.
Qed.

Ltac asleep_calls :=
  first [ exact asleep_delegate | apply asleep_release_input_ack ].

Lemma asleep_not_flushable w : flushable w = true -> asleep w -> False.
Proof.
  unfold flushable. intros Hf [Hw _]. rewrite Hw in Hf. discriminate Hf.
Qed.

Lemma asleep_DoDeferredUpdate env w w' :
  DoDeferredUpdate env w = Ok w' -> keeps asleep is_webkit_call w w'.
Proof.
  apply keeps_DoDeferredUpdate.
  - intros w0. keeps_layers asleep_side asleep_calls.
  - intros ? ? Hf. apply keeps_absurd, asleep_not_flushable, Hf.
  - intros ? ? ? ? Hf. apply keeps_absurd, asleep_not_flushable, Hf.
Qed.

Lemma asleep_CallDoDeferredUpdate env w w' :
  CallDoDeferredUpdate env w = Ok w' -> keeps asleep is_webkit_call w w'.
Proof.
  apply keeps_CallDoDeferredUpdate.
  - apply asleep_DoDeferredUpdate.
  - apply asleep_release_input_ack.
Qed.

Lemma asleep_handled (type : WebInputEventType) (message : InputEventMessage)
  (env : InputEventAnswers) w :
  keeps asleep is_webkit_call w (snd (handled type message env w)).
Proof.
  unfold handled. cbv zeta.
  destruct (_ || _); [destruct (webwidget_ _) eqn:?|]; simpl;
    keeps_layers asleep_side asleep_calls.
Qed.

Lemma asleep_step (op : Op) w w' :
  negb (is_PaintRect op) = true ->
  step op w = Ok w' -> keeps asleep is_webkit_call w w'.
Proof.
  destruct op; simpl; intros Hop H; try discriminate Hop;
    try (injection H as <-);
    try solve [keeps_layers asleep_side asleep_calls].
  - eapply keeps_OnResize; [| | | exact H].
    + intros Hw. apply keeps_absurd. intros [Hw' _]. congruence.
    + exact asleep_delegate.
    + intros w0. keeps_layers asleep_side asleep_calls.
  - eapply keeps_OnUpdateRectAck; [| | exact H].
    + intros w0. keeps_layers asleep_side asleep_calls.
    + apply asleep_CallDoDeferredUpdate.
  - apply keeps_OnHandleInputEvent.
    + intros type _. apply asleep_handled.
    + intros w0 m Hm. apply keeps_Send_; [apply asleep_Send_|].
      intros _. apply is_webkit_call_Send, is_input_ack_not_update, Hm.
    + apply asleep_release_input_ack.
    + intros w0 m Hm. apply keeps_set; [|reflexivity].
      intros [Hw _]. split; [exact Hw|exact Hm].
    + intros w0 b. apply keeps_set; [exact (fun H => H)|reflexivity].
  - apply asleep_delegate.
  - apply (asleep_CallDoDeferredUpdate _ _ _ H).
Qed.

(** X4 (a closed widget is left alone).  Once [webwidget_] is null (the
    Close task ran), no run of browser messages, notifications and tasks
    uses the WebKit widget again or produces a frame: no layout, paint,
    resize, handleInputEvent or close, no drawing canvas, no UpdateRect.
    Every handler that would touch WebKit checks [webwidget_] first.  The
    acknowledgement slot is taken to be well-formed, and PaintRect itself,
    which has no such check, is not called. *)
Theorem closed_widget_is_left_alone (ops : list Op) w w' :
  webwidget_ w = false ->
  ack_slot_ok w = true ->
  forallb (fun op => negb (is_PaintRect op)) ops = true ->
  run ops w = Ok w' ->
  webwidget_ w' = false /\
  exists d, effects w' = effects w ++ d /\ filter is_webkit_call d = [].
Proof.
  intros Hw Hs Hops H.
  destruct (keeps_run asleep is_webkit_call
              (fun op => negb (is_PaintRect op)) asleep_step
              ops w w' Hops H (conj Hw Hs)) as ((Hw' & _) & Hd).
  auto.
Qed.

(** *** While the widget is hidden *)













(** *** Routes *)

Lemma routed_Send_ (m : Message) w : routed w -> routed (Send_ m w).
Proof. unfold routed. rewrite routing_id_Send_. exact (fun H => H). Qed.

Lemma unrouted_Send (m : Message) w :
  routed w -> unrouted (Send_effect m w) = false.
Proof.
  unfold routed, Send_effect, stamped. intros Hr.
  destruct (closing_ w); [reflexivity|]. simpl.
  destruct (routing_id m =? MSG_ROUTING_NONE) eqn:E; [|exact E].
  simpl. apply Z.eqb_neq, Hr.
Qed.

Ltac routed_side :=
  first
    [ exact (fun H => H)
    | intros _; reflexivity
    | apply routed_Send_
    | apply unrouted_Send ].

Lemma routed_delegate (c : DelegateCall) w :
  keeps routed unrouted w (delegate c w).
Proof.
  destruct c; simpl; keeps_layers routed_side fail.
Qed.

Lemma routed_release_input_ack w :
  keeps routed unrouted w (release_input_ack w).
Proof.
  unfold release_input_ack. keeps_layers routed_side fail.
Qed.

Lemma routed_PaintRect (r : Rect) (o : Point) (cs : list DelegateCall) w :
  keeps routed unrouted w (PaintRect r o cs w).
Proof.
  unfold PaintRect.
  eapply keeps_trans; [|apply keeps_delegate_all; exact routed_delegate].
  keeps_layers routed_side fail.
Qed.

Ltac routed_calls :=
  first [ exact routed_delegate
        | exact routed_PaintRect
        | apply routed_release_input_ack ].

Lemma routed_DoDeferredUpdate env w w' :
  DoDeferredUpdate env w = Ok w' -> keeps routed unrouted w w'.
Proof.
  apply keeps_DoDeferredUpdate.
  - intros w0. keeps_layers routed_side routed_calls.
  - intros memory w0 _. keeps_layers routed_side routed_calls.
  - intros memory dw dh w0 _. unfold flushed, painted.
    keeps_layers routed_side routed_calls.
Qed.

Lemma routed_CallDoDeferredUpdate env w w' :
  CallDoDeferredUpdate env w = Ok w' -> keeps routed unrouted w w'.
Proof.
  apply keeps_CallDoDeferredUpdate.
  - apply routed_DoDeferredUpdate.
  - apply routed_release_input_ack.
Qed.

Lemma routed_handled (type : WebInputEventType)
  (message : InputEventMessage) (env : InputEventAnswers) w :
  keeps routed unrouted w (snd (handled type message env w)).
Proof.
  unfold handled. cbv zeta.
  destruct (_ || _); [destruct (webwidget_ _) eqn:?|]; simpl;
    keeps_layers routed_side routed_calls.
Qed.

Lemma routed_step (op : Op) w w' :
  step op w = Ok w' -> keeps routed unrouted w w'.
Proof.
  destruct op; simpl; intros H;
    try (injection H as <-);
    try solve [keeps_layers routed_side routed_calls].
  - eapply keeps_OnResize; [| | | exact H].
    + intros _. keeps_layers routed_side routed_calls.
    + exact routed_delegate.
    + intros w0. keeps_layers routed_side routed_calls.
  - eapply keeps_OnUpdateRectAck; [| | exact H].
    + intros w0. keeps_layers routed_side routed_calls.
    + apply routed_CallDoDeferredUpdate.
  - apply keeps_OnHandleInputEvent.
    + intros type _. apply routed_handled.
    + intros w0 m _. keeps_layers routed_side routed_calls.
    + apply routed_release_input_ack.
    + intros w0 m _. keeps_layers routed_side routed_calls.
    + intros w0 b. keeps_layers routed_side routed_calls.
  - apply routed_delegate.
  - apply (routed_CallDoDeferredUpdate _ _ _ H).
Qed.

Lemma forallb_any (ops : list Op) : forallb (fun _ => true) ops = true.
Proof. induction ops; simpl; auto. Qed.

Lemma forwarded_routed d :
  filter unrouted d = [] ->
  Forall (fun m => routing_id m <> MSG_ROUTING_NONE) (forwarded d).
Proof.
  induction d as [|e d IH]; simpl; [constructor|].
  destruct e as [m| | | | | | | | | | | | | |]; simpl; auto.
  destruct (routing_id m =? MSG_ROUTING_NONE) eqn:E; [discriminate|].
  intros H. constructor; [apply Z.eqb_neq, E | apply IH, H].
Qed.

(** X6 (nothing leaves without a route).  If the widget has a routing id,
    every message any run hands to the render thread carries a routing id
    other than MSG_ROUTING_NONE: Send stamps the widget's own on a message
    that has none, and every message of the class goes through Send. *)
Theorem every_message_is_routed (ops : list Op) w w' :
  routing_id_ w <> MSG_ROUTING_NONE ->
  run ops w = Ok w' ->
  exists d,
    effects w' = effects w ++ d /\
    Forall (fun m => routing_id m <> MSG_ROUTING_NONE) (forwarded d).
Proof.
  intros Hr H.
  destruct (keeps_run routed unrouted (fun _ => true)
              (fun op w w' _ => routed_step op w w')
              ops w w' (forallb_any ops) H Hr)
    as (_ & d & Hd & Hb).
  exists d. split; [exact Hd | apply forwarded_routed, Hb].
Qed.

(** *** Plugin window moves *)

Lemma windows_SchedulePluginMove_loop (move : WebPluginGeometry)
  (moves : list WebPluginGeometry) :
  windows (SchedulePluginMove_loop move moves) =
  if existsb (Z.eqb (window move)) (windows moves)
  then windows moves
  else windows moves ++ [window move].
Proof.
  induction moves as [|m moves IH]; simpl; [reflexivity|].
  rewrite (Z.eqb_sym (window move) (window m)).
  destruct (window m =? window move) eqn:E; simpl.
  - apply Z.eqb_eq in E. destruct (rects_valid move); simpl; congruence.
  - rewrite IH.
    destruct (existsb (Z.eqb (window move)) (windows moves)); reflexivity.
Qed.

Lemma existsb_app_single (x y : Z) (l : list Z) :
  existsb (Z.eqb x) (l ++ [y]) = existsb (Z.eqb x) l || (x =? y).
Proof. rewrite existsb_app. simpl. rewrite orb_false_r. reflexivity. Qed.

Lemma distinct_app_single (x : Z) (l : list Z) :
  distinct l = true -> existsb (Z.eqb x) l = false ->
  distinct (l ++ [x]) = true.
Proof.
  induction l as [|y l IH]; simpl; [reflexivity|].
  intros Hd Hx. apply andb_true_iff in Hd. destruct Hd as (Hy & Hd).
  apply orb_false_iff in Hx. destruct Hx as (Hxy & Hx).
  rewrite existsb_app_single, (Z.eqb_sym y x), Hxy, orb_false_r, Hy.
  simpl. apply IH; assumption.
Qed.

Lemma distinct_SchedulePluginMove_loop (move : WebPluginGeometry)
  (moves : list WebPluginGeometry) :
  distinct (windows moves) = true ->
  distinct (windows (SchedulePluginMove_loop move moves)) = true.
Proof.
  intros Hd. rewrite windows_SchedulePluginMove_loop.
  destruct (existsb (Z.eqb (window move)) (windows moves)) eqn:E;
    [exact Hd|].
  apply distinct_app_single; assumption.
Qed.

Lemma existsb_CleanupWindowInPluginMoves_loop (x window' : Z)
  (moves : list WebPluginGeometry) :
  existsb (Z.eqb x) (windows moves) = false ->
  existsb (Z.eqb x)
    (windows (CleanupWindowInPluginMoves_loop window' moves)) = false.
Proof.
  induction moves as [|m moves IH]; simpl; [auto|].
  intros H. apply orb_false_iff in H. destruct H as (H1 & H2).
  destruct (window m =? window'); simpl; [exact H2|].
  rewrite H1. simpl. apply IH, H2.
Qed.

Lemma distinct_CleanupWindowInPluginMoves_loop (window' : Z)
  (moves : list WebPluginGeometry) :
  distinct (windows moves) = true ->
  distinct (windows (CleanupWindowInPluginMoves_loop window' moves)) = true.
Proof.
  induction moves as [|m moves IH]; simpl; [auto|].
  intros H. apply andb_true_iff in H. destruct H as (H1 & H2).
  destruct (window m =? window'); simpl; [exact H2|].
  rewrite (IH H2), andb_true_r.
  apply negb_true_iff in H1. apply negb_true_iff.
  apply existsb_CleanupWindowInPluginMoves_loop, H1.
Qed.

Lemma find_move_none (window' : Z) (moves : list WebPluginGeometry) :
  existsb (Z.eqb window') (windows moves) = false <->
  find_move window' moves = None.
Proof.
  unfold find_move.
  induction moves as [|m moves IH]; simpl; [tauto|].
  rewrite (Z.eqb_sym window' (window m)).
  destruct (window m =? window'); simpl; [split; discriminate | exact IH].
Qed.

(** X7 (SchedulePluginMove is an update by window).  After
    SchedulePluginMove the move found for its window is: the new move
    when there was none or when the new one has valid rectangles,
    otherwise the old move with only its visibility replaced.  The move
    found for any other window is the one found before.  And a list
    without two moves for one window stays so. *)
Theorem SchedulePluginMove_updates_by_window (move : WebPluginGeometry) w :
  let before := plugin_window_moves_ w in
  let after := plugin_window_moves_ (SchedulePluginMove move w) in
  find_move (window move) after =
    Some
      match find_move (window move) before with
      | Some m =>
          if rects_valid move then move
          else mkWebPluginGeometry (window m) (rects_valid m) (visible move)
                                   (geometry m)
      | None => move
      end /\
  (forall window',
      window' <> window move ->
      find_move window' after = find_move window' before) /\
  (distinct (windows before) = true -> distinct (windows after) = true).
Proof.
  simpl. unfold find_move.
  split; [|split].
  - induction (plugin_window_moves_ w) as [|m moves IH]; simpl.
    + rewrite Z.eqb_refl. reflexivity.
    + destruct (window m =? window move) eqn:E; simpl.
      * destruct (rects_valid move); simpl.
        -- rewrite Z.eqb_refl. reflexivity.
        -- rewrite E. reflexivity.
      * rewrite E. exact IH.
  - intros window' Hne.
    induction (plugin_window_moves_ w) as [|m moves IH]; simpl.
    + apply Z.eqb_neq in Hne. rewrite Z.eqb_sym, Hne. reflexivity.
    + destruct (window m =? window move) eqn:E; simpl.
      * apply Z.eqb_eq in E.
        assert (Hm : (window m =? window') = false)
          by (apply Z.eqb_neq; congruence).
        rewrite Hm.
        destruct (rects_valid move); simpl.
        -- assert (Hmv : (window move =? window') = false)
             by (apply Z.eqb_neq; congruence).
           rewrite Hmv. reflexivity.
        -- rewrite Hm. reflexivity.
      * destruct (window m =? window'); [reflexivity | exact IH].
  - apply distinct_SchedulePluginMove_loop.
Qed.

(** X8 (CleanupWindowInPluginMoves forgets the window).  The loop erases
    the first move of the window and stops; on a list without two moves
    for one window that leaves none for it.  The move found for any other
    window is the one found before, and the list still has no window
    twice. *)
Theorem CleanupWindowInPluginMoves_forgets_window (window' : Z) w :
  distinct (windows (plugin_window_moves_ w)) = true ->
  let after := plugin_window_moves_ (CleanupWindowInPluginMoves window' w) in
  find_move window' after = None /\
  (forall other,
      other <> window' ->
      find_move other after = find_move other (plugin_window_moves_ w)) /\
  distinct (windows after) = true.
Proof.
  simpl. intros Hd. split; [|split].
  - apply find_move_none.
    induction (plugin_window_moves_ w) as [|m moves IH]; simpl; [reflexivity|].
    simpl in Hd. apply andb_true_iff in Hd. destruct Hd as (H1 & H2).
    destruct (window m =? window') eqn:E; simpl.
    + apply Z.eqb_eq in E. subst window'.
      apply negb_true_iff in H1. exact H1.
    + rewrite (Z.eqb_sym window' (window m)), E. simpl. apply IH, H2.
  - intros other Hne. unfold find_move. clear Hd.
    induction (plugin_window_moves_ w) as [|m moves IH]; simpl; [reflexivity|].
    destruct (window m =? window') eqn:E; simpl.
    + apply Z.eqb_eq in E.
      assert (Hm : (window m =? other) = false)
        by (apply Z.eqb_neq; congruence).
      rewrite Hm. reflexivity.
    + destruct (window m =? other); [reflexivity | exact IH].
  - apply distinct_CleanupWindowInPluginMoves_loop, Hd.
Qed.


Lemma tidy_Send_ (m : Message) w : tidy w -> tidy (Send_ m w).
Proof.
  unfold tidy, ack_slot_ok. rewrite slot_Send_.
  unfold Send_, Send. destruct (closing_ w); exact (fun H => H).
Qed.

Lemma crowded_Send (m : Message) w :
  is_update m = false -> crowded (Send_effect m w) = false.
Proof.
  intros Hm. unfold Send_effect, stamped. destruct (closing_ w); [reflexivity|].
  unfold is_update in Hm. simpl.
  destruct (routing_id m =? MSG_ROUTING_NONE); simpl;
    destruct (body m); try reflexivity; discriminate Hm.
Qed.

Ltac tidy_side :=
  first
    [ exact (fun H => H)
    | intros _; reflexivity
    | apply tidy_Send_
    | intros _; apply crowded_Send; reflexivity
    | let Hw := fresh in
      let Hs := fresh in
      intros [Hw Hs];
      split;
      [ first [ apply distinct_SchedulePluginMove_loop, Hw
              | apply distinct_CleanupWindowInPluginMoves_loop, Hw
              | reflexivity ]
      | exact Hs ] ].

Lemma tidy_delegate (c : DelegateCall) w :
  keeps tidy crowded w (delegate c w).
Proof.
  destruct c; simpl; keeps_layers tidy_side fail.
Qed.

Lemma tidy_release_input_ack w :
  keeps tidy crowded w (release_input_ack w).
Proof.
  apply keeps_release_input_ack.
  - intros ? [_ H]. exact H.
  - intros ? ? [Hw _]. apply tidy_Send_. split; [exact Hw | reflexivity].
  - intros ? ? _ Hm. apply crowded_Send.
    apply is_input_ack_not_update, Hm.
Qed.

Lemma tidy_PaintRect (r : Rect) (o : Point) (cs : list DelegateCall) w :
  keeps tidy crowded w (PaintRect r o cs w).
Proof.
  unfold PaintRect.
  eapply keeps_trans; [|apply keeps_delegate_all; exact tidy_delegate].
  keeps_layers tidy_side fail.
Qed.

Ltac tidy_calls :=
  first [ exact tidy_delegate
        | exact tidy_PaintRect
        | apply tidy_release_input_ack ].

(** The end of a flush: the moves go into the frame update and the list
    is emptied. *)
Lemma tidy_hand_over (params : ViewHostMsg_UpdateRect_Params) (routing : Z)
  (t : WebTextInputType) (r : Rect) w :
  plugin_window_moves params = plugin_window_moves_ w ->
  keeps tidy crowded w
    (UpdateInputMethod t r
       (set_next_paint_flags_ 0
          (Send_ (mkMessage routing (ViewHostMsg_UpdateRect params))
             (set_update_reply_pending_ true
                (set_plugin_window_moves_ [] w))))).
Proof.
  intros Hp.
  match goal with
  | |- keeps _ _ _ (UpdateInputMethod _ _ ?w1) =>
      apply (keeps_trans _ _ w w1 _);
      [| generalize w1; intro; unfold UpdateInputMethod;
         keeps_layers tidy_side tidy_calls ]
  end.
  intros [Hw Hs].
  split.
  - assert (Ht : tidy (set_update_reply_pending_ true
                         (set_plugin_window_moves_ [] w)))
      by (split; [reflexivity | exact Hs]).
    exact (tidy_Send_ _ _ Ht).
  - eexists. split.
    + simpl. rewrite effects_Send_exact. reflexivity.
    + unfold Send_effect, stamped. simpl.
      destruct (closing_ w); [reflexivity|].
      destruct (routing =? MSG_ROUTING_NONE); simpl; rewrite Hp, Hw;
        reflexivity.
Qed.

Lemma tidy_DoDeferredUpdate env w w' :
  DoDeferredUpdate env w = Ok w' -> keeps tidy crowded w w'.
Proof.
  apply keeps_DoDeferredUpdate.
  - intros w0. keeps_layers tidy_side tidy_calls.
  - intros memory w0 _. keeps_layers tidy_side tidy_calls.
  - intros memory dw dh w0 _. unfold flushed. cbv zeta.
    eapply keeps_trans; [|apply tidy_hand_over; reflexivity].
    unfold painted. keeps_layers tidy_side tidy_calls.
Qed.

Lemma tidy_CallDoDeferredUpdate env w w' :
  CallDoDeferredUpdate env w = Ok w' -> keeps tidy crowded w w'.
Proof.
  apply keeps_CallDoDeferredUpdate.
  - apply tidy_DoDeferredUpdate.
  - apply tidy_release_input_ack.
Qed.

Lemma tidy_handled (type : WebInputEventType)
  (message : InputEventMessage) (env : InputEventAnswers) w :
  keeps tidy crowded w (snd (handled type message env w)).
Proof.
  unfold handled. cbv zeta.
  destruct (_ || _); [destruct (webwidget_ _) eqn:?|]; simpl;
    keeps_layers tidy_side tidy_calls.
Qed.

Lemma tidy_step (op : Op) w w' :
  step op w = Ok w' -> keeps tidy crowded w w'.
Proof.
  destruct op; simpl; intros H;
    try (injection H as <-);
    try solve [keeps_layers tidy_side tidy_calls].
  - eapply keeps_OnResize; [| | | exact H].
    + intros _. keeps_layers tidy_side tidy_calls.
    + exact tidy_delegate.
    + intros w0. keeps_layers tidy_side tidy_calls.
  - eapply keeps_OnUpdateRectAck; [| | exact H].
    + intros w0. keeps_layers tidy_side tidy_calls.
    + apply tidy_CallDoDeferredUpdate.
  - apply keeps_OnHandleInputEvent.
    + intros type _. apply tidy_handled.
    + intros w0 m Hm. apply keeps_Send_; [apply tidy_Send_|].
      intros _. apply crowded_Send, is_input_ack_not_update, Hm.
    + apply tidy_release_input_ack.
    + intros w0 m Hm. apply keeps_set; [|reflexivity].
      intros [Hw _]. split; [exact Hw|exact Hm].
    + intros w0 b. apply keeps_set; [exact (fun H => H)|reflexivity].
  - apply tidy_delegate.
  - apply (tidy_CallDoDeferredUpdate _ _ _ H).
Qed.

Lemma sent_updates_tidy d :
  filter crowded d = [] ->
  Forall (fun params =>
            distinct (windows (plugin_window_moves params)) = true)
         (sent_updates d).
Proof.
  induction d as [|e d IH]; simpl; [constructor|].
  destruct e as [[routing b]| | | | | | | | | | | | | |]; simpl; auto.
  destruct b; simpl; auto.
  destruct (distinct _) eqn:E; simpl; [|discriminate].
  intros H. constructor; [exact E | apply IH, H].
Qed.

(** X10 (one move per plugin window).  If no plugin window has two
    scheduled moves at the start (so at construction, where there are
    none), then after any run none has, and no UpdateRect the run
    forwarded carries two moves for one window: SchedulePluginMove
    replaces or amends the move of a window it already knows,
    CleanupWindowInPluginMoves only erases, and a flush hands the list
    over and empties it. *)
Theorem one_move_per_plugin_window (ops : list Op) w w' :
  distinct (windows (plugin_window_moves_ w)) = true ->
  ack_slot_ok w = true ->
  run ops w = Ok w' ->
  distinct (windows (plugin_window_moves_ w')) = true /\
  exists d,
    effects w' = effects w ++ d /\
    Forall (fun params =>
              distinct (windows (plugin_window_moves params)) = true)
           (sent_updates d).
Proof.
  intros Hw Hs H.
  destruct (keeps_run tidy crowded (fun _ => true)
              (fun op w w' _ => tidy_step op w w')
              ops w w' (forallb_any ops) H (conj Hw Hs))
    as ((Hw' & _) & d & Hd & Hb).
  split; [exact Hw'|]. exists d.
  split; [exact Hd | apply sent_updates_tidy, Hb].
Qed.

(** *** Keyboard shortcuts *)

Lemma Send_as_emit (m : Message) w : Send_ m w = emit (Send_effect m w) w.
Proof.
  unfold Send_, Send, Send_effect, stamped. destruct (closing_ w); reflexivity.
Qed.

Lemma suppressing_Send_ (m : Message) w :
  suppressing w -> suppressing (Send_ m w).
Proof. rewrite Send_as_emit. exact (fun H => H). Qed.

Lemma is_char_to_webkit_Send (m : Message) w :
  is_char_to_webkit (Send_effect m w) = false.
Proof. unfold Send_effect. destruct (closing_ w); reflexivity. Qed.

Ltac suppressing_side :=
  first
    [ exact (fun H => H)
    | intros _; reflexivity
    | apply suppressing_Send_
    | intros _; apply is_char_to_webkit_Send ].

Lemma suppressing_delegate (c : DelegateCall) w :
  keeps suppressing is_char_to_webkit w (delegate c w).
Proof.
  destruct c; simpl; keeps_layers suppressing_side fail.
Qed.

Lemma suppressing_release_input_ack w :
  keeps suppressing is_char_to_webkit w (release_input_ack w).
Proof.
  unfold release_input_ack. keeps_layers suppressing_side fail.
Qed.

Lemma suppressing_PaintRect (r : Rect) (o : Point) (cs : list DelegateCall)
  w :
  keeps suppressing is_char_to_webkit w (PaintRect r o cs w).
Proof.
  unfold PaintRect.
  eapply keeps_trans; [|apply keeps_delegate_all; exact suppressing_delegate].
  keeps_layers suppressing_side fail.
Qed.

Ltac suppressing_calls :=
  first [ exact suppressing_delegate
        | exact suppressing_PaintRect
        | apply suppressing_release_input_ack ].

Lemma suppressing_DoDeferredUpdate env w w' :
  DoDeferredUpdate env w = Ok w' ->
  keeps suppressing is_char_to_webkit w w'.
Proof.
  apply keeps_DoDeferredUpdate.
  - intros w0. keeps_layers suppressing_side suppressing_calls.
  - intros memory w0 _. keeps_layers suppressing_side suppressing_calls.
  - intros memory dw dh w0 _. unfold flushed, painted.
    keeps_layers suppressing_side suppressing_calls.
Qed.

Lemma suppressing_CallDoDeferredUpdate env w w' :
  CallDoDeferredUpdate env w = Ok w' ->
  keeps suppressing is_char_to_webkit w w'.
Proof.
  apply keeps_CallDoDeferredUpdate.
  - apply suppressing_DoDeferredUpdate.
  - apply suppressing_release_input_ack.
Qed.

(** A Char event that is being suppressed: WebKit does not see it and the
    suppression stays. *)
Lemma suppressing_handled_Char (message : InputEventMessage)
  (env : InputEventAnswers) w :
  keeps suppressing is_char_to_webkit w (snd (handled Char message env w)).
Proof.
  intros H. pose proof H as H'. unfold suppressing in H'.
  unfold handled. cbv zeta. simpl. rewrite H'. simpl.
  split; [exact H|]. exists []. rewrite app_nil_r. auto.
Qed.

Lemma suppressing_step (op : Op) w w' :
  only_chars op = true ->
  step op w = Ok w' -> keeps suppressing is_char_to_webkit w w'.
Proof.
  destruct op; simpl; intros Hop H;
    try (injection H as <-);
    try solve [keeps_layers suppressing_side suppressing_calls].
  - eapply keeps_OnResize; [| | | exact H].
    + intros _. keeps_layers suppressing_side suppressing_calls.
    + exact suppressing_delegate.
    + intros w0. keeps_layers suppressing_side suppressing_calls.
  - eapply keeps_OnUpdateRectAck; [| | exact H].
    + intros w0. keeps_layers suppressing_side suppressing_calls.
    + apply suppressing_CallDoDeferredUpdate.
  - apply keeps_OnHandleInputEvent.
    + intros type E. rewrite E in Hop.
      destruct type; try discriminate Hop.
      apply suppressing_handled_Char.
    + intros w0 m _. keeps_layers suppressing_side suppressing_calls.
    + apply suppressing_release_input_ack.
    + intros w0 m _. keeps_layers suppressing_side suppressing_calls.
    + intros w0 b. keeps_layers suppressing_side suppressing_calls.
  - apply suppressing_delegate.
  - apply (suppressing_CallDoDeferredUpdate _ _ _ H).
Qed.

Lemma suppress_OnHandleInputEvent (message : InputEventMessage)
  (env : InputEventAnswers) w (type : WebInputEventType) :
  input_event message = Some type ->
  suppress_next_char_events_ (OnHandleInputEvent message env w) =
  suppress_next_char_events_ (snd (handled type message env w)).
Proof.
  intros E. rewrite (OnHandleInputEvent_stages message env w type E).
  cbv zeta. set (hw := handled type message env w).
  destruct (rate_limited type hw); simpl.
  - destruct (pending_input_event_ack_ (snd hw)); [|reflexivity].
    rewrite Send_as_emit. reflexivity.
  - rewrite Send_as_emit. reflexivity.
Qed.

Lemma handled_unhandled_shortcut (message : InputEventMessage)
  (env : InputEventAnswers) w :
  is_keyboard_shortcut_flag message = true ->
  (webwidget_ w = true -> handleInputEvent_processed env = false) ->
  suppress_next_char_events_ (snd (handled RawKeyDown message env w)) = true.
Proof.
  intros Hflag Hp. unfold handled. cbv zeta. simpl. rewrite Hflag.
  destruct (webwidget_ w) eqn:Hw; simpl.
  - rewrite (Hp eq_refl). reflexivity.
  - reflexivity.
Qed.

(** X11 (an unhandled shortcut swallows the Char events).  A RawKeyDown
    that is a browser keyboard shortcut and that WebKit did not process
    (or could not, [webwidget_] being null) sets
    [suppress_next_char_events_]; from then on, through any run whose
    input events are all Char events, no Char event reaches
    [webwidget_->handleInputEvent] and the suppression stays on: only an
    input event of another type lifts it. *)
Theorem unhandled_shortcut_swallows_chars (message : InputEventMessage)
  (env : InputEventAnswers) (ops : list Op) w w' :
  input_event message = Some RawKeyDown ->
  is_keyboard_shortcut_flag message = true ->
  (webwidget_ w = true -> handleInputEvent_processed env = false) ->
  forallb only_chars ops = true ->
  run ops (OnHandleInputEvent message env w) = Ok w' ->
  suppress_next_char_events_ w' = true /\
  exists d,
    effects w' = effects (OnHandleInputEvent message env w) ++ d /\
    filter is_char_to_webkit d = [].
Proof.
  intros E Hflag Hp Hops H.
  apply (keeps_run suppressing is_char_to_webkit only_chars suppressing_step
           ops _ w' Hops H).
  unfold suppressing.
  rewrite (suppress_OnHandleInputEvent message env w RawKeyDown E).
  apply handled_unhandled_shortcut; assumption.
Qed.

(** *** Damage dropped while hidden *)

Lemma owing_Send_ (m : Message) w : owing w -> owing (Send_ m w).
Proof. rewrite Send_as_emit. exact (fun H => H). Qed.

Ltac owing_side :=
  first
    [ exact (fun H => H)
    | intros _; reflexivity
    | apply owing_Send_ ].

Lemma owing_delegate (c : DelegateCall) w :
  keeps owing no_effect w (delegate c w).
Proof.
  destruct c; simpl; keeps_layers owing_side fail.
Qed.

Lemma owing_release_input_ack w :
  keeps owing no_effect w (release_input_ack w).
Proof.
  unfold release_input_ack. keeps_layers owing_side fail.
Qed.

Lemma owing_PaintRect (r : Rect) (o : Point) (cs : list DelegateCall) w :
  keeps owing no_effect w (PaintRect r o cs w).
Proof.
  unfold PaintRect.
  eapply keeps_trans; [|apply keeps_delegate_all; exact owing_delegate].
  keeps_layers owing_side fail.
Qed.

Ltac owing_calls :=
  first [ exact owing_delegate
        | exact owing_PaintRect
        | apply owing_release_input_ack ].

Lemma owing_DoDeferredUpdate env w w' :
  DoDeferredUpdate env w = Ok w' -> keeps owing no_effect w w'.
Proof.
  apply keeps_DoDeferredUpdate.
  - intros w0. keeps_layers owing_side owing_calls.
  - intros memory w0 _. keeps_layers owing_side owing_calls.
  - intros memory dw dh w0 _. unfold flushed, painted.
    keeps_layers owing_side owing_calls.
Qed.

Lemma owing_CallDoDeferredUpdate env w w' :
  CallDoDeferredUpdate env w = Ok w' -> keeps owing no_effect w w'.
Proof.
  apply keeps_CallDoDeferredUpdate.
  - apply owing_DoDeferredUpdate.
  - apply owing_release_input_ack.
Qed.

Lemma owing_handled (type : WebInputEventType)
  (message : InputEventMessage) (env : InputEventAnswers) w :
  keeps owing no_effect w (snd (handled type message env w)).
Proof.
  unfold handled. cbv zeta.
  destruct (_ || _); [destruct (webwidget_ _) eqn:?|]; simpl;
    keeps_layers owing_side owing_calls.
Qed.

Lemma owing_step (op : Op) w w' :
  negb (settles op) = true ->
  step op w = Ok w' -> keeps owing no_effect w w'.
Proof.
  destruct op; simpl; intros Hop H; try discriminate Hop;
    try (injection H as <-);
    try solve [keeps_layers owing_side owing_calls].
  - eapply keeps_OnUpdateRectAck; [| | exact H].
    + intros w0. keeps_layers owing_side owing_calls.
    + apply owing_CallDoDeferredUpdate.
  - apply keeps_OnHandleInputEvent.
    + intros type _. apply owing_handled.
    + intros w0 m _. keeps_layers owing_side owing_calls.
    + apply owing_release_input_ack.
    + intros w0 m _. keeps_layers owing_side owing_calls.
    + intros w0 b. keeps_layers owing_side owing_calls.
  - apply owing_delegate.
  - apply (owing_CallDoDeferredUpdate _ _ _ H).
Qed.

(** X12 (damage dropped while hidden is repainted on restore).  A
    DoDeferredUpdate that finds the widget hidden with an update pending
    drops the update and remembers it in [needs_repainting_on_restore_];
    no later operation but OnResize and OnWasRestored forgets it.  So if
    the WebKit widget is still there, the next OnWasRestored repaints the
    whole view even when the browser says no repaint is needed: it does
    what OnWasRestored(true) does, and the frame it schedules will carry
    IS_RESTORE_ACK. *)
Theorem dropped_damage_is_repainted_on_restore env (ops : list Op)
  w w0 w1 :
  webwidget_ w = true ->
  HasPendingUpdate (paint_aggregator_ w) = true ->
  update_reply_pending_ w = false ->
  is_hidden_ w = true ->
  DoDeferredUpdate env w = Ok w0 ->
  forallb (fun op => negb (settles op)) ops = true ->
  run ops w0 = Ok w1 ->
  webwidget_ w1 = true ->
  effects w0 = effects w /\
  OnWasRestored false w1 = OnWasRestored true w1 /\
  next_paint_is_restore_ack (OnWasRestored false w1) = true /\
  is_hidden_ (OnWasRestored false w1) = false.
Proof.
  intros Hw Hp Hr Hh H0 Hops H Hw1.
  rewrite (DoDeferredUpdate_suppressed env w Hw Hp Hr) in H0
    by (rewrite Hh; reflexivity).
  injection H0 as <-.
  split; [reflexivity|].
  destruct (keeps_run owing no_effect (fun op => negb (settles op))
              owing_step ops _ w1 Hops H eq_refl) as (Ho & _).
  unfold owing in Ho.
  assert (Hn : needs_repainting_on_restore_ (SetHidden false w1) = true).
  { unfold SetHidden. destruct (eqb (is_hidden_ w1) false); [exact Ho|].
    simpl. exact Ho. }
  split; [|split].
  - unfold OnWasRestored. rewrite Hw1. cbv zeta. simpl negb.
    rewrite Hn. reflexivity.
  - unfold OnWasRestored. rewrite Hw1. cbv zeta. simpl negb.
    rewrite Hn. simpl.
    unfold next_paint_is_restore_ack.
    match goal with
    | |- context [didInvalidateRect ?r ?x] =>
        rewrite (quiet_flags _ _ (quiet_didInvalidateRect r x))
    end.
    simpl. unfold ViewHostMsg_UpdateRect_Flags.is_restore_ack.
    rewrite Z.land_lor_distr_l, negb_true_iff, Z.eqb_neq, Z.lor_eq_0_iff.
    intros [_ Hbad]. discriminate Hbad.
  - unfold OnWasRestored. rewrite Hw1. cbv zeta. simpl negb.
    rewrite Hn. simpl.
    match goal with
    | |- context [didInvalidateRect ?r ?x] =>
        rewrite (inert_hidden _ _ (inert_didInvalidateRect r x))
    end.
    simpl. unfold SetHidden.
    destruct (is_hidden_ w1) eqn:E; simpl; [reflexivity | exact E].
Qed.

(** *** The input method *)

Lemma ime_off_Send_ (m : Message) w : ime_off w -> ime_off (Send_ m w).
Proof. rewrite Send_as_emit. exact (fun H => H). Qed.

Lemma is_ime_update_Send (m : Message) w :
  is_ime_state m = false -> is_ime_update (Send_effect m w) = false.
Proof.
  intros Hm. unfold Send_effect, stamped. destruct (closing_ w); [exact Hm|].
  simpl. destruct (routing_id m =? MSG_ROUTING_NONE); exact Hm.
Qed.

Lemma is_input_ack_not_ime (m : Message) :
  is_input_ack m = true -> is_ime_state m = false.
Proof.
  unfold is_input_ack, is_ime_state. destruct (body m); congruence.
Qed.

Ltac ime_off_side :=
  first
    [ exact (fun H => H)
    | intros _; reflexivity
    | apply ime_off_Send_
    | intros _; apply is_ime_update_Send; reflexivity
    | let Hw := fresh in
      let Hs := fresh in
      intros [Hw Hs]; exfalso; cbn in *; rewrite Hw in *; discriminate ].

Lemma ime_off_delegate (c : DelegateCall) w :
  keeps ime_off is_ime_update w (delegate c w).
Proof.
  destruct c; simpl; keeps_layers ime_off_side fail.
Qed.

Lemma ime_off_release_input_ack w :
  keeps ime_off is_ime_update w (release_input_ack w).
Proof.
  apply keeps_release_input_ack.
  - intros ? [_ H]. exact H.
  - intros ? ? [Hw _]. apply ime_off_Send_. split; [exact Hw | reflexivity].
  - intros ? ? _ Hm. apply is_ime_update_Send, is_input_ack_not_ime, Hm.
Qed.

Lemma ime_off_PaintRect (r : Rect) (o : Point) (cs : list DelegateCall) w :
  keeps ime_off is_ime_update w (PaintRect r o cs w).
Proof.
  unfold PaintRect.
  eapply keeps_trans; [|apply keeps_delegate_all; exact ime_off_delegate].
  keeps_layers ime_off_side fail.
Qed.

Ltac ime_off_calls :=
  first [ exact ime_off_delegate
        | exact ime_off_PaintRect
        | apply ime_off_release_input_ack ].

Lemma ime_off_DoDeferredUpdate env w w' :
  DoDeferredUpdate env w = Ok w' -> keeps ime_off is_ime_update w w'.
Proof.
  apply keeps_DoDeferredUpdate.
  - intros w0. keeps_layers ime_off_side ime_off_calls.
  - intros memory w0 _. keeps_layers ime_off_side ime_off_calls.
  - intros memory dw dh w0 _. unfold flushed, painted.
    keeps_layers ime_off_side ime_off_calls.
Qed.

Lemma ime_off_CallDoDeferredUpdate env w w' :
  CallDoDeferredUpdate env w = Ok w' -> keeps ime_off is_ime_update w w'.
Proof.
  apply keeps_CallDoDeferredUpdate.
  - apply ime_off_DoDeferredUpdate.
  - apply ime_off_release_input_ack.
Qed.

Lemma ime_off_handled (type : WebInputEventType)
  (message : InputEventMessage) (env : InputEventAnswers) w :
  keeps ime_off is_ime_update w (snd (handled type message env w)).
Proof.
  unfold handled. cbv zeta.
  destruct (_ || _); [destruct (webwidget_ _) eqn:?|]; simpl;
    keeps_layers ime_off_side ime_off_calls.
Qed.

Lemma ime_off_step (op : Op) w w' :
  negb (is_OnSetInputMethodActive op) = true ->
  step op w = Ok w' -> keeps ime_off is_ime_update w w'.
Proof.
  destruct op; simpl; intros Hop H; try discriminate Hop;
    try (injection H as <-);
    try solve [keeps_layers ime_off_side ime_off_calls].
  - eapply keeps_OnResize; [| | | exact H].
    + intros _. keeps_layers ime_off_side ime_off_calls.
    + exact ime_off_delegate.
    + intros w0. keeps_layers ime_off_side ime_off_calls.
  - eapply keeps_OnUpdateRectAck; [| | exact H].
    + intros w0. keeps_layers ime_off_side ime_off_calls.
    + apply ime_off_CallDoDeferredUpdate.
  - apply keeps_OnHandleInputEvent.
    + intros type _. apply ime_off_handled.
    + intros w0 m Hm. apply keeps_Send_; [apply ime_off_Send_|].
      intros _. apply is_ime_update_Send, is_input_ack_not_ime, Hm.
    + apply ime_off_release_input_ack.
    + intros w0 m Hm. apply keeps_set; [|reflexivity].
      intros [Hw _]. split; [exact Hw|exact Hm].
    + intros w0 b. apply keeps_set; [exact (fun H => H)|reflexivity].
  - apply ime_off_delegate.
  - apply (ime_off_CallDoDeferredUpdate _ _ _ H).
Qed.

(** X13 (no input method reports while it is inactive).  While
    [input_method_is_active_] is false, no run without an
    OnSetInputMethodActive hands a ViewHostMsg_ImeUpdateTextInputState to
    Send, whatever WebKit answers about the text input type and the caret
    at the end of each flush; the flag stays false. *)
Theorem inactive_input_method_is_silent (ops : list Op) w w' :
  input_method_is_active_ w = false ->
  ack_slot_ok w = true ->
  forallb (fun op => negb (is_OnSetInputMethodActive op)) ops = true ->
  run ops w = Ok w' ->
  input_method_is_active_ w' = false /\
  exists d, effects w' = effects w ++ d /\ filter is_ime_update d = [].
Proof.
  intros Hw Hs Hops H.
  destruct (keeps_run ime_off is_ime_update
              (fun op => negb (is_OnSetInputMethodActive op)) ime_off_step
              ops w w' Hops H (conj Hw Hs)) as ((Hw' & _) & Hd).
  auto.
Qed.

Lemma Rect_eqb_eq (a b : Rect) : Rect_eqb a b = true <-> a = b.
Proof.
  unfold Rect_eqb. destruct a, b. simpl.
  rewrite !andb_true_iff, !Z.eqb_eq.
  split; [intros [[[-> ->] ->] ->]; reflexivity | intros H; injection H; auto].
Qed.

(** UpdateInputMethod has nothing to do when what it would report is what
    it stored. *)
Lemma UpdateInputMethod_settled (new_type : WebTextInputType)
  (new_caret_bounds : Rect) w :
  (input_method_is_active_ w = true ->
   text_input_type_ w =
     (if webwidget_ w then new_type else WebTextInputTypeNone) /\
   caret_bounds_ w =
     (if webwidget_ w then new_caret_bounds else Rect_default)) ->
  UpdateInputMethod new_type new_caret_bounds w = w.
Proof.
  intros H. unfold UpdateInputMethod. cbv zeta.
  destruct (input_method_is_active_ w); [|reflexivity]. simpl.
  destruct (H eq_refl) as (Ht & Hc).
  rewrite <- Ht, <- Hc, Z.eqb_refl.
  rewrite (proj2 (Rect_eqb_eq _ _) eq_refl). reflexivity.
Qed.

(** X14 (the input method state is reported once).  UpdateInputMethod
    stores what it reports, so a second call with the same answers from
    WebKit changes nothing and sends nothing: the widget after two calls
    is the widget after one. *)
Theorem UpdateInputMethod_reports_once (new_type : WebTextInputType)
  (new_caret_bounds : Rect) w :
  UpdateInputMethod new_type new_caret_bounds
    (UpdateInputMethod new_type new_caret_bounds w) =
  UpdateInputMethod new_type new_caret_bounds w.
Proof.
  apply UpdateInputMethod_settled.
  unfold UpdateInputMethod. cbv zeta.
  destruct (input_method_is_active_ w) eqn:Ha; simpl;
    [|intros Hact; congruence].
  match goal with
  | |- context [if ?c then Send_ _ _ else _] => destruct c eqn:Hc
  end.
  - rewrite Send_as_emit. simpl. auto.
  - intros _. apply orb_false_iff in Hc. destruct Hc as (Ht & Hc).
    apply negb_false_iff in Ht. apply negb_false_iff in Hc.
    apply Z.eqb_eq in Ht. apply Rect_eqb_eq in Hc. auto.
Qed.

End Keeping.

(** ** The flags of a frame update *)

Section Flags.

Context {platform : Platform} {gfx : GfxOps} {aggregator : PaintAggregatorOps}.

Implicit Types (w : RenderWidget) (d : list Effect).

Lemma has_flag_lor (flag f c : Z) :
  has_flag flag f = true -> has_flag flag (Z.lor f c) = true.
Proof.
  unfold has_flag.
  rewrite Z.land_lor_distr_l, !negb_true_iff, !Z.eqb_neq, Z.lor_eq_0_iff.
  tauto.
Qed.

Lemma has_flag_set (flag f : Z) :
  flag <> 0 -> has_flag flag (Z.lor f flag) = true.
Proof.
  unfold has_flag. intros Hf.
  rewrite Z.land_lor_distr_l, Z.land_diag, negb_true_iff, Z.eqb_neq,
    Z.lor_eq_0_iff.
  tauto.
Qed.

Lemma flags_OnHandleInputEvent (message : InputEventMessage)
  (env : InputEventAnswers) w :
  next_paint_flags_ (OnHandleInputEvent message env w) = next_paint_flags_ w.
Proof.
  destruct (input_event message) as [type|] eqn:E.
  - rewrite (OnHandleInputEvent_stages message env w type E). cbv zeta.
    rewrite <- (quiet_flags _ _ (quiet_handled type message env w)).
    set (hw := handled type message env w).
    destruct (rate_limited type hw); simpl.
    + destruct (pending_input_event_ack_ (snd hw)); [|reflexivity].
      rewrite Send_as_emit. reflexivity.
    + rewrite Send_as_emit. reflexivity.
  - unfold OnHandleInputEvent. rewrite E. reflexivity.
Qed.

(** Outside a flush the flags stay, or gain the flag of the operation. *)
Lemma flags_step (op : Op) w w' :
  is_flush op = false ->
  step op w = Ok w' ->
  next_paint_flags_ w' = next_paint_flags_ w \/
  next_paint_flags_ w' = Z.lor (next_paint_flags_ w) (raises op).
Proof.
  destruct op; simpl; intros Hop H; try discriminate Hop;
    try (injection H as <-).
  - left. destruct (OnClose_outcome w) as (_ & _ & _ & Hf & _). exact Hf.
  - destruct (webwidget_ w) eqn:Hw.
    + destruct (OnResize_stages _ _ _ w w' Hw H) as (-> & _).
      destruct (resizing_fields new_size resizer_rect w)
        as (_ & _ & _ & _ & Hf & _).
      pose proof (quiet_flags _ _
                    (quiet_delegate_all resize_calls
                       (resizing new_size resizer_rect w))) as Hq.
      destruct (Size_IsEmpty new_size); simpl.
      * left. congruence.
      * right. rewrite Hq, Hf. reflexivity.
    + unfold OnResize in H. rewrite Hw in H. simpl in H.
      injection H as <-. left. reflexivity.
  - left. apply (quiet_flags _ _ (quiet_SetHidden true w)).
  - unfold OnWasRestored. cbv zeta.
    destruct (negb (webwidget_ w)); [left; reflexivity|].
    destruct (_ && _).
    + left. apply (quiet_flags _ _ (quiet_SetHidden false w)).
    + right.
      match goal with
      | |- context [didInvalidateRect ?r ?x] =>
          rewrite (quiet_flags _ _ (quiet_didInvalidateRect r x))
      end.
      simpl. rewrite (quiet_flags _ _ (quiet_SetHidden false w)).
      reflexivity.
  - left. apply flags_OnHandleInputEvent.
  - left. reflexivity.
  - unfold OnMsgRepaint. cbv zeta.
    destruct (negb (webwidget_ w)); [left; reflexivity|].
    right.
    match goal with
    | |- context [didInvalidateRect ?r ?x] =>
        rewrite (quiet_flags _ _ (quiet_didInvalidateRect r x))
    end.
    reflexivity.
  - left. apply (quiet_flags _ _ (quiet_delegate c w)).
  - left. unfold Close. destruct (webwidget_ w); reflexivity.
  - left. unfold DoDeferredClose. rewrite Send_as_emit. reflexivity.
  - left. reflexivity.
  - left. unfold GenerateFullRepaint.
    apply (quiet_flags _ _ (quiet_didInvalidateRect _ w)).
  - left. apply (quiet_flags _ _ (quiet_UpdateInputMethod _ _ w)).
  - left. apply (quiet_flags _ _ (quiet_PaintRect _ _ _ w)).
  - left. rewrite Send_as_emit. reflexivity.
Qed.

(** What one step does to the flags and to the frame updates: it sends
    none and the flags stay or gain the flag of the operation, or it is a
    flush, which sends the flags along and resets them. *)
Lemma step_flags (op : Op) w w' :
  ack_slot_ok w = true ->
  step op w = Ok w' ->
  exists d,
    effects w' = effects w ++ d /\
    ((sent_updates d = [] /\
      (next_paint_flags_ w' = next_paint_flags_ w \/
       next_paint_flags_ w' = Z.lor (next_paint_flags_ w) (raises op)))
     \/
     (next_paint_flags_ w' = 0 /\
      if closing_ w then sent_updates d = []
      else exists p, sent_updates d = [p] /\ flags p = next_paint_flags_ w)).
Proof.
  intros Hslot H.
  destruct (step_cases op w w' H)
    as [(Hack & Hcl & [c1 c2 c3 c4 c5 (d & Hd & Hc & Hf & Hs)])
       |[(Hack & Hcl & c1 & c2 & c3 & c4 & c5 & d & Hd & Hf & Hs & _)
        |(Hcl & c1 & c2 & c3 & d & Hd & Hc & Hf & Hcases)]];
    exists d; (split; [exact Hd|]).
  - destruct (is_flush op) eqn:Hfl.
    + destruct op; try discriminate Hfl; try discriminate Hack.
      simpl in H.
      destruct (CallDoDeferredUpdate_outcome env w w' H)
        as (_ & _ & _ & d' & Hd' & _ & _ & Hcases).
      assert (d' = d) by (apply (app_inv_head (effects w)); congruence).
      subst d'.
      destruct (Hcases Hslot) as [(_ & p2 & p3)|(_ & _ & p3 & p4)].
      * left. auto.
      * right. auto.
    + left. split; [exact (Hs Hslot)|]. apply (flags_step op w w' Hfl H).
  - left. split; [exact Hs|]. left. exact c4.
  - destruct (Hcases Hslot) as [(_ & p2 & p3)|(_ & _ & p3 & p4)].
    + left. auto.
    + right. auto.
Qed.

Lemma run_flag_due (flag : Z) (ops : list Op) w w' :
  ack_slot_ok w = true ->
  flag_due flag w ->
  run ops w = Ok w' ->
  exists d, effects w' = effects w ++ d /\ first_update_has flag d.
Proof.
  revert w. induction ops as [|op ops IH]; intros w Hslot Hdue H;
    simpl in H.
  - injection H as <-. exists []. rewrite app_nil_r. split; [reflexivity|].
    exact I.
  - apply bind_Ok in H. destruct H as (w1 & H1 & H).
    destruct (step_frame op w w1 H1) as (_ & Hcl1 & Hslot1 & _).
    destruct (step_flags op w w1 Hslot H1) as (d1 & Hd1 & Hcases).
    assert (Hnext : sent_updates d1 = [] -> flag_due flag w1).
    { intros Hnone. unfold flag_due in *.
      destruct Hdue as [Hdue | Hdue]; [left; auto|].
      destruct Hcases as [(_ & [Hf | Hf]) | (_ & Hsent)].
      - right. rewrite Hf. exact Hdue.
      - right. rewrite Hf. apply has_flag_lor, Hdue.
      - destruct (closing_ w) eqn:Hc; [left; auto|].
        destruct Hsent as (p & Hp & _). rewrite Hp in Hnone.
        discriminate Hnone. }
    assert (Hfirst : first_update_has flag d1).
    { unfold first_update_has, flag_due in *.
      destruct Hcases as [(Hnone & _) | (_ & Hsent)].
      - rewrite Hnone. exact I.
      - destruct (closing_ w) eqn:Hc; [rewrite Hsent; exact I|].
        destruct Hsent as (p & -> & Hp). rewrite Hp.
        destruct Hdue as [Hdue | Hdue]; [discriminate Hdue | exact Hdue]. }
    unfold first_update_has in *.
    destruct (sent_updates d1) as [|p rest] eqn:E.
    + destruct (IH w1 (Hslot1 Hslot) (Hnext eq_refl) H)
        as (d2 & Hd2 & Hfirst2).
      exists (d1 ++ d2). split.
      * rewrite Hd2, Hd1, app_assoc. reflexivity.
      * rewrite sent_updates_app, E. exact Hfirst2.
    + destruct (run_frame ops w1 w' H) as (_ & _ & _ & d2 & Hd2 & _).
      exists (d1 ++ d2). split.
      * rewrite Hd2, Hd1, app_assoc. reflexivity.
      * rewrite sent_updates_app, E. exact Hfirst.
Qed.

(** X15 (a repaint request is acknowledged by the next frame).  After
    OnMsgRepaint on a live widget, the first UpdateRect any further run
    forwards carries IS_REPAINT_ACK: the flag waits in
    [next_paint_flags_] through every operation until a flush sends it. *)
Theorem repaint_ack_reaches_next_update (size_to_paint : Size)
  (ops : list Op) w w' :
  webwidget_ w = true ->
  ack_slot_ok w = true ->
  run ops (OnMsgRepaint size_to_paint w) = Ok w' ->
  exists d,
    effects w' = effects (OnMsgRepaint size_to_paint w) ++ d /\
    first_update_has ViewHostMsg_UpdateRect_Flags.IS_REPAINT_ACK d.
Proof.
  intros Hw Hslot H.
  apply (run_flag_due _ ops _ w'); [| |exact H].
  - destruct (step_frame (op_OnMsgRepaint size_to_paint) w _ eq_refl)
      as (_ & _ & Hs & _).
    exact (Hs Hslot).
  - right. unfold OnMsgRepaint. rewrite Hw. cbv zeta. simpl negb. cbv iota.
    match goal with
    | |- context [didInvalidateRect ?r ?x] =>
        rewrite (quiet_flags _ _ (quiet_didInvalidateRect r x))
    end.
    apply has_flag_set. discriminate.
Qed.

(** X16 (a restore is acknowledged by the next frame).  After
    OnWasRestored on a live widget that has to repaint, because the
    browser says so or because damage was dropped while it was hidden,
    the first UpdateRect any further run forwards carries
    IS_RESTORE_ACK. *)
Theorem restore_ack_reaches_next_update (needs_repainting : bool)
  (ops : list Op) w w' :
  webwidget_ w = true ->
  ack_slot_ok w = true ->
  needs_repainting || needs_repainting_on_restore_ w = true ->
  run ops (OnWasRestored needs_repainting w) = Ok w' ->
  exists d,
    effects w' = effects (OnWasRestored needs_repainting w) ++ d /\
    first_update_has ViewHostMsg_UpdateRect_Flags.IS_RESTORE_ACK d.
Proof.
  intros Hw Hslot Hneeds H.
  apply (run_flag_due _ ops _ w'); [| |exact H].
  - destruct (step_frame (op_OnWasRestored needs_repainting) w _ eq_refl)
      as (_ & _ & Hs & _).
    exact (Hs Hslot).
  - right. unfold OnWasRestored. rewrite Hw. cbv zeta. simpl negb. cbv iota.
    assert (Hn : needs_repainting_on_restore_ (SetHidden false w) =
                 needs_repainting_on_restore_ w).
    { unfold SetHidden. destruct (eqb (is_hidden_ w) false); reflexivity. }
    rewrite Hn.
    destruct needs_repainting, (needs_repainting_on_restore_ w);
      try discriminate Hneeds; simpl;
      match goal with
      | |- context [didInvalidateRect ?r ?x] =>
          rewrite (quiet_flags _ _ (quiet_didInvalidateRect r x))
      end;
      apply has_flag_set; discriminate.
Qed.

(** X17 (a frame update says only what was asked).  Take any set of flag
    bits [mask] that [next_paint_flags_] does not hold at the start and
    that no operation of the run sets (OnResize sets IS_RESIZE_ACK,
    OnWasRestored IS_RESTORE_ACK, OnMsgRepaint IS_REPAINT_ACK, the others
    none).  Then no UpdateRect the run forwards has a bit of [mask], and
    [next_paint_flags_] has none at the end. *)
Theorem update_flags_are_requested (mask : Z) (ops : list Op) w w' :
  ack_slot_ok w = true ->
  Z.land (next_paint_flags_ w) mask = 0 ->
  forallb (fun op => Z.land (raises op) mask =? 0) ops = true ->
  run ops w = Ok w' ->
  Z.land (next_paint_flags_ w') mask = 0 /\
  exists d,
    effects w' = effects w ++ d /\
    Forall (fun p => Z.land (flags p) mask = 0) (sent_updates d).
Proof.
  revert w. induction ops as [|op ops IH]; intros w Hslot Hm Hops H;
    simpl in H.
  - injection H as <-. split; [exact Hm|].
    exists []. rewrite app_nil_r. split; [reflexivity | constructor].
  - simpl in Hops. apply andb_true_iff in Hops. destruct Hops as (Hop & Hops).
    apply Z.eqb_eq in Hop.
    apply bind_Ok in H. destruct H as (w1 & H1 & H).
    destruct (step_frame op w w1 H1) as (_ & _ & Hslot1 & _).
    destruct (step_flags op w w1 Hslot H1) as (d1 & Hd1 & Hcases).
    assert (Hm1 : Z.land (next_paint_flags_ w1) mask = 0).
    { destruct Hcases as [(_ & [Hf | Hf]) | (Hf & _)]; rewrite Hf.
      - exact Hm.
      - rewrite Z.land_lor_distr_l, Hm, Hop. reflexivity.
      - reflexivity. }
    assert (Hsent : Forall (fun p => Z.land (flags p) mask = 0)
                      (sent_updates d1)).
    { destruct Hcases as [(Hnone & _) | (_ & Hsent)].
      - rewrite Hnone. constructor.
      - destruct (closing_ w); [rewrite Hsent; constructor|].
        destruct Hsent as (p & -> & Hp).
        constructor; [rewrite Hp; exact Hm | constructor]. }
    destruct (IH w1 (Hslot1 Hslot) Hm1 Hops H) as (Hm' & d2 & Hd2 & Hsent2).
    split; [exact Hm'|].
    exists (d1 ++ d2). split.
    + rewrite Hd2, Hd1, app_assoc. reflexivity.
    + rewrite sent_updates_app. apply Forall_app. auto.
Qed.

End Flags.

(** ** The window rectangle *)

Module WindowRectFacts.

Import WindowRect.

Section Facts.

Context {platform : Platform}.

Implicit Types (w : Window) (d : list Handed).

Lemma Send_hands (m : WindowMessage) w :
  Send m w = hand (handed_by_Send m w) w.
Proof. unfold Send, handed_by_Send. destruct (closing_ w); reflexivity. Qed.

Lemma body_handed_by_Send (m : WindowMessage) w :
  message_body (message_of (handed_by_Send m w)) = message_body m.
Proof.
  unfold handed_by_Send. destruct (closing_ w); [reflexivity|]. simpl.
  destruct (message_routing_id m =? MSG_ROUTING_NONE); reflexivity.
Qed.

Lemma last_requested_app (r : Rect) (a b : list Handed) :
  last_requested r (a ++ b) = last_requested (last_requested r a) b.
Proof. unfold last_requested. apply fold_left_app. Qed.

Lemma requests_app (a b : list Handed) :
  requests (a ++ b) = requests a + requests b.
Proof. unfold requests. rewrite filter_app, length_app. lia. Qed.

Lemma accounted_refl w : accounted 0 w w.
Proof.
  repeat split; auto. exists []. rewrite app_nil_r. unfold requests. simpl.
  repeat split; lia.
Qed.

Lemma accounted_trans (a1 a2 : Z) w1 w2 w3 :
  accounted a1 w1 w2 -> accounted a2 w2 w3 -> accounted (a1 + a2) w1 w3.
Proof.
  intros (c1 & s1 & d1 & E1 & N1 & R1 & S1) (c2 & s2 & d2 & E2 & N2 & R2 & S2).
  split; [congruence|]. split; [auto|].
  exists (d1 ++ d2).
  rewrite requests_app, last_requested_app, filter_app, length_app.
  split; [rewrite E2, E1, app_assoc; reflexivity|].
  split; [lia|]. split; [congruence | lia].
Qed.

(** One message handed to Send, as the books see it. *)
Lemma accounted_request (m : WindowMessage) (r : Rect) w w' :
  requested_rect (handed_by_Send m w) = Some r ->
  closing_ w' = closing_ w ->
  (did_show_ w = true -> did_show_ w' = true) ->
  handed w' = handed w ++ [handed_by_Send m w] ->
  pending_window_rect_count_ w' = pending_window_rect_count_ w + 1 ->
  pending_window_rect_ w' = r ->
  Z.b2z (is_show (handed_by_Send m w)) =
    Z.b2z (did_show_ w') - Z.b2z (did_show_ w) ->
  accounted 0 w w'.
Proof.
  intros Hr Hc Hs Hh Hn Hp Hshow.
  split; [exact Hc|]. split; [exact Hs|].
  exists [handed_by_Send m w]. split; [exact Hh|].
  unfold requests, last_requested, is_request. simpl. rewrite Hr. simpl.
  split; [lia|]. split; [exact Hp|].
  destruct (is_show (handed_by_Send m w)); simpl in *; lia.
Qed.

Lemma accounted_show w w' : show w = Ok w' -> accounted 0 w w'.
Proof.
  unfold show. intros H. bind_inv H. bind_inv H. bind_inv H.
  destruct (did_show_ w) eqn:Hs; simpl in H.
  - injection H as <-. apply accounted_refl.
  - injection H as <-.
    destruct (popup_params_ w) as [params|] eqn:Hp; simpl;
      rewrite Send_hands;
      match goal with
      | |- context [handed_by_Send ?m ?w0] =>
          apply (accounted_request m (initial_pos_ w))
      end;
      unfold requested_rect, is_show; rewrite ?body_handed_by_Send;
      simpl; rewrite ?Hs; try reflexivity; try discriminate.
Qed.

Lemma accounted_setWindowRect (pos : Rect) w :
  accounted 0 w (setWindowRect pos w).
Proof.
  unfold setWindowRect. destruct (did_show_ w) eqn:Hs.
  - cbv zeta. rewrite Send_hands.
    match goal with
    | |- context [handed_by_Send ?m ?w0] =>
        apply (accounted_request m pos)
    end;
    unfold requested_rect, is_show; rewrite ?body_handed_by_Send;
    simpl; rewrite ?Hs; try reflexivity; auto.
  - split; [reflexivity|]. split; [simpl; auto|].
    exists []. rewrite app_nil_r. unfold requests. simpl. rewrite Hs.
    repeat split; lia.
Qed.

Lemma accounted_query (m : WindowMessage) w :
  is_query (handed_by_Send m w) = true ->
  accounted 0 w (Send m w).
Proof.
  intros Hq. rewrite Send_hands.
  split; [reflexivity|]. split; [simpl; auto|].
  exists [handed_by_Send m w]. split; [reflexivity|].
  unfold requests, last_requested, is_request, requested_rect, is_show,
    is_query in *.
  simpl.
  destruct (message_body (message_of (handed_by_Send m w)));
    try discriminate Hq; simpl; repeat split; lia.
Qed.

Lemma accounted_windowRect (answer : Rect) w :
  accounted 0 w (snd (windowRect answer w)).
Proof.
  unfold windowRect.
  destruct (negb (pending_window_rect_count_ w =? 0)); simpl.
  - apply accounted_refl.
  - apply accounted_query. unfold is_query.
    rewrite body_handed_by_Send. reflexivity.
Qed.

Lemma accounted_rootWindowRect (answer : Rect) w :
  accounted 0 w (snd (rootWindowRect answer w)).
Proof.
  unfold rootWindowRect.
  destruct (negb (pending_window_rect_count_ w =? 0)); simpl.
  - apply accounted_refl.
  - apply accounted_query. unfold is_query.
    rewrite body_handed_by_Send. reflexivity.
Qed.

Lemma accounted_OnRequestMoveAck w w' :
  OnRequestMoveAck w = Ok w' -> accounted 1 w w'.
Proof.
  unfold OnRequestMoveAck. intros H. bind_inv H. injection H as <-.
  split; [reflexivity|]. split; [simpl; auto|].
  exists []. rewrite app_nil_r. unfold requests. simpl.
  repeat split; lia.
Qed.

Lemma step_accounted (op : WindowOp) w w' :
  window_step op w = Ok w' ->
  accounted (if is_move_ack op then 1 else 0) w w'.
Proof.
  destruct op; simpl; intros H; try (injection H as <-).
  - apply accounted_show, H.
  - apply accounted_setWindowRect.
  - apply accounted_windowRect.
  - apply accounted_rootWindowRect.
  - apply accounted_OnRequestMoveAck, H.
Qed.

Lemma run_accounted (ops : list WindowOp) w w' :
  window_run ops w = Ok w' -> accounted (move_acks ops) w w'.
Proof.
  revert w. induction ops as [|op ops IH]; intros w H; simpl in H.
  - injection H as <-. apply accounted_refl.
  - apply bind_Ok in H. destruct H as (w1 & H1 & H).
    pose proof (accounted_trans _ _ _ _ _ (step_accounted op w w1 H1)
                  (IH w1 H)) as Ha.
    replace (move_acks (op :: ops))
      with ((if is_move_ack op then 1 else 0) + move_acks ops);
      [exact Ha|].
    unfold move_acks. simpl. destruct (is_move_ack op); simpl length; lia.
Qed.

(** X18 (outstanding moves are counted).  Over any run of show,
    setWindowRect, windowRect, rootWindowRect and OnRequestMoveAck,
    [pending_window_rect_count_] grows by the ShowWidget, ShowPopup and
    RequestMove messages handed to Send and shrinks by the
    ViewMsg_Move_ACK messages received, and [pending_window_rect_] is the
    rectangle of the last of those requests (or unchanged if there was
    none). *)
Theorem outstanding_moves_are_counted (ops : list WindowOp) w w' :
  window_run ops w = Ok w' ->
  exists d,
    handed w' = handed w ++ d /\
    pending_window_rect_count_ w' =
      pending_window_rect_count_ w + requests d - move_acks ops /\
    pending_window_rect_ w' = last_requested (pending_window_rect_ w) d.
Proof.
  intros H.
  destruct (run_accounted ops w w' H) as (_ & _ & d & Hd & Hn & Hr & _).
  exists d. auto.
Qed.

(** X19 (the widget is shown once).  Over any run, a ShowWidget or
    ShowPopup message is handed to Send exactly when [did_show_] goes
    from false to true, so at most once, and never again once the widget
    was shown. *)
Theorem show_message_goes_out_once (ops : list WindowOp) w w' :
  window_run ops w = Ok w' ->
  (did_show_ w = true -> did_show_ w' = true) /\
  exists d,
    handed w' = handed w ++ d /\
    Z.of_nat (length (filter is_show d)) =
      Z.b2z (did_show_ w') - Z.b2z (did_show_ w).
Proof.
  intros H.
  destruct (run_accounted ops w w' H) as (_ & Hs & d & Hd & _ & _ & Hshow).
  split; [exact Hs|]. exists d. auto.
Qed.

(** X20 (the window rectangle while a move is outstanding).  After any
    run that leaves [pending_window_rect_count_] other than zero,
    windowRect and rootWindowRect answer with the rectangle of the last
    request of the run, and send no query to the browser: the widget and
    its log are as before the call. *)
Theorem window_rect_while_move_outstanding (ops : list WindowOp)
  (answer : Rect) w w' :
  window_run ops w = Ok w' ->
  pending_window_rect_count_ w' <> 0 ->
  exists d,
    handed w' = handed w ++ d /\
    windowRect answer w' =
      (last_requested (pending_window_rect_ w) d, w') /\
    rootWindowRect answer w' =
      (last_requested (pending_window_rect_ w) d, w').
Proof.
  intros H Hn.
  destruct (run_accounted ops w w' H) as (_ & _ & d & Hd & _ & Hr & _).
  exists d. split; [exact Hd|].
  unfold windowRect, rootWindowRect.
  apply Z.eqb_neq in Hn. rewrite Hn, Hr. auto.
Qed.

(** X21 (a position set before show is the one shown).  setWindowRect
    before show sends nothing and only stores the position; show then
    hands exactly one message to Send, asking for that position, makes it
    the pending rectangle and counts it as an outstanding move. *)
Theorem position_set_before_show_is_shown (pos : Rect) w w' :
  did_show_ w = false ->
  show (setWindowRect pos w) = Ok w' ->
  handed (setWindowRect pos w) = handed w /\
  did_show_ w' = true /\
  pending_window_rect_ w' = pos /\
  pending_window_rect_count_ w' = pending_window_rect_count_ w + 1 /\
  exists h,
    handed w' = handed w ++ [h] /\
    is_show h = true /\
    requested_rect h = Some pos.
Proof.
  intros Hs H. unfold setWindowRect in *. rewrite Hs in *.
  split; [reflexivity|].
  unfold show in H. bind_inv H. bind_inv H. bind_inv H.
  simpl in H. rewrite Hs in H. simpl in H. injection H as <-.
  destruct (popup_params_ w) as [params|]; simpl; rewrite Send_hands; simpl;
    (repeat split; [];
     eexists; split; [reflexivity|];
     unfold is_show, requested_rect; rewrite body_handed_by_Send; auto).
Qed.

(** X22 (in a debug build the count never goes below zero).  With
    DCHECKs compiled in, a run that starts with a count of zero or more
    and is not stopped by a DCHECK ends with a count of zero or more:
    OnRequestMoveAck refuses an acknowledgement nobody is waiting for. *)
Theorem debug_build_count_stays_nonnegative (ops : list WindowOp) w w' :
  DCHECK_IS_ON = true ->
  0 <= pending_window_rect_count_ w ->
  window_run ops w = Ok w' ->
  0 <= pending_window_rect_count_ w'.
Proof.
  intros Hon. revert w. induction ops as [|op ops IH]; intros w Hn H;
    simpl in H.
  - injection H as <-. exact Hn.
  - apply bind_Ok in H. destruct H as (w1 & H1 & H).
    apply (IH w1); [|exact H].
    destruct op; simpl in H1.
    + destruct (accounted_show w w1 H1) as (_ & _ & d & _ & Hc & _).
      unfold requests in Hc. lia.
    + injection H1 as <-.
      destruct (accounted_setWindowRect pos w) as (_ & _ & d & _ & Hc & _).
      unfold requests in Hc. lia.
    + injection H1 as <-.
      destruct (accounted_windowRect answer w) as (_ & _ & d & _ & Hc & _).
      unfold requests in Hc. lia.
    + injection H1 as <-.
      destruct (accounted_rootWindowRect answer w)
        as (_ & _ & d & _ & Hc & _).
      unfold requests in Hc. lia.
    + unfold OnRequestMoveAck in H1.
      apply bind_Ok in H1. destruct H1 as (u & Hcheck & H1).
      injection H1 as <-. simpl.
      apply (fun H => DCHECK_Ok _ _ H Hon) in Hcheck.
      apply negb_true_iff, Z.eqb_neq in Hcheck. lia.
Qed.

End Facts.

End WindowRectFacts.

(** ** The further properties on the scenarios *)

Module Observed.

Import Scenario Episodes.

#[local] Existing Instance release_build.
#[local] Existing Instance ReferenceGfx.ops.
#[local] Existing Instance ReferenceAggregator.ops.

(** X1 on a life of the widget: hidden once, restored once, and visible
    at both ends. *)
Lemma hidden_notices_balance_witness :
  exists w',
    run life_ops idle_widget = Ok w' /\
    exists d,
      effects w' = effects idle_widget ++ d /\
      hidden_count d = Z.b2z (is_hidden_ w') - Z.b2z (is_hidden_ idle_widget).
Proof.
  eexists. split; [vm_compute; reflexivity|].
  apply (hidden_notices_balance life_ops idle_widget).
  vm_compute; reflexivity.
Defined.

(** X2 on a life of the widget: four well-formed input events, one of
    them held back until the flush, and a malformed one. *)
Lemma input_events_acknowledged_once_witness :
  ack_slot_ok idle_widget = true /\
  exists w',
    run life_ops idle_widget = Ok w' /\
    exists d,
      effects w' = effects idle_widget ++ d /\
      (acks_handed d + ack_stored w' =
       ack_stored idle_widget + count_input_events life_ops)%nat /\
      (closing_ w' = false -> filter is_delete d = []).
Proof.
  split; [reflexivity|].
  eexists. split; [vm_compute; reflexivity|].
  apply (input_events_acknowledged_once life_ops idle_widget);
    [reflexivity | vm_compute; reflexivity].
Defined.

(** X3 on a life of the widget, which ends with the Close task. *)
Lemma webwidget_closed_once_witness :
  exists w',
    run life_ops idle_widget = Ok w' /\
    (webwidget_ idle_widget = false -> webwidget_ w' = false) /\
    exists d,
      effects w' = effects idle_widget ++ d /\
      (count_effects is_webwidget_close d + alive w' =
       alive idle_widget)%nat.
Proof.
  eexists. split; [vm_compute; reflexivity|].
  apply (webwidget_closed_once life_ops idle_widget).
  vm_compute; reflexivity.
Defined.

(** X4 on the closed widget: a resize, a restore, a repaint request, an
    invalidation, a deferred update, a key and an acknowledgement arrive
    late. *)
Lemma closed_widget_is_left_alone_witness :
  webwidget_ closed = false /\
  ack_slot_ok closed = true /\
  forallb (fun op => negb (is_PaintRect op)) late_ops = true /\
  exists w',
    run late_ops closed = Ok w' /\
    webwidget_ w' = false /\
    exists d, effects w' = effects closed ++ d /\ filter is_webkit_call d = [].
Proof.
  split; [reflexivity|]. split; [reflexivity|]. split; [reflexivity|].
  eexists. split; [vm_compute; reflexivity|].
  apply (closed_widget_is_left_alone late_ops closed);
    [reflexivity | reflexivity | reflexivity | vm_compute; reflexivity].
Defined.


(** X6 on a life of the widget, whose routing id is 7. *)
Lemma every_message_is_routed_witness :
  routing_id_ idle_widget <> MSG_ROUTING_NONE /\
  exists w',
    run life_ops idle_widget = Ok w' /\
    exists d,
      effects w' = effects idle_widget ++ d /\
      Forall (fun m => routing_id m <> MSG_ROUTING_NONE) (forwarded d).
Proof.
  split; [vm_compute; lia|].
  eexists. split; [vm_compute; reflexivity|].
  apply (every_message_is_routed life_ops idle_widget);
    [vm_compute; lia | vm_compute; reflexivity].
Defined.

(** X8 on the widget with moves for plugins 11 and 12: plugin 11 goes. *)
Lemma CleanupWindowInPluginMoves_forgets_window_witness :
  distinct (windows (plugin_window_moves_ with_plugins)) = true /\
  find_move 11
    (plugin_window_moves_ (CleanupWindowInPluginMoves 11 with_plugins)) =
    None /\
  (forall other,
      other <> 11 ->
      find_move other
        (plugin_window_moves_ (CleanupWindowInPluginMoves 11 with_plugins)) =
      find_move other (plugin_window_moves_ with_plugins)) /\
  distinct
    (windows
       (plugin_window_moves_ (CleanupWindowInPluginMoves 11 with_plugins))) =
    true.
Proof.
  split; [reflexivity|].
  apply (CleanupWindowInPluginMoves_forgets_window 11 with_plugins).
  reflexivity.
Defined.


(** X10 on a life of the widget, in which plugin 11 is moved twice. *)
Lemma one_move_per_plugin_window_witness :
  distinct (windows (plugin_window_moves_ idle_widget)) = true /\
  ack_slot_ok idle_widget = true /\
  exists w',
    run life_ops idle_widget = Ok w' /\
    distinct (windows (plugin_window_moves_ w')) = true /\
    exists d,
      effects w' = effects idle_widget ++ d /\
      Forall (fun params =>
                distinct (windows (plugin_window_moves params)) = true)
             (sent_updates d).
Proof.
  split; [reflexivity|]. split; [reflexivity|].
  eexists. split; [vm_compute; reflexivity|].
  apply (one_move_per_plugin_window life_ops idle_widget);
    [reflexivity | reflexivity | vm_compute; reflexivity].
Defined.

(** X11 on the idle widget: a shortcut WebKit does not process, then two
    Char events around a flush. *)
Lemma unhandled_shortcut_swallows_chars_witness :
  input_event shortcut = Some RawKeyDown /\
  is_keyboard_shortcut_flag shortcut = true /\
  handleInputEvent_processed not_processed = false /\
  forallb only_chars typing_ops = true /\
  exists w',
    run typing_ops (OnHandleInputEvent shortcut not_processed idle_widget) =
      Ok w' /\
    suppress_next_char_events_ w' = true /\
    exists d,
      effects w' =
        effects (OnHandleInputEvent shortcut not_processed idle_widget) ++ d /\
      filter is_char_to_webkit d = [].
Proof.
  split; [reflexivity|]. split; [reflexivity|]. split; [reflexivity|].
  split; [reflexivity|].
  eexists. split; [vm_compute; reflexivity|].
  apply (unhandled_shortcut_swallows_chars shortcut not_processed typing_ops
           idle_widget);
    [reflexivity | reflexivity | intros _; reflexivity | reflexivity
    | vm_compute; reflexivity].
Defined.

(** X12 on the hidden widget with damage pending: the deferred update
    drops the damage, more arrives, and the restore repaints. *)
Lemma dropped_damage_is_repainted_on_restore_witness :
  webwidget_ hidden_damaged = true /\
  HasPendingUpdate (paint_aggregator_ hidden_damaged) = true /\
  update_reply_pending_ hidden_damaged = false /\
  is_hidden_ hidden_damaged = true /\
  forallb (fun op => negb (settles op)) hidden_ops = true /\
  exists w0 w1,
    DoDeferredUpdate (quiet_answers 10 10) hidden_damaged = Ok w0 /\
    run hidden_ops w0 = Ok w1 /\
    webwidget_ w1 = true /\
    effects w0 = effects hidden_damaged /\
    OnWasRestored false w1 = OnWasRestored true w1 /\
    next_paint_is_restore_ack (OnWasRestored false w1) = true /\
    is_hidden_ (OnWasRestored false w1) = false.
Proof.
  split; [reflexivity|]. split; [reflexivity|]. split; [reflexivity|].
  split; [reflexivity|]. split; [reflexivity|].
  eexists. eexists. split; [vm_compute; reflexivity|].
  split; [vm_compute; reflexivity|]. split; [vm_compute; reflexivity|].
  apply (dropped_damage_is_repainted_on_restore (quiet_answers 10 10)
           hidden_ops hidden_damaged);
    [reflexivity | reflexivity | reflexivity | reflexivity
    | vm_compute; reflexivity | reflexivity | vm_compute; reflexivity
    | vm_compute; reflexivity].
Defined.

(** X13 on a life of the widget, whose input method is never attached. *)
Lemma inactive_input_method_is_silent_witness :
  input_method_is_active_ idle_widget = false /\
  ack_slot_ok idle_widget = true /\
  forallb (fun op => negb (is_OnSetInputMethodActive op)) life_ops = true /\
  exists w',
    run life_ops idle_widget = Ok w' /\
    input_method_is_active_ w' = false /\
    exists d,
      effects w' = effects idle_widget ++ d /\ filter is_ime_update d = [].
Proof.
  split; [reflexivity|]. split; [reflexivity|]. split; [reflexivity|].
  eexists. split; [vm_compute; reflexivity|].
  apply (inactive_input_method_is_silent life_ops idle_widget);
    [reflexivity | reflexivity | reflexivity | vm_compute; reflexivity].
Defined.

(** X15 on the idle widget: a repaint request, a scroll, a key, and the
    flush. *)
Lemma repaint_ack_reaches_next_update_witness :
  webwidget_ idle_widget = true /\
  ack_slot_ok idle_widget = true /\
  exists w',
    run flush_ops (OnMsgRepaint (mkSize 100 100) idle_widget) = Ok w' /\
    exists d,
      effects w' = effects (OnMsgRepaint (mkSize 100 100) idle_widget) ++ d /\
      first_update_has ViewHostMsg_UpdateRect_Flags.IS_REPAINT_ACK d.
Proof.
  split; [reflexivity|]. split; [reflexivity|].
  eexists. split; [vm_compute; reflexivity|].
  apply (repaint_ack_reaches_next_update (mkSize 100 100) flush_ops
           idle_widget);
    [reflexivity | reflexivity | vm_compute; reflexivity].
Defined.

(** X16 on the hidden widget with damage pending, restored with a
    repaint. *)
Lemma restore_ack_reaches_next_update_witness :
  webwidget_ hidden_damaged = true /\
  ack_slot_ok hidden_damaged = true /\
  true || needs_repainting_on_restore_ hidden_damaged = true /\
  exists w',
    run flush_ops (OnWasRestored true hidden_damaged) = Ok w' /\
    exists d,
      effects w' = effects (OnWasRestored true hidden_damaged) ++ d /\
      first_update_has ViewHostMsg_UpdateRect_Flags.IS_RESTORE_ACK d.
Proof.
  split; [reflexivity|]. split; [reflexivity|]. split; [reflexivity|].
  eexists. split; [vm_compute; reflexivity|].
  apply (restore_ack_reaches_next_update true flush_ops hidden_damaged);
    [reflexivity | reflexivity | reflexivity | vm_compute; reflexivity].
Defined.

(** X17 on the idle widget: a resize and two flushes carry neither
    IS_RESTORE_ACK nor IS_REPAINT_ACK (mask 6). *)
Lemma update_flags_are_requested_witness :
  ack_slot_ok idle_widget = true /\
  Z.land (next_paint_flags_ idle_widget) 6 = 0 /\
  forallb (fun op => Z.land (raises op) 6 =? 0) resize_ops = true /\
  exists w',
    run resize_ops idle_widget = Ok w' /\
    Z.land (next_paint_flags_ w') 6 = 0 /\
    exists d,
      effects w' = effects idle_widget ++ d /\
      Forall (fun p => Z.land (flags p) 6 = 0) (sent_updates d).
Proof.
  split; [reflexivity|]. split; [reflexivity|]. split; [reflexivity|].
  eexists. split; [vm_compute; reflexivity|].
  apply (update_flags_are_requested 6 resize_ops idle_widget);
    [reflexivity | reflexivity | reflexivity | vm_compute; reflexivity].
Defined.

(** X18 on the new window: a show and a move requested, one
    acknowledged. *)
Lemma outstanding_moves_are_counted_witness :
  exists w',
    WindowRect.window_run window_ops new_window = Ok w' /\
    exists d,
      WindowRect.handed w' = WindowRect.handed new_window ++ d /\
      WindowRect.pending_window_rect_count_ w' =
        WindowRect.pending_window_rect_count_ new_window +
        WindowRect.requests d - WindowRect.move_acks window_ops /\
      WindowRect.pending_window_rect_ w' =
        WindowRect.last_requested
          (WindowRect.pending_window_rect_ new_window) d.
Proof.
  eexists. split; [vm_compute; reflexivity|].
  apply (WindowRectFacts.outstanding_moves_are_counted window_ops new_window).
  vm_compute; reflexivity.
Defined.

(** X19 on the new window. *)
Lemma show_message_goes_out_once_witness :
  exists w',
    WindowRect.window_run window_ops new_window = Ok w' /\
    (WindowRect.did_show_ new_window = true ->
     WindowRect.did_show_ w' = true) /\
    exists d,
      WindowRect.handed w' = WindowRect.handed new_window ++ d /\
      Z.of_nat (length (filter WindowRect.is_show d)) =
        Z.b2z (WindowRect.did_show_ w') -
        Z.b2z (WindowRect.did_show_ new_window).
Proof.
  eexists. split; [vm_compute; reflexivity|].
  apply (WindowRectFacts.show_message_goes_out_once window_ops new_window).
  vm_compute; reflexivity.
Defined.

(** X20 on the new window, which ends with one move outstanding. *)
Lemma window_rect_while_move_outstanding_witness :
  exists w',
    WindowRect.window_run window_ops new_window = Ok w' /\
    WindowRect.pending_window_rect_count_ w' <> 0 /\
    exists d,
      WindowRect.handed w' = WindowRect.handed new_window ++ d /\
      WindowRect.windowRect (mkRect 0 0 1 1) w' =
        (WindowRect.last_requested
           (WindowRect.pending_window_rect_ new_window) d, w') /\
      WindowRect.rootWindowRect (mkRect 0 0 1 1) w' =
        (WindowRect.last_requested
           (WindowRect.pending_window_rect_ new_window) d, w').
Proof.
  eexists. split; [vm_compute; reflexivity|].
  split; [vm_compute; lia|].
  apply (WindowRectFacts.window_rect_while_move_outstanding window_ops
           (mkRect 0 0 1 1) new_window);
    [vm_compute; reflexivity | vm_compute; lia].
Defined.

(** X21 on the new window. *)
Lemma position_set_before_show_is_shown_witness :
  WindowRect.did_show_ new_window = false /\
  exists w',
    WindowRect.show
      (WindowRect.setWindowRect (mkRect 10 10 200 100) new_window) = Ok w' /\
    WindowRect.handed
      (WindowRect.setWindowRect (mkRect 10 10 200 100) new_window) =
      WindowRect.handed new_window /\
    WindowRect.did_show_ w' = true /\
    WindowRect.pending_window_rect_ w' = mkRect 10 10 200 100 /\
    WindowRect.pending_window_rect_count_ w' =
      WindowRect.pending_window_rect_count_ new_window + 1 /\
    exists h,
      WindowRect.handed w' = WindowRect.handed new_window ++ [h] /\
      WindowRect.is_show h = true /\
      WindowRect.requested_rect h = Some (mkRect 10 10 200 100).
Proof.
  split; [reflexivity|].
  eexists. split; [vm_compute; reflexivity|].
  apply (WindowRectFacts.position_set_before_show_is_shown
           (mkRect 10 10 200 100) new_window);
    [reflexivity | vm_compute; reflexivity].
Defined.

(** X22 on the new window, in a debug build. *)
Lemma debug_build_count_stays_nonnegative_witness :
  @DCHECK_IS_ON debug_build = true /\
  0 <= WindowRect.pending_window_rect_count_ new_window /\
  exists w',
    @WindowRect.window_run debug_build window_ops new_window = Ok w' /\
    0 <= WindowRect.pending_window_rect_count_ w'.
Proof.
  split; [reflexivity|]. split; [vm_compute; discriminate|].
  eexists. split; [vm_compute; reflexivity|].
  apply (@WindowRectFacts.debug_build_count_stays_nonnegative debug_build
           window_ops new_window);
    [reflexivity | vm_compute; discriminate | vm_compute; reflexivity].
Defined.

End Observed.
